(** * go-shop: order lifecycle, inventory bookkeeping and the role gate

    A shallow embedding of [services/order.go], the role service, the
    product service's [UpdateStock] and [DeleteProduct], the
    user-facing order handlers that show, cancel and pay an order, and
    [ExtractTokenFromHeader], together with the part of the
    GORM/PostgreSQL behaviour these functions rely on.

    Conventions.
    - Go's [uint] and [int] are [Z]; [float64] is the kernel's binary64
      [float]; Go strings are [string].
    - A service function returns [(value, error)]; here it returns a
      [result string _] whose [Err] carries the text given to
      [errors.New] / [fmt.Errorf].
    - [database.DB] is the [World]: the tables, the id sequences, the
      clock, and a schedule of statement failures.
    - The timestamp columns (CreatedAt, UpdatedAt) are left out; rows
      whose DeletedAt is set are invisible to every query and update the
      services issue, so a table is the list of rows with DeletedAt
      null, in primary-key order.  No function of the repository
      deletes an order or a user, so of these two the table holds every
      row, which is what the unique index on order_number and the
      foreign key from orders to users look at. *)

From Stdlib Require Import ZArith List String Ascii Bool Lia Floats DecimalString.
From Stdlib Require Import Permutation DecimalPos.
Import ListNotations.

Open Scope string_scope.
Open Scope list_scope.
Open Scope Z_scope.

(** ** Results *)

Inductive result (E A : Type) : Type :=
| Ok (a : A)
| Err (e : E).
Arguments Ok {E A} a.
Arguments Err {E A} e.

Definition is_ok {E A} (r : result E A) : bool :=
  match r with Ok _ => true | Err _ => false end.

(** ** package models *)

(** Role constants *)
Definition ROLE_SUPER_ADMIN : string := "super_admin".
Definition ROLE_SELLER : string := "seller".
Definition ROLE_USER : string := "user".

Module Role.
Record t : Type := mk { ID : Z; Name : string; Description : string }.
End Role.

Module UserRole.
Record t : Type := mk { ID : Z; UserID : Z; RoleID : Z }.
End UserRole.

Module User.
Record t : Type := mk { ID : Z; Email : string }.
End User.

(** [type OrderStatus string] *)
Definition OrderStatus : Type := string.
Definition OrderStatusPending : OrderStatus := "pending".
Definition OrderStatusPaid : OrderStatus := "paid".
Definition OrderStatusConfirmed : OrderStatus := "confirmed".
Definition OrderStatusShipped : OrderStatus := "shipped".
Definition OrderStatusDelivered : OrderStatus := "delivered".
Definition OrderStatusCancelled : OrderStatus := "cancelled".

Module Product.
Record t : Type := mk {
    ID : Z;
    Title : string;
    Price : float;
    Stock : Z;
    OrderCount : Z
  }.
Definition set_Stock (p : t) (s : Z) : t :=
    mk (ID p) (Title p) (Price p) s (OrderCount p).
Definition set_OrderCount (p : t) (c : Z) : t :=
    mk (ID p) (Title p) (Price p) (Stock p) c.
End Product.

Module Order.
Record t : Type := mk {
    ID : Z;
    UserID : Z;
    OrderNumber : string;
    Status : OrderStatus;
    TotalAmount : float
  }.
Definition set_ID (o : t) (i : Z) : t :=
    mk i (UserID o) (OrderNumber o) (Status o) (TotalAmount o).
Definition set_Status (o : t) (s : OrderStatus) : t :=
    mk (ID o) (UserID o) (OrderNumber o) s (TotalAmount o).
End Order.

Module OrderItem.
Record t : Type := mk {
    ID : Z;
    OrderID : Z;
    ProductID : Z;
    Quantity : Z;
    PriceAtMoment : float
  }.
Definition set_ID (i : t) (n : Z) : t :=
    mk n (OrderID i) (ProductID i) (Quantity i) (PriceAtMoment i).
Definition set_OrderID (i : t) (n : Z) : t :=
    mk (ID i) n (ProductID i) (Quantity i) (PriceAtMoment i).
End OrderItem.

Module OrderItemRequest.
Record t : Type := mk { ProductID : Z; Quantity : Z }.
End OrderItemRequest.

Module OrderCreateRequest.
Record t : Type := mk { Items : list OrderItemRequest.t }.
End OrderCreateRequest.

Module OrderUpdateRequest.
Record t : Type := mk { Status : OrderStatus }.
End OrderUpdateRequest.

Module OrderItemResponse.
Record t : Type := mk {
    ID : Z;
    OrderID : Z;
    ProductID : Z;
    Quantity : Z;
    PriceAtMoment : float
  }.
End OrderItemResponse.

Module OrderResponse.
Record t : Type := mk {
    ID : Z;
    UserID : Z;
    OrderNumber : string;
    Status : OrderStatus;
    TotalAmount : float;
    OrderItems : list OrderItemResponse.t
  }.
End OrderResponse.

(** ** Go primitives used by the services *)

(** [float64(n)] for an [int]: the nearest binary64, ties to even. *)
Definition float64_of_int (n : Z) : float :=
  SF2Prim (binary_normalize prec emax n 0 false).

(** The [%d] verb of [fmt]. *)
Definition fmt_d (n : Z) : string := NilZero.string_of_int (Z.to_int n).

(** ** package database: the store behind [database.DB] *)

Inductive gorm_error : Type :=
| ErrRecordNotFound
| ErrEmptySlice
| ErrDriver.

(** [errors.Is(err, gorm.ErrRecordNotFound)] *)
Definition is_ErrRecordNotFound (e : gorm_error) : bool :=
  match e with ErrRecordNotFound => true | _ => false end.

Record Tables : Type := mkTables {
  products : list Product.t;
  orders : list Order.t;
  order_items : list OrderItem.t;
  users : list User.t;
  roles : list Role.t;
  user_roles : list UserRole.t
}.

Definition set_products (t : Tables) (l : list Product.t) : Tables :=
  mkTables l (orders t) (order_items t) (users t) (roles t) (user_roles t).
Definition set_orders (t : Tables) (l : list Order.t) : Tables :=
  mkTables (products t) l (order_items t) (users t) (roles t) (user_roles t).
Definition set_order_items (t : Tables) (l : list OrderItem.t) : Tables :=
  mkTables (products t) (orders t) l (users t) (roles t) (user_roles t).
Definition set_user_roles (t : Tables) (l : list UserRole.t) : Tables :=
  mkTables (products t) (orders t) (order_items t) (users t) (roles t) l.

(** The world a request runs in.  [faults] is the schedule of statement
    failures: each statement sent to the database takes the head flag,
    and a set flag makes that statement return a driver error without
    effect (a lost connection, a timeout, an out-of-range value, ...);
    an exhausted schedule means no further failure.  The sequences hand
    out primary keys and are not rewound by a rollback. *)
Record World : Type := mkWorld {
  tabs : Tables;
  seq_orders : Z;
  seq_order_items : Z;
  seq_user_roles : Z;
  faults : list bool;
  unix_now : Z
}.

Definition set_tabs (w : World) (t : Tables) : World :=
  mkWorld t (seq_orders w) (seq_order_items w) (seq_user_roles w)
          (faults w) (unix_now w).
Definition set_faults (w : World) (f : list bool) : World :=
  mkWorld (tabs w) (seq_orders w) (seq_order_items w) (seq_user_roles w)
          f (unix_now w).
Definition set_seq_orders (w : World) (n : Z) : World :=
  mkWorld (tabs w) n (seq_order_items w) (seq_user_roles w)
          (faults w) (unix_now w).
Definition set_seq_order_items (w : World) (n : Z) : World :=
  mkWorld (tabs w) (seq_orders w) n (seq_user_roles w)
          (faults w) (unix_now w).
Definition set_seq_user_roles (w : World) (n : Z) : World :=
  mkWorld (tabs w) (seq_orders w) (seq_order_items w) n
          (faults w) (unix_now w).

(** State passing, with Go-style error values. *)
Definition IO (A : Type) : Type := World -> A * World.

Definition ret {A} (a : A) : IO A := fun w => (a, w).
Definition bind {A B} (m : IO A) (k : A -> IO B) : IO B :=
  fun w => let (a, w') := m w in k a w'.

Declare Scope io_scope.
Delimit Scope io_scope with io.
Notation "x <- m ;; k" := (bind m (fun x => k))
  (at level 61, m at next level, right associativity) : io_scope.
Notation "m ;; k" := (bind m (fun _ => k))
  (at level 61, right associativity) : io_scope.
Open Scope io_scope.

Definition query (A : Type) : Type := IO (result gorm_error A).

(** One statement sent to the database. *)
Definition stmt {A} (run : query A) : query A := fun w =>
  match faults w with
  | true :: fs => (Err ErrDriver, set_faults w fs)
  | false :: fs => run (set_faults w fs)
  | [] => run w
  end.

(** A read that touches no row. *)
Definition reading {A} (f : Tables -> result gorm_error A) : query A :=
  fun w => (f (tabs w), w).

(** [.First(&row)]: the first row, by primary key, that matches. *)
Definition first_row {A} (p : A -> bool) (l : list A) : result gorm_error A :=
  match find p l with
  | Some a => Ok a
  | None => Err ErrRecordNotFound
  end.

(** *** Transactions

    A handle from [DB.Begin()].  The requests are served one at a time
    here, so the statements of a transaction work on the tables in
    place and [Rollback] puts the snapshot taken at [Begin] back.  When
    [Begin] itself failed the handle carries the error and every
    statement on it returns that error without reaching the database. *)
Record Tx : Type := mkTx { snapshot : Tables; tx_Error : bool }.

Definition Begin : IO Tx := fun w =>
  match faults w with
  | true :: fs => (mkTx (tabs w) true, set_faults w fs)
  | false :: fs => (mkTx (tabs w) false, set_faults w fs)
  | [] => (mkTx (tabs w) false, w)
  end.

Definition on_tx {A} (tx : Tx) (q : query A) : query A :=
  if tx_Error tx then ret (Err ErrDriver) else q.

Definition Rollback (tx : Tx) : IO unit := fun w =>
  (tt, set_tabs w (snapshot tx)).

(** A commit that fails leaves the transaction aborted. *)
Definition Commit (tx : Tx) : query unit := fun w =>
  if tx_Error tx then (Err ErrDriver, w)
  else match faults w with
       | true :: fs => (Err ErrDriver, set_tabs (set_faults w fs) (snapshot tx))
       | false :: fs => (Ok tt, set_faults w fs)
       | [] => (Ok tt, w)
       end.

(** *** The statements of the services *)

(** [First(&product, id)] *)
Definition First_product (id : Z) : query Product.t :=
  stmt (reading (fun t => first_row (fun p => Product.ID p =? id) (products t))).

(** What the schema of [models.Order] asks of a new row: a unique index
    is on order_number, and a foreign key goes from user_id to the
    users. *)
Definition order_admitted (t : Tables) (o : Order.t) : bool :=
  negb (existsb (fun r => String.eqb (Order.OrderNumber r) (Order.OrderNumber o))
                (orders t))
  && existsb (fun u => User.ID u =? Order.UserID o) (users t).

(** [Create(&order)]: the row gets the next primary key.  The database
    refuses an INSERT that repeats a stored number or names a user
    without a row, with a driver error and after the key was drawn. *)
Definition Create_order (o : Order.t) : query Order.t :=
  stmt (fun w =>
    let id := seq_orders w + 1 in
    let o' := Order.set_ID o id in
    if order_admitted (tabs w) o
    then (Ok o', set_tabs (set_seq_orders w id)
                          (set_orders (tabs w) (orders (tabs w) ++ [o'])))
    else (Err ErrDriver, set_seq_orders w id)).

(** Consecutive primary keys for a batch. *)
Fixpoint number_items (n : Z) (l : list OrderItem.t) : list OrderItem.t :=
  match l with
  | [] => []
  | i :: r => OrderItem.set_ID i (n + 1) :: number_items (n + 1) r
  end.

(** [Create(&orderItems)]: a batch insert; GORM refuses an empty slice
    before any statement is sent. *)
Definition Create_order_items (l : list OrderItem.t) : query (list OrderItem.t) :=
  match l with
  | [] => ret (Err ErrEmptySlice)
  | _ =>
    stmt (fun w =>
      let l' := number_items (seq_order_items w) l in
      (Ok l', set_tabs (set_seq_order_items w (seq_order_items w + Z.of_nat (List.length l)))
                       (set_order_items (tabs w) (order_items (tabs w) ++ l'))))
  end.

(** The rows [Preload("OrderItems")] attaches to an order. *)
Definition items_of (orderID : Z) (t : Tables) : list OrderItem.t :=
  filter (fun i => OrderItem.OrderID i =? orderID) (order_items t).

Definition Preload_OrderItems (orderID : Z) : query (list OrderItem.t) :=
  stmt (reading (fun t => Ok (items_of orderID t))).

(** [Preload("OrderItems.Product")]: the second level reads the
    products of the items; the services never look at them. *)
Definition Preload_Products : query unit :=
  stmt (reading (fun _ => Ok tt)).

(** [Where(cond).First(&order)] and [First(&order, id)] *)
Definition First_order (p : Order.t -> bool) : query Order.t :=
  stmt (reading (fun t => first_row p (orders t))).

(** [Save(&order)] of a row that was just read: every column of the row
    with that primary key is written. *)
Definition Save_order (o : Order.t) : query unit :=
  stmt (fun w =>
    (Ok tt, set_tabs w (set_orders (tabs w)
       (map (fun r => if Order.ID r =? Order.ID o then o else r) (orders (tabs w)))))).

(** [Model(&Product{}).Where("id = ?", id).Update(col, expr)] *)
Definition Update_products (id : Z) (f : Product.t -> Product.t) : query unit :=
  stmt (fun w =>
    (Ok tt, set_tabs w (set_products (tabs w)
       (map (fun p => if Product.ID p =? id then f p else p) (products (tabs w)))))).

(** [Preload(...).First(&order, ...)]: the order, then its items, then
    (for the nested preload, when there are items) their products. *)
Definition First_order_Preload (nested : bool) (p : Order.t -> bool)
  : query (Order.t * list OrderItem.t) :=
  r <- First_order p ;;
  match r with
  | Err e => ret (Err e)
  | Ok order =>
    r <- Preload_OrderItems (Order.ID order) ;;
    match r with
    | Err e => ret (Err e)
    | Ok items =>
      match nested, items with
      | true, _ :: _ =>
        r <- Preload_Products ;;
        match r with
        | Err e => ret (Err e)
        | Ok _ => ret (Ok (order, items))
        end
      | _, _ => ret (Ok (order, items))
      end
    end
  end.

(** [Where("user_id = ?", id).First(&userRole)] *)
Definition First_user_role (userID : Z) : query UserRole.t :=
  stmt (reading (fun t =>
    first_row (fun ur => UserRole.UserID ur =? userID) (user_roles t))).

(** [Preload("Role")]: the role the row points at, or the zero value. *)
Definition Preload_Role (roleID : Z) : query Role.t :=
  stmt (reading (fun t =>
    match find (fun r => Role.ID r =? roleID) (roles t) with
    | Some r => Ok r
    | None => Ok (Role.mk 0 "" "")
    end)).

(** [Where("name = ?", name).First(&role)] *)
Definition First_role_named (name : string) : query Role.t :=
  stmt (reading (fun t => first_row (fun r => String.eqb (Role.Name r) name) (roles t))).

(** [First(&user, id)] *)
Definition First_user (id : Z) : query User.t :=
  stmt (reading (fun t => first_row (fun u => User.ID u =? id) (users t))).

(** [Where("user_id = ?", id).Delete(&UserRole{})] *)
Definition Delete_user_roles (userID : Z) : query unit :=
  stmt (fun w =>
    (Ok tt, set_tabs w (set_user_roles (tabs w)
       (filter (fun ur => negb (UserRole.UserID ur =? userID)) (user_roles (tabs w)))))).

(** [Create(&userRole)] *)
Definition Create_user_role (ur : UserRole.t) : query UserRole.t :=
  stmt (fun w =>
    let id := seq_user_roles w + 1 in
    let ur' := UserRole.mk id (UserRole.UserID ur) (UserRole.RoleID ur) in
    (Ok ur', set_tabs (set_seq_user_roles w id)
                      (set_user_roles (tabs w) (user_roles (tabs w) ++ [ur'])))).

(** [time.Now().Unix()] *)
Definition time_Now_Unix : IO Z := fun w => (unix_now w, w).

(** ** package services: OrderService *)

Definition OrderItemResponse_of (item : OrderItem.t) : OrderItemResponse.t :=
  OrderItemResponse.mk (OrderItem.ID item) (OrderItem.OrderID item)
    (OrderItem.ProductID item) (OrderItem.Quantity item)
    (OrderItem.PriceAtMoment item).

Definition OrderResponse_of (order : Order.t) (items : list OrderItemResponse.t)
  : OrderResponse.t :=
  OrderResponse.mk (Order.ID order) (Order.UserID order) (Order.OrderNumber order)
    (Order.Status order) (Order.TotalAmount order) items.

Definition lookup_error (e : gorm_error) (what : string) : string :=
  if is_ErrRecordNotFound e then what else "database error".

(** The first loop of [CreateOrder]: per line, load the product, check
    its stock, add to the total and collect the order item. *)
Fixpoint CreateOrder_lines (tx : Tx) (items : list OrderItemRequest.t)
    (totalAmount : float) (orderItems : list OrderItem.t)
  : IO (result string (float * list OrderItem.t)) :=
  match items with
  | [] => ret (Ok (totalAmount, orderItems))
  | item :: rest =>
    r <- on_tx tx (First_product (OrderItemRequest.ProductID item)) ;;
    match r with
    | Err e =>
      Rollback tx ;;
      ret (Err (lookup_error e "product not found"))
    | Ok product =>
      if Product.Stock product <? OrderItemRequest.Quantity item then
        Rollback tx ;;
        ret (Err ("insufficient stock for product " ++ Product.Title product)%string)
      else
        let itemTotal :=
          (Product.Price product * float64_of_int (OrderItemRequest.Quantity item))%float in
        let orderItem :=
          OrderItem.mk 0 0 (OrderItemRequest.ProductID item)
            (OrderItemRequest.Quantity item) (Product.Price product) in
        CreateOrder_lines tx rest (totalAmount + itemTotal)%float
                          (orderItems ++ [orderItem])
    end
  end.

Definition CreateOrder (userID : Z) (req : OrderCreateRequest.t)
  : IO (result string OrderResponse.t) :=
  tx <- Begin ;;
  now <- time_Now_Unix ;;
  let orderNumber := ("ORD-" ++ fmt_d now ++ "-" ++ fmt_d userID)%string in
  r <- CreateOrder_lines tx (OrderCreateRequest.Items req) 0%float [] ;;
  match r with
  | Err e => ret (Err e)
  | Ok (totalAmount, orderItems) =>
    let order := Order.mk 0 userID orderNumber OrderStatusPending totalAmount in
    r <- on_tx tx (Create_order order) ;;
    match r with
    | Err _ => Rollback tx ;; ret (Err "failed to create order")
    | Ok order =>
      let orderItems :=
        map (fun i => OrderItem.set_OrderID i (Order.ID order)) orderItems in
      r <- on_tx tx (Create_order_items orderItems) ;;
      match r with
      | Err _ => Rollback tx ;; ret (Err "failed to create order items")
      | Ok _ =>
        r <- Commit tx ;;
        match r with
        | Err _ => ret (Err "failed to commit transaction")
        | Ok _ =>
          r <- First_order_Preload true (fun o => Order.ID o =? Order.ID order) ;;
          match r with
          | Err _ => ret (Err "failed to load order")
          | Ok (_, items) =>
            ret (Ok (OrderResponse_of order (map OrderItemResponse_of items)))
          end
        end
      end
    end
  end.

Definition UpdateOrderStatus (orderID userID : Z) (req : OrderUpdateRequest.t)
  : IO (result string OrderResponse.t) :=
  r <- First_order (fun o => (Order.ID o =? orderID) && (Order.UserID o =? userID)) ;;
  match r with
  | Err e => ret (Err (lookup_error e "order not found"))
  | Ok order =>
    if negb (String.eqb (OrderUpdateRequest.Status req) OrderStatusCancelled) then
      ret (Err "users can only cancel orders")
    else if String.eqb (Order.Status order) OrderStatusDelivered
            || String.eqb (Order.Status order) OrderStatusCancelled then
      ret (Err "order cannot be cancelled")
    else
      let order := Order.set_Status order (OrderUpdateRequest.Status req) in
      r <- Save_order order ;;
      match r with
      | Err _ => ret (Err "failed to update order")
      | Ok _ => ret (Ok (OrderResponse_of order []))
      end
  end.

(** The loop of [ConfirmOrder]: per item, one update of the stock and
    one of the order count. *)
Fixpoint ConfirmOrder_items (tx : Tx) (items : list OrderItem.t)
  : IO (result string unit) :=
  match items with
  | [] => ret (Ok tt)
  | item :: rest =>
    r <- on_tx tx (Update_products (OrderItem.ProductID item)
           (fun p => Product.set_Stock p (Product.Stock p - OrderItem.Quantity item))) ;;
    match r with
    | Err _ => Rollback tx ;; ret (Err "failed to update product stock")
    | Ok _ =>
      r <- on_tx tx (Update_products (OrderItem.ProductID item)
             (fun p => Product.set_OrderCount p (Product.OrderCount p + 1))) ;;
      match r with
      | Err _ => Rollback tx ;; ret (Err "failed to update product order count")
      | Ok _ => ConfirmOrder_items tx rest
      end
    end
  end.

Definition ConfirmOrder (orderID : Z) : IO (result string OrderResponse.t) :=
  tx <- Begin ;;
  r <- on_tx tx (First_order_Preload false (fun o => Order.ID o =? orderID)) ;;
  match r with
  | Err e => Rollback tx ;; ret (Err (lookup_error e "order not found"))
  | Ok (order, items) =>
    if negb (String.eqb (Order.Status order) OrderStatusPaid) then
      Rollback tx ;; ret (Err "order must be paid before confirmation")
    else
      r <- ConfirmOrder_items tx items ;;
      match r with
      | Err e => ret (Err e)
      | Ok _ =>
        let order := Order.set_Status order OrderStatusConfirmed in
        r <- on_tx tx (Save_order order) ;;
        match r with
        | Err _ => Rollback tx ;; ret (Err "failed to update order status")
        | Ok _ =>
          r <- Commit tx ;;
          match r with
          | Err _ => ret (Err "failed to commit transaction")
          | Ok _ => ret (Ok (OrderResponse_of order []))
          end
        end
      end
  end.

(** ShipOrder marks an order as shipped (Admin/Seller only) *)
Definition ShipOrder (orderID : Z) : IO (result string OrderResponse.t) :=
  r <- First_order (fun o => Order.ID o =? orderID) ;;
  match r with
  | Err e => ret (Err (lookup_error e "order not found"))
  | Ok order =>
    if negb (String.eqb (Order.Status order) OrderStatusConfirmed) then
      ret (Err "order must be confirmed before shipping")
    else
      let order := Order.set_Status order OrderStatusShipped in
      r <- Save_order order ;;
      match r with
      | Err _ => ret (Err "failed to update order status")
      | Ok _ => ret (Ok (OrderResponse_of order []))
      end
  end.

(** DeliverOrder marks an order as delivered (Admin only) *)
Definition DeliverOrder (orderID : Z) : IO (result string OrderResponse.t) :=
  r <- First_order (fun o => Order.ID o =? orderID) ;;
  match r with
  | Err e => ret (Err (lookup_error e "order not found"))
  | Ok order =>
    if negb (String.eqb (Order.Status order) OrderStatusShipped) then
      ret (Err "order must be shipped before delivery")
    else
      let order := Order.set_Status order OrderStatusDelivered in
      r <- Save_order order ;;
      match r with
      | Err _ => ret (Err "failed to update order status")
      | Ok _ => ret (Ok (OrderResponse_of order []))
      end
  end.

(** CancelOrder cancels an order (User or Admin) *)
Definition CancelOrder (orderID : Z) : IO (result string OrderResponse.t) :=
  r <- First_order (fun o => Order.ID o =? orderID) ;;
  match r with
  | Err e => ret (Err (lookup_error e "order not found"))
  | Ok order =>
    if String.eqb (Order.Status order) OrderStatusDelivered
       || String.eqb (Order.Status order) OrderStatusCancelled then
      ret (Err "order cannot be cancelled")
    else
      let order := Order.set_Status order OrderStatusCancelled in
      r <- Save_order order ;;
      match r with
      | Err _ => ret (Err "failed to update order status")
      | Ok _ => ret (Ok (OrderResponse_of order []))
      end
  end.

(** PayOrder marks an order as paid (User only) *)
Definition PayOrder (orderID userID : Z) : IO (result string OrderResponse.t) :=
  r <- First_order (fun o => (Order.ID o =? orderID) && (Order.UserID o =? userID)) ;;
  match r with
  | Err e => ret (Err (lookup_error e "order not found"))
  | Ok order =>
    if negb (String.eqb (Order.Status order) OrderStatusPending) then
      ret (Err "only pending orders can be paid")
    else
      let order := Order.set_Status order OrderStatusPaid in
      r <- Save_order order ;;
      match r with
      | Err _ => ret (Err "failed to update order status")
      | Ok _ => ret (Ok (OrderResponse_of order []))
      end
  end.

(** ** package services: ProductService *)

(** Go's [int] addition: 64 bits, two's complement. *)
Definition int_add (a b : Z) : Z :=
  (a + b + 2 ^ 63) mod 2 ^ 64 - 2 ^ 63.

(** [Model(&product).Update("stock", newStock)] *)
Definition Update_stock (product : Product.t) (newStock : Z) : query unit :=
  Update_products (Product.ID product) (fun p => Product.set_Stock p newStock).

Definition UpdateStock (productID quantity : Z) : IO (result string unit) :=
  r <- First_product productID ;;
  match r with
  | Err e => ret (Err (lookup_error e "product not found"))
  | Ok product =>
    let newStock := int_add (Product.Stock product) quantity in
    if newStock <? 0 then ret (Err "insufficient stock")
    else
      r <- Update_stock product newStock ;;
      match r with
      | Err _ => ret (Err "failed to update stock")
      | Ok _ => ret (Ok tt)
      end
  end.

(** ** package services: RoleService *)

Definition GetUserRole (userID : Z) : IO (result gorm_error string) :=
  r <- First_user_role userID ;;
  match r with
  | Err e =>
    if is_ErrRecordNotFound e then ret (Ok ROLE_USER) else ret (Err e)
  | Ok userRole =>
    r <- Preload_Role (UserRole.RoleID userRole) ;;
    match r with
    | Err e => ret (Err e)
    | Ok role => ret (Ok (Role.Name role))
    end
  end.

Definition AssignRole (userID : Z) (roleName : string) (assignedBy : Z)
  : IO (result string unit) :=
  r <- GetUserRole assignedBy ;;
  match r with
  | Err _ => ret (Err "failed to verify assigner role")
  | Ok assignerRole =>
    if negb (String.eqb assignerRole ROLE_SUPER_ADMIN) then
      ret (Err "only super admin can assign roles")
    else
      r <- First_role_named roleName ;;
      match r with
      | Err _ => ret (Err "role not found")
      | Ok role =>
        r <- First_user userID ;;
        match r with
        | Err _ => ret (Err "user not found")
        | Ok _ =>
          tx <- Begin ;;
          if tx_Error tx then ret (Err "failed to start transaction")
          else
            r <- on_tx tx (Delete_user_roles userID) ;;
            match r with
            | Err _ => Rollback tx ;; ret (Err "failed to remove existing role")
            | Ok _ =>
              let userRole := UserRole.mk 0 userID (Role.ID role) in
              r <- on_tx tx (Create_user_role userRole) ;;
              match r with
              | Err _ => Rollback tx ;; ret (Err "failed to assign role")
              | Ok _ =>
                r <- Commit tx ;;
                match r with
                | Err _ => ret (Err "failed to commit role assignment")
                | Ok _ => ret (Ok tt)
                end
              end
            end
        end
      end
  end.

Definition RemoveRole (userID removedBy : Z) : IO (result string unit) :=
  r <- GetUserRole removedBy ;;
  match r with
  | Err _ => ret (Err "failed to verify remover role")
  | Ok removerRole =>
    if negb (String.eqb removerRole ROLE_SUPER_ADMIN) then
      ret (Err "only super admin can remove roles")
    else if userID =? removedBy then
      ret (Err "cannot remove your own role")
    else
      r <- First_user userID ;;
      match r with
      | Err _ => ret (Err "user not found")
      | Ok _ =>
        r <- First_user_role userID ;;
        match r with
        | Err e =>
          ret (Err (if is_ErrRecordNotFound e then "user has no role to remove"
                    else "failed to check user role"))
        | Ok _ =>
          tx <- Begin ;;
          if tx_Error tx then ret (Err "failed to start transaction")
          else
            r <- on_tx tx (Delete_user_roles userID) ;;
            match r with
            | Err _ => Rollback tx ;; ret (Err "failed to remove role")
            | Ok _ =>
              r <- Commit tx ;;
              match r with
              | Err _ => ret (Err "failed to commit role removal")
              | Ok _ => ret (Ok tt)
              end
            end
        end
      end
  end.

(** ** package strconv, as the handlers use it *)

(** [strconv.ErrSyntax], [strconv.ErrRange] and their texts. *)
Inductive strconv_error : Type :=
| ErrSyntax
| ErrRange.

Definition strconv_error_Error (e : strconv_error) : string :=
  match e with
  | ErrSyntax => "invalid syntax"
  | ErrRange => "value out of range"
  end.

(** [*strconv.NumError] *)
Module NumError.
Record t : Type := mk { Func : string; Num : string; Err : strconv_error }.
End NumError.

(** [strconv.ParseUint(s, 10, 32)]: decimal digits only, at least one,
    and the value read so far never above 2^32 - 1; the error is the
    first one met from the left, and carries the function's name and
    the string given. *)
Definition digit_of (c : ascii) : option Z :=
  let n := Z.of_nat (nat_of_ascii c) in
  if (48 <=? n) && (n <=? 57) then Some (n - 48) else None.

Fixpoint parse_digits (s : string) (n : Z) : result strconv_error Z :=
  match s with
  | EmptyString => Ok n
  | String c rest =>
    match digit_of c with
    | None => Err ErrSyntax
    | Some d =>
      let n1 := 10 * n + d in
      if 4294967295 <? n1 then Err ErrRange
      else parse_digits rest n1
    end
  end.

Definition ParseUint32 (s : string) : result NumError.t Z :=
  match s with
  | EmptyString => Err (NumError.mk "ParseUint" s ErrSyntax)
  | _ =>
    match parse_digits s 0 with
    | Ok n => Ok n
    | Err e => Err (NumError.mk "ParseUint" s e)
    end
  end.

(** The bytes [strconv.Quote] writes for a byte below 0x80: a backslash
    before the quote and the backslash, the printable ones as they are,
    the short escapes, and two hexadecimal digits for the rest. *)
Definition double_quote : ascii := ascii_of_nat 34.
Definition backslash : ascii := ascii_of_nat 92.

Definition lowerhex (n : Z) : ascii :=
  ascii_of_nat (Z.to_nat (if n <? 10 then 48 + n else 87 + n)).

Definition escaped (c : ascii) : string :=
  let n := Z.of_nat (nat_of_ascii c) in
  if (n =? 34) || (n =? 92) then String backslash (String c "")
  else if (32 <=? n) && (n <=? 126) then String c ""
  else if n =? 7 then String backslash "a"
  else if n =? 8 then String backslash "b"
  else if n =? 12 then String backslash "f"
  else if n =? 10 then String backslash "n"
  else if n =? 13 then String backslash "r"
  else if n =? 9 then String backslash "t"
  else if n =? 11 then String backslash "v"
  else String backslash
         (String "x" (String (lowerhex (n / 16)) (String (lowerhex (n mod 16)) ""))).

Fixpoint escape (s : string) : string :=
  match s with
  | EmptyString => ""
  | String c rest => (escaped c ++ escape rest)%string
  end.

Fixpoint below_0x80 (s : string) : bool :=
  match s with
  | EmptyString => true
  | String c rest => (Z.of_nat (nat_of_ascii c) <? 128) && below_0x80 rest
  end.

Section Quote.

(** On a string with a byte from 0x80 on, [strconv.Quote] decodes UTF-8
    and looks the runes up in Unicode's tables of printable characters,
    which are not part of this development: what it returns there is a
    parameter. *)
Variable Quote_beyond_ASCII : string -> string.

(** [strconv.Quote(s)] *)
Definition Quote (s : string) : string :=
  if below_0x80 s
  then String double_quote (escape s ++ String double_quote "")
  else Quote_beyond_ASCII s.

(** The method [Error()] of [*strconv.NumError] *)
Definition NumError_Error (e : NumError.t) : string :=
  ("strconv." ++ NumError.Func e ++ ": parsing " ++ Quote (NumError.Num e)
   ++ ": " ++ strconv_error_Error (NumError.Err e))%string.

End Quote.

(** ** package handlers: OrderHandler.CancelOrder *)

(** What the handler reads of [*gin.Context]: the value the
    authentication middleware stored under "user_id" and the ":id" path
    parameter. *)
Record Context : Type := mkContext {
  ctx_user_id : option Z;
  ctx_param_id : string
}.

Inductive body : Type :=
| ErrorResponse (Error Message : string)
| SuccessResponse (Message : string) (Data : OrderResponse.t).

(** [c.JSON(code, body)] *)
Record JSON : Type := mkJSON { code : Z; payload : body }.

Definition StatusOK : Z := 200.
Definition StatusBadRequest : Z := 400.
Definition StatusUnauthorized : Z := 401.

Section OrderHandler.

Variable Quote_beyond_ASCII : string -> string.

Definition OrderHandler_CancelOrder (c : Context) : IO JSON :=
  match ctx_user_id c with
  | None => ret (mkJSON StatusUnauthorized (ErrorResponse "User not authenticated" ""))
  | Some _ =>
    match ParseUint32 (ctx_param_id c) with
    | Err err =>
      ret (mkJSON StatusBadRequest
             (ErrorResponse "Invalid order ID" (NumError_Error Quote_beyond_ASCII err)))
    | Ok orderID =>
      r <- CancelOrder orderID ;;
      match r with
      | Err e => ret (mkJSON StatusBadRequest (ErrorResponse "Failed to cancel order" e))
      | Ok order => ret (mkJSON StatusOK (SuccessResponse "Order cancelled successfully" order))
      end
    end
  end.

(** [OrderHandler.UpdateOrderStatus] and [OrderHandler.PayOrder] pass
    the caller's id on to the service, which selects the order by
    [id = ? AND user_id = ?]. *)
Definition OrderHandler_PayOrder (c : Context) : IO JSON :=
  match ctx_user_id c with
  | None => ret (mkJSON StatusUnauthorized (ErrorResponse "User not authenticated" ""))
  | Some userID =>
    match ParseUint32 (ctx_param_id c) with
    | Err err =>
      ret (mkJSON StatusBadRequest
             (ErrorResponse "Invalid order ID" (NumError_Error Quote_beyond_ASCII err)))
    | Ok orderID =>
      r <- PayOrder orderID userID ;;
      match r with
      | Err e => ret (mkJSON StatusBadRequest (ErrorResponse "Failed to pay order" e))
      | Ok order => ret (mkJSON StatusOK (SuccessResponse "Order paid successfully" order))
      end
    end
  end.

End OrderHandler.

(** ** package services: OrderService, the queries *)

Definition GetOrderByID (orderID userID : Z) : IO (result string OrderResponse.t) :=
  r <- First_order_Preload true
         (fun o => (Order.ID o =? orderID) && (Order.UserID o =? userID)) ;;
  match r with
  | Err e => ret (Err (lookup_error e "order not found"))
  | Ok (order, items) =>
    ret (Ok (OrderResponse_of order (map OrderItemResponse_of items)))
  end.

(** [Preload("OrderItems")] for a list of orders: one statement for all
    of them, none when the list is empty. *)
Definition Preload_OrderItems_all (l : list Order.t)
  : query (list (Order.t * list OrderItem.t)) :=
  match l with
  | [] => ret (Ok [])
  | _ => stmt (reading (fun t => Ok (map (fun o => (o, items_of (Order.ID o) t)) l)))
  end.

Section GetUserOrders.

(** The rows carry no [created_at] here, so the order of
    [Order("created_at DESC")] is a parameter: some rearrangement of
    the rows found. *)
Variable created_at_DESC : list Order.t -> list Order.t.

(** [Preload("OrderItems").Where("user_id = ?", id).Order("created_at DESC").Find(&orders)] *)
Definition Find_orders_of (userID : Z) : query (list (Order.t * list OrderItem.t)) :=
  r <- stmt (reading (fun t =>
         Ok (created_at_DESC (filter (fun o => Order.UserID o =? userID) (orders t))))) ;;
  match r with
  | Err e => ret (Err e)
  | Ok l => Preload_OrderItems_all l
  end.

Definition GetUserOrders (userID : Z) : IO (result string (list OrderResponse.t)) :=
  r <- Find_orders_of userID ;;
  match r with
  | Err _ => ret (Err "failed to get orders")
  | Ok orders =>
    ret (Ok (map (fun oi => OrderResponse_of (fst oi) (map OrderItemResponse_of (snd oi)))
                 orders))
  end.

End GetUserOrders.

(** ** package services: ProductService.DeleteProduct *)

(** [Model(&OrderItem{}).Where("product_id = ?", id).Count(&count)] *)
Definition Count_order_items (productID : Z) : query Z :=
  stmt (reading (fun t =>
    Ok (Z.of_nat (List.length
          (filter (fun i => OrderItem.ProductID i =? productID) (order_items t)))))).

(** [Delete(&product)]: the row with the product's primary key gets its
    DeletedAt set and leaves the table of live rows. *)
Definition Delete_product (product : Product.t) : query unit :=
  stmt (fun w =>
    (Ok tt, set_tabs w (set_products (tabs w)
       (filter (fun p => negb (Product.ID p =? Product.ID product))
               (products (tabs w)))))).

Definition DeleteProduct (productID : Z) : IO (result string unit) :=
  r <- First_product productID ;;
  match r with
  | Err e => ret (Err (lookup_error e "product not found"))
  | Ok product =>
    r <- Count_order_items productID ;;
    match r with
    | Err _ => ret (Err "failed to check product orders")
    | Ok count =>
      if 0 <? count then ret (Err "cannot delete product with existing orders")
      else
        r <- Delete_product product ;;
        match r with
        | Err _ => ret (Err "failed to delete product")
        | Ok _ => ret (Ok tt)
        end
    end
  end.

(** ** package services: RoleService, the role tests *)

Definition HasRole (userID : Z) (roleName : string) : IO bool :=
  r <- GetUserRole userID ;;
  match r with
  | Err _ => ret false
  | Ok userRole => ret (String.eqb userRole roleName)
  end.

Definition IsSuperAdmin (userID : Z) : IO bool := HasRole userID ROLE_SUPER_ADMIN.

Definition IsSeller (userID : Z) : IO bool := HasRole userID ROLE_SELLER.

(** ** package middleware *)

(** [s[n:]] *)
Fixpoint string_drop (n : nat) (s : string) : string :=
  match n, s with
  | O, _ => s
  | S n', String _ rest => string_drop n' rest
  | S _, EmptyString => EmptyString
  end.

Definition ExtractTokenFromHeader (authHeader : string) : string :=
  let bearerPrefix := "Bearer " in
  if String.prefix bearerPrefix authHeader
  then string_drop (String.length bearerPrefix) authHeader
  else "".

(** ** package handlers: OrderHandler.GetOrderByID *)

Definition StatusNotFound : Z := 404.

Section OrderHandler_GetOrderByID.

Variable Quote_beyond_ASCII : string -> string.

Definition OrderHandler_GetOrderByID (c : Context) : IO JSON :=
  match ctx_user_id c with
  | None => ret (mkJSON StatusUnauthorized (ErrorResponse "User not authenticated" ""))
  | Some userID =>
    match ParseUint32 (ctx_param_id c) with
    | Err err =>
      ret (mkJSON StatusBadRequest
             (ErrorResponse "Invalid order ID" (NumError_Error Quote_beyond_ASCII err)))
    | Ok orderID =>
      r <- GetOrderByID orderID userID ;;
      match r with
      | Err e => ret (mkJSON StatusNotFound (ErrorResponse "Order not found" e))
      | Ok order => ret (mkJSON StatusOK (SuccessResponse "Order retrieved successfully" order))
      end
    end
  end.

End OrderHandler_GetOrderByID.

(** * Reading the tables

    The vocabulary of the statements below: what a request finds in the
    tables, and what the tables hold after it. *)

(** A request that meets no failing statement. *)
Definition quiet (w : World) : Prop := faults w = [].

(** ** Lines of a request

    What the first loop of CreateOrder decides for one line, against a
    product table. *)
Definition product_of (t : Tables) (id : Z) : option Product.t :=
  find (fun p => Product.ID p =? id) (products t).

Definition in_stock (t : Tables) (item : OrderItemRequest.t) : bool :=
  match product_of t (OrderItemRequest.ProductID item) with
  | Some p => negb (Product.Stock p <? OrderItemRequest.Quantity item)
  | None => false
  end.

(** The price the loop freezes for a line, the running total after a
    line, and the item it collects. *)
Definition unit_price (t : Tables) (item : OrderItemRequest.t) : float :=
  match product_of t (OrderItemRequest.ProductID item) with
  | Some p => Product.Price p
  | None => 0%float
  end.

Definition add_line (t : Tables) (total : float) (item : OrderItemRequest.t) : float :=
  (total + unit_price t item * float64_of_int (OrderItemRequest.Quantity item))%float.

Definition line_item (t : Tables) (item : OrderItemRequest.t) : OrderItem.t :=
  OrderItem.mk 0 0 (OrderItemRequest.ProductID item)
    (OrderItemRequest.Quantity item) (unit_price t item).

(** The error of a line that is not in stock. *)
Definition rejection (t : Tables) (item : OrderItemRequest.t) : string :=
  match product_of t (OrderItemRequest.ProductID item) with
  | Some p => ("insufficient stock for product " ++ Product.Title p)%string
  | None => "product not found"
  end.

(** The number CreateOrder gives an order of [userID] at the time of
    [w]; whether no stored order carries it; whether the user has a
    row. *)
Definition order_number (w : World) (userID : Z) : string :=
  ("ORD-" ++ fmt_d (unix_now w) ++ "-" ++ fmt_d userID)%string.

Definition number_free (w : World) (userID : Z) : bool :=
  negb (existsb (fun r => String.eqb (Order.OrderNumber r) (order_number w userID))
                (orders (tabs w))).

Definition user_known (t : Tables) (userID : Z) : bool :=
  existsb (fun u => User.ID u =? userID) (users t).

(** The rows a successful CreateOrder writes. *)
Definition placed_order (w : World) (userID : Z) (items : list OrderItemRequest.t)
  : Order.t :=
  Order.mk (seq_orders w + 1) userID
    ("ORD-" ++ fmt_d (unix_now w) ++ "-" ++ fmt_d userID)%string
    OrderStatusPending
    (fold_left (add_line (tabs w)) items 0%float).

Definition placed_items (w : World) (items : list OrderItemRequest.t)
  : list OrderItem.t :=
  number_items (seq_order_items w)
    (map (fun i => OrderItem.set_OrderID i (seq_orders w + 1))
         (map (line_item (tabs w)) items)).

Definition placed (w : World) (userID : Z) (items : list OrderItemRequest.t)
  : World :=
  mkWorld
    (set_order_items
       (set_orders (tabs w) (orders (tabs w) ++ [placed_order w userID items]))
       (order_items (tabs w) ++ placed_items w items))
    (seq_orders w + 1)
    (seq_order_items w + Z.of_nat (List.length items))
    (seq_user_roles w) [] (unix_now w).

(** A persisted row that carries a line's product, quantity and frozen
    price, under the given order. *)
Definition frozen (t : Tables) (orderID : Z)
    (item : OrderItemRequest.t) (row : OrderItem.t) : Prop :=
  OrderItem.OrderID row = orderID /\
  OrderItem.ProductID row = OrderItemRequest.ProductID item /\
  OrderItem.Quantity row = OrderItemRequest.Quantity item /\
  OrderItem.PriceAtMoment row = unit_price t item.

(** ** Invariants of the tables *)

(** An action keeps [I], whatever the failure schedule. *)
Definition preserves {A} (I : Tables -> Prop) (m : IO A) : Prop :=
  forall w, I (tabs w) -> I (tabs (snd (m w))).

(** ** Confirmation

    What the two updates of one item do to the product table. *)
Definition ship_line (item : OrderItem.t) (ps : list Product.t) : list Product.t :=
  map (fun p => if Product.ID p =? OrderItem.ProductID item
                then Product.set_OrderCount p (Product.OrderCount p + 1) else p)
      (map (fun p => if Product.ID p =? OrderItem.ProductID item
                     then Product.set_Stock p (Product.Stock p - OrderItem.Quantity item)
                     else p) ps).

Definition ship_lines (items : list OrderItem.t) (ps : list Product.t)
  : list Product.t :=
  fold_left (fun ps item => ship_line item ps) items ps.

(** Per product: the quantity ordered over all lines naming it, and the
    number of those lines. *)
Fixpoint ordered_quantity (id : Z) (items : list OrderItem.t) : Z :=
  match items with
  | [] => 0
  | item :: rest =>
    (if OrderItem.ProductID item =? id then OrderItem.Quantity item else 0)
    + ordered_quantity id rest
  end.

Fixpoint ordered_lines (id : Z) (items : list OrderItem.t) : Z :=
  match items with
  | [] => 0
  | item :: rest =>
    (if OrderItem.ProductID item =? id then 1 else 0) + ordered_lines id rest
  end.

(** A product after the items of an order were confirmed. *)
Definition shipped (items : list OrderItem.t) (p : Product.t) : Product.t :=
  Product.mk (Product.ID p) (Product.Title p) (Product.Price p)
    (Product.Stock p - ordered_quantity (Product.ID p) items)
    (Product.OrderCount p + ordered_lines (Product.ID p) items).

(** The order table after [Save(&o)]. *)
Definition saved (o : Order.t) (l : list Order.t) : list Order.t :=
  map (fun r => if Order.ID r =? Order.ID o then o else r) l.

(** The tables after a confirmation of order [o]. *)
Definition confirmed (o : Order.t) (t : Tables) : Tables :=
  set_orders
    (set_products t (map (shipped (items_of (Order.ID o) t)) (products t)))
    (saved (Order.set_Status o OrderStatusConfirmed) (orders t)).

(** ** Status transitions

    PayOrder, ShipOrder, DeliverOrder and CancelOrder have one shape:
    select the order, test its status, save the new one. *)
Definition simple_transition (sel : Order.t -> bool) (allowed : OrderStatus -> bool)
    (to : OrderStatus) (refusal : string) : IO (result string OrderResponse.t) :=
  r <- First_order sel ;;
  match r with
  | Err e => ret (Err (lookup_error e "order not found"))
  | Ok order =>
    if allowed (Order.Status order) then
      r <- Save_order (Order.set_Status order to) ;;
      match r with
      | Err _ => ret (Err "failed to update order status")
      | Ok _ => ret (Ok (OrderResponse_of (Order.set_Status order to) []))
      end
    else ret (Err refusal)
  end.

(** The operations on an order's status. *)
Inductive transition : Type :=
| Pay (userID : Z)
| Confirm
| Ship
| Deliver
| Cancel.

Definition run (tr : transition) (orderID : Z) : IO (result string OrderResponse.t) :=
  match tr with
  | Pay userID => PayOrder orderID userID
  | Confirm => ConfirmOrder orderID
  | Ship => ShipOrder orderID
  | Deliver => DeliverOrder orderID
  | Cancel => CancelOrder orderID
  end.

(** The state machine as the specification draws it: the status a
    transition leads to, if it has an edge from the current one. *)
Definition edge (tr : transition) (s : OrderStatus) : option OrderStatus :=
  match tr with
  | Pay _ => if String.eqb s "pending" then Some "paid" else None
  | Confirm => if String.eqb s "paid" then Some "confirmed" else None
  | Ship => if String.eqb s "confirmed" then Some "shipped" else None
  | Deliver => if String.eqb s "shipped" then Some "delivered" else None
  | Cancel =>
    if existsb (String.eqb s) ["pending"; "paid"; "confirmed"; "shipped"]
    then Some "cancelled" else None
  end.

(** The six statuses. *)
Definition statuses : list OrderStatus :=
  [OrderStatusPending; OrderStatusPaid; OrderStatusConfirmed;
   OrderStatusShipped; OrderStatusDelivered; OrderStatusCancelled].

(** The validation error of each transition. *)
Definition refusal (tr : transition) : string :=
  match tr with
  | Pay _ => "only pending orders can be paid"
  | Confirm => "order must be paid before confirmation"
  | Ship => "order must be confirmed before shipping"
  | Deliver => "order must be shipped before delivery"
  | Cancel => "order cannot be cancelled"
  end.

(** The status test, the status written and the row selected by each
    transition in the code. *)
Definition guard (tr : transition) (s : OrderStatus) : bool :=
  match tr with
  | Pay _ => String.eqb s OrderStatusPending
  | Confirm => String.eqb s OrderStatusPaid
  | Ship => String.eqb s OrderStatusConfirmed
  | Deliver => String.eqb s OrderStatusShipped
  | Cancel => negb (String.eqb s OrderStatusDelivered
                    || String.eqb s OrderStatusCancelled)
  end.

Definition target (tr : transition) : OrderStatus :=
  match tr with
  | Pay _ => OrderStatusPaid
  | Confirm => OrderStatusConfirmed
  | Ship => OrderStatusShipped
  | Deliver => OrderStatusDelivered
  | Cancel => OrderStatusCancelled
  end.

Definition selects (tr : transition) (orderID : Z) (o : Order.t) : bool :=
  match tr with
  | Pay userID => (Order.ID o =? orderID) && (Order.UserID o =? userID)
  | _ => Order.ID o =? orderID
  end.

(** ** Roles

    The role a user resolves to, read off the tables. *)
Definition role_of (t : Tables) (userID : Z) : string :=
  match find (fun ur => UserRole.UserID ur =? userID) (user_roles t) with
  | None => ROLE_USER
  | Some ur =>
    match find (fun r => Role.ID r =? UserRole.RoleID ur) (roles t) with
    | Some r => Role.Name r
    | None => ""
    end
  end.

(** The assignments left after those of [userID] are deleted. *)
Definition without_user (userID : Z) (l : list UserRole.t) : list UserRole.t :=
  filter (fun ur => negb (UserRole.UserID ur =? userID)) l.

(** The role table rows after [AssignRole] gave [role] to [userID]. *)
Definition assigned (userID : Z) (role : Role.t) (id : Z) (t : Tables) : Tables :=
  set_user_roles t
    (without_user userID (user_roles t) ++ [UserRole.mk id userID (Role.ID role)]).

(** ** From request to confirmation

    Per product, over the lines of a request: the quantity asked for
    and the number of lines. *)
Fixpoint requested_quantity (id : Z) (items : list OrderItemRequest.t) : Z :=
  match items with
  | [] => 0
  | item :: rest =>
    (if OrderItemRequest.ProductID item =? id
     then OrderItemRequest.Quantity item else 0)
    + requested_quantity id rest
  end.

Fixpoint requested_lines (id : Z) (items : list OrderItemRequest.t) : Z :=
  match items with
  | [] => 0
  | item :: rest =>
    (if OrderItemRequest.ProductID item =? id then 1 else 0)
    + requested_lines id rest
  end.

(** The primary keys in use were handed out by the sequence. *)
Definition keys_issued (w : World) : Prop :=
  Forall (fun o => Order.ID o <= seq_orders w) (orders (tabs w)) /\
  Forall (fun i => OrderItem.OrderID i <= seq_orders w) (order_items (tabs w)).

(** ** A shop to run the services on *)

Definition widget : Product.t := Product.mk 1 "Widget" 10%float 5 0.
Definition gadget : Product.t := Product.mk 2 "Gadget" 5%float 1 0.

(** Users 7 and 8 are customers without a role row; user 9 is the
    super admin. *)
Definition shop : World :=
  mkWorld
    (mkTables [widget; gadget] [] []
       [User.mk 7 "ann@example.org"; User.mk 8 "bob@example.org";
        User.mk 9 "root@example.org"]
       [Role.mk 1 ROLE_SUPER_ADMIN "Super Administrator with full access";
        Role.mk 2 ROLE_SELLER "Seller with limited admin access";
        Role.mk 3 ROLE_USER "Regular user"]
       [UserRole.mk 1 9 1])
    0 0 1 [] 1700000000.

(** The request of the specification's example. *)
Definition two_lines : list OrderItemRequest.t :=
  [OrderItemRequest.mk 1 2; OrderItemRequest.mk 2 1].

(** The shop after user 7 ordered [two_lines], and after paying. *)
Definition shop_pending : World :=
  snd (CreateOrder 7 (OrderCreateRequest.mk two_lines) shop).

Definition shop_paid : World := snd (PayOrder 1 7 shop_pending).

(** Its order row, in status [s]. *)
Definition first_order (s : OrderStatus) : Order.t :=
  Order.mk 1 7 "ORD-1700000000-7" s 25%float.

(** Whether an error text carries a product's title. *)
Definition mentions (title msg : string) : bool :=
  match index 0 title msg with
  | Some _ => true
  | None => false
  end.

(** Two lines for the one Gadget in stock. *)
Definition gadget_twice : list OrderItemRequest.t :=
  [OrderItemRequest.mk 2 1; OrderItemRequest.mk 2 1].

(** ** Orders over their life, numerals, and what a client may ask *)

(** What never changes on an order row. *)
Definition order_core (o : Order.t) : Z * Z * string * float :=
  (Order.ID o, Order.UserID o, Order.OrderNumber o, Order.TotalAmount o).

Definition terminal (s : OrderStatus) : bool :=
  String.eqb s OrderStatusDelivered || String.eqb s OrderStatusCancelled.

(** The tables after a transition that went through on order [o]. *)
Definition moved (tr : transition) (o : Order.t) (t : Tables) : Tables :=
  match tr with
  | Confirm => confirmed o t
  | _ => set_orders t (saved (Order.set_Status o (target tr)) (orders t))
  end.

(** One row of the order table before and after a transition. *)
Definition row_step (tr : transition) (r r' : Order.t) : Prop :=
  r' = r \/
  (guard tr (Order.Status r) = true /\ r' = Order.set_Status r (target tr)).

(** The tables once CreateOrder has committed order [id] with item keys
    after [n]. *)
Definition committed (userID : Z) (items : list OrderItemRequest.t)
    (number : string) (id n : Z) (t : Tables) : Tables :=
  set_order_items
    (set_orders t
       (orders t ++
        [Order.mk id userID number OrderStatusPending
           (fold_left (add_line t) items 0%float)]))
    (order_items t ++
     number_items n
       (map (fun i => OrderItem.set_OrderID i id) (map (line_item t) items))).

(** Every line item names a live product and a stored order. *)
Definition items_reference_products (t : Tables) : Prop :=
  Forall (fun i => In (OrderItem.ProductID i) (map Product.ID (products t)))
         (order_items t).

Definition items_reference_orders (t : Tables) : Prop :=
  Forall (fun i => In (OrderItem.OrderID i) (map Order.ID (orders t)))
         (order_items t).

Definition referential_integrity (t : Tables) : Prop :=
  items_reference_products t /\ items_reference_orders t.

(** What a client may ask of the services that write. *)
Inductive request : Type :=
| AskCreateOrder (userID : Z) (req : OrderCreateRequest.t)
| AskTransition (tr : transition) (orderID : Z)
| AskUpdateOrderStatus (orderID userID : Z) (req : OrderUpdateRequest.t)
| AskUpdateStock (productID quantity : Z)
| AskDeleteProduct (productID : Z)
| AskAssignRole (userID : Z) (roleName : string) (assignedBy : Z)
| AskRemoveRole (userID removedBy : Z).

Definition serve (r : request) (w : World) : World :=
  match r with
  | AskCreateOrder userID req => snd (CreateOrder userID req w)
  | AskTransition tr orderID => snd (run tr orderID w)
  | AskUpdateOrderStatus orderID userID req =>
    snd (UpdateOrderStatus orderID userID req w)
  | AskUpdateStock productID quantity => snd (UpdateStock productID quantity w)
  | AskDeleteProduct productID => snd (DeleteProduct productID w)
  | AskAssignRole userID roleName assignedBy =>
    snd (AssignRole userID roleName assignedBy w)
  | AskRemoveRole userID removedBy => snd (RemoveRole userID removedBy w)
  end.

(** The number a string of decimal digits stands for, read from the left
    onto [acc]. *)
Fixpoint uint_value (d : Decimal.uint) (acc : Z) : Z :=
  match d with
  | Decimal.Nil => acc
  | Decimal.D0 d => uint_value d (10 * acc + 0)
  | Decimal.D1 d => uint_value d (10 * acc + 1)
  | Decimal.D2 d => uint_value d (10 * acc + 2)
  | Decimal.D3 d => uint_value d (10 * acc + 3)
  | Decimal.D4 d => uint_value d (10 * acc + 4)
  | Decimal.D5 d => uint_value d (10 * acc + 5)
  | Decimal.D6 d => uint_value d (10 * acc + 6)
  | Decimal.D7 d => uint_value d (10 * acc + 7)
  | Decimal.D8 d => uint_value d (10 * acc + 8)
  | Decimal.D9 d => uint_value d (10 * acc + 9)
  end.

Definition is_digit (c : ascii) : bool :=
  match digit_of c with Some _ => true | None => false end.

Fixpoint all_digits (s : string) : bool :=
  match s with
  | EmptyString => true
  | String c rest => is_digit c && all_digits rest
  end.

(** The text of the error of [strconv.ParseUint] on a string [s] of
    bytes that [strconv.Quote] leaves as they are:
    strconv.ParseUint: parsing <s in double quotes>: <reason>. *)
Definition parsing_error (s : string) (e : strconv_error) : string :=
  ("strconv.ParseUint: parsing "
   ++ String double_quote (s ++ String double_quote (": " ++ strconv_error_Error e)))%string.

(** * Properties *)

(** ** Running statements *)

Ltac io_unfold :=
  unfold bind, ret, stmt, reading, on_tx, Rollback, Commit, Begin,
    time_Now_Unix, query in *.

(** Split on the next flag of the failure schedule [f]. *)
Ltac next_fault f := destruct f as [|[|] f]; simpl.

Lemma bind_run {A B} (m : IO A) (k : A -> IO B) w a w' :
  m w = (a, w') -> bind m k w = k a w'.
Proof. unfold bind. now intros ->. Qed.

Ltac quiet_tac := unfold quiet in *; simpl; assumption.

(** Run the next action of a sequence with a lemma that computes it. *)
Ltac run_with L :=
  erewrite bind_run by (apply L; first [quiet_tac | assumption | reflexivity]);
  cbv beta iota.

Lemma stmt_quiet {A} (run : query A) w : quiet w -> stmt run w = run w.
Proof. unfold quiet, stmt. now intros ->. Qed.

Lemma Begin_quiet w : quiet w -> Begin w = (mkTx (tabs w) false, w).
Proof. unfold quiet, Begin. now intros ->. Qed.

Lemma Commit_quiet tx w :
  tx_Error tx = false -> quiet w -> Commit tx w = (Ok tt, w).
Proof. unfold quiet, Commit. now intros -> ->. Qed.

Lemma on_tx_ok {A} tx (q : query A) : tx_Error tx = false -> on_tx tx q = q.
Proof. unfold on_tx. now intros ->. Qed.

Lemma First_order_quiet p w :
  quiet w -> First_order p w = (first_row p (orders (tabs w)), w).
Proof. intros Hq. unfold First_order. now rewrite stmt_quiet. Qed.

Lemma First_order_Preload_quiet nested p w :
  quiet w ->
  First_order_Preload nested p w =
  (match first_row p (orders (tabs w)) with
   | Ok o => Ok (o, items_of (Order.ID o) (tabs w))
   | Err e => Err e
   end, w).
Proof.
  intros Hq. unfold First_order_Preload.
  run_with First_order_quiet.
  destruct (first_row p (orders (tabs w))) as [o|e]; [|reflexivity].
  unfold Preload_OrderItems, Preload_Products.
  erewrite bind_run by (rewrite stmt_quiet by assumption; reflexivity).
  cbv beta iota.
  destruct nested, (items_of (Order.ID o) (tabs w)); try reflexivity.
  erewrite bind_run by (rewrite stmt_quiet by assumption; reflexivity).
  reflexivity.
Qed.

Lemma Save_order_quiet o w :
  quiet w ->
  Save_order o w =
  (Ok tt, set_tabs w (set_orders (tabs w)
     (map (fun r => if Order.ID r =? Order.ID o then o else r) (orders (tabs w))))).
Proof. intros Hq. unfold Save_order. now rewrite stmt_quiet. Qed.

Lemma Create_order_quiet o w :
  quiet w ->
  order_admitted (tabs w) o = true ->
  Create_order o w =
  (Ok (Order.set_ID o (seq_orders w + 1)),
   set_tabs (set_seq_orders w (seq_orders w + 1))
     (set_orders (tabs w) (orders (tabs w) ++ [Order.set_ID o (seq_orders w + 1)]))).
Proof. intros Hq Ha. unfold Create_order. rewrite stmt_quiet by exact Hq. now rewrite Ha. Qed.

Lemma Create_order_refused o w :
  quiet w ->
  order_admitted (tabs w) o = false ->
  Create_order o w = (Err ErrDriver, set_seq_orders w (seq_orders w + 1)).
Proof. intros Hq Ha. unfold Create_order. rewrite stmt_quiet by exact Hq. now rewrite Ha. Qed.

(** The new row of CreateOrder is admitted when its number is free and
    its user known. *)
Lemma order_admitted_new w userID s total :
  order_admitted (tabs w) (Order.mk 0 userID (order_number w userID) s total) =
  number_free w userID && user_known (tabs w) userID.
Proof. reflexivity. Qed.

Lemma Create_order_items_quiet l w :
  l <> [] -> quiet w ->
  Create_order_items l w =
  (Ok (number_items (seq_order_items w) l),
   set_tabs (set_seq_order_items w (seq_order_items w + Z.of_nat (List.length l)))
     (set_order_items (tabs w)
        (order_items (tabs w) ++ number_items (seq_order_items w) l))).
Proof.
  intros Hl Hq. destruct l; [congruence|].
  unfold Create_order_items. now rewrite stmt_quiet.
Qed.

Lemma Update_products_quiet id f w :
  quiet w ->
  Update_products id f w =
  (Ok tt, set_tabs w (set_products (tabs w)
     (map (fun p => if Product.ID p =? id then f p else p) (products (tabs w))))).
Proof. intros Hq. unfold Update_products. now rewrite stmt_quiet. Qed.

(** ** CreateOrder *)

(** The first loop on any schedule: it passes only when every line is in
    stock, and a failure has rolled back. *)
Lemma CreateOrder_lines_any tx items : forall total acc w,
  let r := fst (CreateOrder_lines tx items total acc w) in
  let w' := snd (CreateOrder_lines tx items total acc w) in
  match r with
  | Ok _ => tabs w' = tabs w /\ forallb (in_stock (tabs w)) items = true
  | Err _ => tabs w' = snapshot tx
  end.
Proof.
  induction items as [|item rest IH]; intros total acc w; simpl.
  - auto.
  - unfold First_product, in_stock, product_of. io_unfold.
    destruct (tx_Error tx) eqn:Etx; simpl; [reflexivity|].
    destruct w as [t so si su f now]; simpl.
    unfold first_row.
    next_fault f; try reflexivity.
    all: destruct (find _ (products t)) as [p|] eqn:Ef; simpl; try reflexivity.
    all: destruct (Product.Stock p <? _) eqn:Es; simpl; try reflexivity.
    all: match goal with
         | |- context [CreateOrder_lines ?x ?l ?a ?b ?w] =>
           specialize (IH a b w); simpl in IH;
           destruct (CreateOrder_lines x l a b w) as [[v|e] w1]; simpl in *
         end.
    all: try assumption.
    all: unfold in_stock, product_of in IH; tauto.
Qed.

Lemma CreateOrder_lines_quiet tx items : forall total acc w,
  tx_Error tx = false -> quiet w ->
  forallb (in_stock (tabs w)) items = true ->
  CreateOrder_lines tx items total acc w =
  (Ok (fold_left (add_line (tabs w)) items total,
       acc ++ map (line_item (tabs w)) items), w).
Proof.
  induction items as [|item rest IH]; intros total acc w Htx Hq Hin; simpl.
  - now rewrite app_nil_r.
  - simpl in Hin. apply andb_true_iff in Hin. destruct Hin as [Hi Hrest].
    unfold in_stock, product_of in Hi.
    unfold First_product. io_unfold. rewrite Htx.
    unfold quiet in Hq. rewrite Hq. simpl. unfold first_row.
    destruct (find _ (products (tabs w))) as [p|] eqn:Ef; [|discriminate].
    apply negb_true_iff in Hi. rewrite Hi.
    rewrite (IH _ _ w Htx Hq Hrest).
    assert (Hp : unit_price (tabs w) item = Product.Price p)
      by (unfold unit_price, product_of; now rewrite Ef).
    assert (Ha : add_line (tabs w) total item =
                 (total + Product.Price p *
                    float64_of_int (OrderItemRequest.Quantity item))%float)
      by (unfold add_line; now rewrite Hp).
    assert (Hl : line_item (tabs w) item =
                 OrderItem.mk 0 0 (OrderItemRequest.ProductID item)
                   (OrderItemRequest.Quantity item) (Product.Price p))
      by (unfold line_item; now rewrite Hp).
    rewrite Ha, Hl, <- app_assoc. reflexivity.
Qed.

Lemma CreateOrder_lines_rejects tx pre line post : forall total acc w,
  tx_Error tx = false -> quiet w ->
  forallb (in_stock (tabs w)) pre = true ->
  in_stock (tabs w) line = false ->
  CreateOrder_lines tx (pre ++ line :: post) total acc w =
  (Err (rejection (tabs w) line), set_tabs w (snapshot tx)).
Proof.
  induction pre as [|item rest IH]; intros total acc w Htx Hq Hpre Hline; simpl.
  - unfold in_stock, rejection, product_of in *.
    unfold First_product. io_unfold. rewrite Htx.
    unfold quiet in Hq. rewrite Hq. simpl. unfold first_row.
    destruct (find _ (products (tabs w))) as [p|] eqn:Ef; simpl.
    + apply negb_false_iff in Hline. now rewrite Hline.
    + reflexivity.
  - simpl in Hpre. apply andb_true_iff in Hpre. destruct Hpre as [Hi Hrest].
    unfold in_stock, product_of in Hi.
    unfold First_product. io_unfold. rewrite Htx.
    pose proof Hq as Hq'. unfold quiet in Hq'. rewrite Hq'. simpl. unfold first_row.
    destruct (find _ (products (tabs w))) as [p|] eqn:Ef; [|discriminate].
    apply negb_true_iff in Hi. rewrite Hi.
    now apply IH.
Qed.

Lemma find_app_last {A} (p : A -> bool) (l : list A) (x : A) :
  p x = true -> exists y, find p (l ++ [x]) = Some y /\ p y = true.
Proof.
  intros Hx. induction l as [|a l IH]; simpl.
  - rewrite Hx. eauto.
  - destruct (p a) eqn:Ea; eauto.
Qed.

Lemma CreateOrder_quiet userID items w :
  quiet w -> items <> [] ->
  forallb (in_stock (tabs w)) items = true ->
  number_free w userID = true ->
  user_known (tabs w) userID = true ->
  CreateOrder userID (OrderCreateRequest.mk items) w =
  (Ok (OrderResponse_of (placed_order w userID items)
         (map OrderItemResponse_of
              (items_of (seq_orders w + 1) (tabs (placed w userID items))))),
   placed w userID items).
Proof.
  intros Hq Hne Hin Hfree Hknown.
  unfold CreateOrder.
  run_with Begin_quiet.
  erewrite bind_run by reflexivity. cbv beta iota.
  erewrite bind_run by (apply CreateOrder_lines_quiet; auto). cbv beta iota.
  rewrite on_tx_ok by reflexivity.
  erewrite bind_run.
  2:{ apply Create_order_quiet; [quiet_tac|].
      change (order_admitted (tabs w)
                (Order.mk 0 userID (order_number w userID) OrderStatusPending
                   (fold_left (add_line (tabs w)) items 0%float)) = true).
      now rewrite order_admitted_new, Hfree, Hknown. }
  cbv beta iota.
  rewrite on_tx_ok by reflexivity.
  erewrite bind_run.
  2:{ apply Create_order_items_quiet; [|quiet_tac].
      destruct items; [congruence|discriminate]. }
  cbv beta iota.
  erewrite bind_run by (apply Commit_quiet; [reflexivity|quiet_tac]).
  cbv beta iota.
  erewrite bind_run by (apply First_order_Preload_quiet; quiet_tac).
  cbv beta iota.
  destruct w as [t so si su f now]. unfold quiet in Hq. simpl in *. subst f.
  unfold first_row.
  match goal with
  | |- context [find ?p (?l ++ [?x])] =>
    destruct (find_app_last p l x) as [y [Hy Hpy]];
      [simpl; apply Z.eqb_refl|rewrite Hy]
  end.
  apply Z.eqb_eq in Hpy. rewrite Hpy.
  unfold placed, placed_order, placed_items. simpl. rewrite !length_map.
  reflexivity.
Qed.

Lemma in_stock_iff t item :
  in_stock t item = true <->
  exists p, product_of t (OrderItemRequest.ProductID item) = Some p /\
            OrderItemRequest.Quantity item <= Product.Stock p.
Proof.
  unfold in_stock. destruct (product_of t _) as [p|].
  - rewrite negb_true_iff, Z.ltb_ge. split.
    + intros H. exists p. auto.
    + intros [q [[= <-] H]]. exact H.
  - split; [discriminate|]. intros [q [[=] _]].
Qed.

Lemma in_stock_all t items :
  Forall (fun item =>
    exists p, product_of t (OrderItemRequest.ProductID item) = Some p /\
              OrderItemRequest.Quantity item <= Product.Stock p) items ->
  forallb (in_stock t) items = true.
Proof.
  intros H. apply forallb_forall. intros item Hi.
  apply in_stock_iff. rewrite Forall_forall in H. auto.
Qed.

Lemma number_items_frozen t orderID items : forall n,
  Forall2 (frozen t orderID) items
    (number_items n
       (map (fun i => OrderItem.set_OrderID i orderID) (map (line_item t) items))).
Proof.
  induction items as [|item rest IH]; intros n; simpl; constructor.
  - unfold frozen. simpl. auto.
  - apply IH.
Qed.

(** The orders table refuses the new row: CreateOrder reports it and
    rolls back. *)
Lemma CreateOrder_not_admitted userID items w :
  quiet w ->
  forallb (in_stock (tabs w)) items = true ->
  number_free w userID && user_known (tabs w) userID = false ->
  CreateOrder userID (OrderCreateRequest.mk items) w =
  (Err "failed to create order", set_seq_orders w (seq_orders w + 1)).
Proof.
  intros Hq Hin Hadm.
  unfold CreateOrder.
  run_with Begin_quiet.
  erewrite bind_run by reflexivity. cbv beta iota.
  erewrite bind_run by (apply CreateOrder_lines_quiet; auto). cbv beta iota.
  rewrite on_tx_ok by reflexivity.
  erewrite bind_run.
  2:{ apply Create_order_refused; [quiet_tac|].
      change (order_admitted (tabs w)
                (Order.mk 0 userID (order_number w userID) OrderStatusPending
                   (fold_left (add_line (tabs w)) items 0%float)) = false).
      now rewrite order_admitted_new. }
  cbv beta iota.
  destruct w as [t so si su f now]. reflexivity.
Qed.

(** C1, amended.  When no statement fails, a non-empty request in which
    every line names an existing product whose stock covers the line's
    quantity, placed by a user who has a row and has no stored order
    with the number ORD-<unix second>-<user id> of this second, makes
    CreateOrder succeed: the response is in status pending, its total
    is the float64 sum, in line order and starting from 0, of the
    product's current price times the quantity, one order row with that
    total is appended, and one item row per line is appended, under the
    new order, with the line's product, quantity and the price read at
    that moment. *)
Theorem CreateOrder_pending_with_total userID items w :
  quiet w -> items <> [] ->
  Forall (fun item =>
    exists p, product_of (tabs w) (OrderItemRequest.ProductID item) = Some p /\
              OrderItemRequest.Quantity item <= Product.Stock p) items ->
  user_known (tabs w) userID = true ->
  number_free w userID = true ->
  exists resp rows,
    fst (CreateOrder userID (OrderCreateRequest.mk items) w) = Ok resp /\
    OrderResponse.Status resp = OrderStatusPending /\
    OrderResponse.TotalAmount resp = fold_left (add_line (tabs w)) items 0%float /\
    orders (tabs (snd (CreateOrder userID (OrderCreateRequest.mk items) w))) =
      orders (tabs w) ++
      [Order.mk (OrderResponse.ID resp) userID (OrderResponse.OrderNumber resp)
         OrderStatusPending (fold_left (add_line (tabs w)) items 0%float)] /\
    order_items (tabs (snd (CreateOrder userID (OrderCreateRequest.mk items) w))) =
      order_items (tabs w) ++ rows /\
    Forall2 (frozen (tabs w) (OrderResponse.ID resp)) items rows.
Proof.
  intros Hq Hne Hall Hknown Hfree.
  rewrite (CreateOrder_quiet userID items w Hq Hne (in_stock_all _ _ Hall)
             Hfree Hknown).
  eexists. exists (placed_items w items). simpl.
  repeat split. apply number_items_frozen.
Qed.

Lemma Begin_any w :
  snapshot (fst (Begin w)) = tabs w /\ tabs (snd (Begin w)) = tabs w.
Proof. unfold Begin. destruct (faults w) as [|[|] fs]; simpl; auto. Qed.

Lemma CreateOrder_bad_line_any userID items w :
  forallb (in_stock (tabs w)) items = false ->
  is_ok (fst (CreateOrder userID (OrderCreateRequest.mk items) w)) = false /\
  tabs (snd (CreateOrder userID (OrderCreateRequest.mk items) w)) = tabs w.
Proof.
  intros Hbad. unfold CreateOrder, bind.
  destruct (Begin_any w) as [Hs Ht].
  destruct (Begin w) as [tx w1]. simpl in *.
  pose proof (CreateOrder_lines_any tx items 0%float [] w1) as Hl.
  destruct (CreateOrder_lines tx items 0%float [] w1) as [[[total rows]|e] w2];
    simpl in *.
  - destruct Hl as [_ Hl]. rewrite Ht in Hl. congruence.
  - split; [reflexivity|congruence].
Qed.

Lemma CreateOrder_bad_line_quiet userID pre line post w :
  quiet w ->
  forallb (in_stock (tabs w)) pre = true ->
  in_stock (tabs w) line = false ->
  fst (CreateOrder userID (OrderCreateRequest.mk (pre ++ line :: post)) w) =
  Err (rejection (tabs w) line).
Proof.
  intros Hq Hpre Hline. unfold CreateOrder.
  run_with Begin_quiet.
  erewrite bind_run by reflexivity. cbv beta iota.
  erewrite bind_run by (apply CreateOrder_lines_rejects; auto).
  reflexivity.
Qed.

(** C2, as amended.  When a line names a missing product or asks for
    more than the stock, and every line before it can be served,
    CreateOrder fails on every failure schedule and leaves all tables
    as they were; when no statement fails the error is the one of that
    first line: "product not found" for a missing product, and
    "insufficient stock for product <Title>" for an under-stocked
    one. *)
Theorem CreateOrder_first_bad_line_rolls_back userID pre line post w :
  Forall (fun item =>
    exists p, product_of (tabs w) (OrderItemRequest.ProductID item) = Some p /\
              OrderItemRequest.Quantity item <= Product.Stock p) pre ->
  (product_of (tabs w) (OrderItemRequest.ProductID line) = None \/
   exists p, product_of (tabs w) (OrderItemRequest.ProductID line) = Some p /\
             Product.Stock p < OrderItemRequest.Quantity line) ->
  let out := CreateOrder userID (OrderCreateRequest.mk (pre ++ line :: post)) w in
  is_ok (fst out) = false /\
  tabs (snd out) = tabs w /\
  (quiet w ->
   match product_of (tabs w) (OrderItemRequest.ProductID line) with
   | None => fst out = Err "product not found"
   | Some p =>
     fst out = Err ("insufficient stock for product " ++ Product.Title p)%string
   end).
Proof.
  intros Hpre Hline out.
  assert (Hl : in_stock (tabs w) line = false).
  { unfold in_stock. destruct Hline as [-> | [p [-> Hp]]]; [reflexivity|].
    apply negb_false_iff, Z.ltb_lt, Hp. }
  assert (Hall : forallb (in_stock (tabs w)) (pre ++ line :: post) = false).
  { rewrite forallb_app. simpl. rewrite Hl.
    now rewrite andb_false_r. }
  destruct (CreateOrder_bad_line_any userID _ w Hall) as [H1 H2].
  repeat split; try assumption.
  intros Hq. subst out.
  rewrite (CreateOrder_bad_line_quiet userID pre line post w Hq
             (in_stock_all _ _ Hpre) Hl).
  unfold rejection. destruct (product_of _ _); reflexivity.
Qed.

(** ** Invariants of the tables *)

Section Invariants.

Variable I : Tables -> Prop.

Lemma preserves_ret {A} (a : A) : preserves I (ret a).
Proof. intros w H. exact H. Qed.

Lemma preserves_bind {A B} (m : IO A) (k : A -> IO B) :
  preserves I m -> (forall a, preserves I (k a)) -> preserves I (bind m k).
Proof.
  intros Hm Hk w H. unfold bind. specialize (Hm w H).
  destruct (m w) as [a w1]. exact (Hk a w1 Hm).
Qed.

Lemma preserves_Begin_bind {B} (k : Tx -> IO B) :
  (forall tx, I (snapshot tx) -> preserves I (k tx)) -> preserves I (bind Begin k).
Proof.
  intros Hk w H. unfold bind. destruct (Begin_any w) as [Hs Ht].
  destruct (Begin w) as [tx w1]. simpl in *.
  apply Hk; congruence.
Qed.

Lemma preserves_stmt {A} (run : query A) :
  preserves I run -> preserves I (stmt run).
Proof.
  intros Hr w H. unfold stmt. destruct (faults w) as [|[|] fs]; simpl.
  - apply Hr, H.
  - exact H.
  - apply (Hr (set_faults w fs)), H.
Qed.

Lemma preserves_reading {A} (f : Tables -> result gorm_error A) :
  preserves I (reading f).
Proof. intros w H. exact H. Qed.

Lemma preserves_on_tx {A} tx (q : query A) :
  preserves I q -> preserves I (on_tx tx q).
Proof. intros Hq. unfold on_tx. destruct (tx_Error tx); [apply preserves_ret|exact Hq]. Qed.

Lemma preserves_Rollback tx : I (snapshot tx) -> preserves I (Rollback tx).
Proof. intros Hs w _. exact Hs. Qed.

Lemma preserves_Commit tx : I (snapshot tx) -> preserves I (Commit tx).
Proof.
  intros Hs w H. unfold Commit.
  destruct (tx_Error tx); [exact H|].
  destruct (faults w) as [|[|] fs]; simpl; assumption.
Qed.

End Invariants.

(** One step of a proof that a service keeps an invariant: follow the
    shape of the action. *)
Ltac preserve_step :=
  first
    [ apply preserves_ret
    | apply preserves_reading
    | apply preserves_Begin_bind; intros ? ?
    | apply preserves_bind; [|intros ?]
    | apply preserves_on_tx
    | apply preserves_stmt
    | apply preserves_Rollback; assumption
    | apply preserves_Commit; assumption
    | match goal with
      | |- preserves _ (match ?x with _ => _ end) => destruct x
      end
    | (intros ? ?; simpl; assumption)
    | (intros ? ?;
       match goal with
       | |- context [if ?b then _ else _] => destruct b
       end; simpl; assumption) ].

Ltac preserve := repeat preserve_step.

Lemma CreateOrder_lines_products ps tx items : forall total acc,
  products (snapshot tx) = ps ->
  preserves (fun t => products t = ps) (CreateOrder_lines tx items total acc).
Proof.
  induction items as [|item rest IH]; intros total acc Hs; simpl.
  - preserve.
  - unfold First_product. preserve. apply IH, Hs.
Qed.

Lemma CreateOrder_products ps userID req :
  preserves (fun t => products t = ps) (CreateOrder userID req).
Proof.
  unfold CreateOrder, First_order_Preload, First_order, Preload_OrderItems,
    Preload_Products, Create_order, Create_order_items, time_Now_Unix.
  preserve_step. preserve_step; [intros w0 H0; exact H0|].
  preserve_step; [apply CreateOrder_lines_products; assumption|].
  preserve.
Qed.

Lemma CancelOrder_products ps orderID :
  preserves (fun t => products t = ps) (CancelOrder orderID).
Proof. unfold CancelOrder, First_order, Save_order. preserve. Qed.

(** C7.  Whatever the request and the failure schedule, CreateOrder
    leaves the product table as it was (no stock or order_count
    changes), and so does CancelOrder, whatever the status of the
    cancelled order. *)
Theorem CreateOrder_CancelOrder_leave_products userID req orderID w :
  products (tabs (snd (CreateOrder userID req w))) = products (tabs w) /\
  products (tabs (snd (CancelOrder orderID w))) = products (tabs w).
Proof.
  split.
  - now apply (CreateOrder_products (products (tabs w))).
  - now apply (CancelOrder_products (products (tabs w))).
Qed.

(** ** ConfirmOrder *)

Lemma ship_lines_shipped items : forall ps,
  ship_lines items ps = map (shipped items) ps.
Proof.
  induction items as [|item rest IH]; intros ps; simpl.
  - rewrite <- (map_id ps) at 1. apply map_ext. intros [i t pr s c].
    unfold shipped. simpl. f_equal; lia.
  - unfold ship_lines in *. simpl. rewrite IH. unfold ship_line.
    rewrite !map_map. apply map_ext. intros [i t pr s c]. simpl.
    destruct (i =? OrderItem.ProductID item) eqn:E; simpl.
    + rewrite E. unfold shipped. simpl.
      rewrite (Z.eqb_sym (OrderItem.ProductID item) i), E. f_equal; lia.
    + unfold shipped. simpl.
      rewrite (Z.eqb_sym (OrderItem.ProductID item) i), E. f_equal; lia.
Qed.

Lemma set_products_same t : set_products t (products t) = t.
Proof. now destruct t. Qed.

Lemma set_tabs_same w : set_tabs w (tabs w) = w.
Proof. now destruct w. Qed.

Lemma ConfirmOrder_items_any tx items : forall w,
  match fst (ConfirmOrder_items tx items w) with
  | Ok _ =>
    tabs (snd (ConfirmOrder_items tx items w)) =
    set_products (tabs w) (ship_lines items (products (tabs w)))
  | Err _ => tabs (snd (ConfirmOrder_items tx items w)) = snapshot tx
  end.
Proof.
  induction items as [|item rest IH]; intros w; simpl.
  - now rewrite set_products_same.
  - unfold Update_products. io_unfold.
    destruct (tx_Error tx) eqn:Etx; simpl; [reflexivity|].
    destruct w as [t so si su f now]; simpl.
    next_fault f; try reflexivity.
    2: next_fault f; try reflexivity.
    all: match goal with
         | |- context [ConfirmOrder_items ?x ?l ?w] =>
           specialize (IH w); simpl in IH;
           destruct (ConfirmOrder_items x l w) as [[v|e] w1]; simpl in *
         end.
    all: assumption.
Qed.

Lemma ConfirmOrder_items_quiet tx items : forall w,
  tx_Error tx = false -> quiet w ->
  ConfirmOrder_items tx items w =
  (Ok tt, set_tabs w (set_products (tabs w) (ship_lines items (products (tabs w))))).
Proof.
  induction items as [|item rest IH]; intros w Htx Hq; simpl.
  - now rewrite set_products_same, set_tabs_same.
  - rewrite !on_tx_ok by assumption.
    run_with Update_products_quiet.
    run_with Update_products_quiet.
    rewrite IH by (try assumption; quiet_tac).
    destruct w as [t so si su f now]. reflexivity.
Qed.

Lemma First_order_Preload_any nested p w :
  tabs (snd (First_order_Preload nested p w)) = tabs w /\
  forall o items, fst (First_order_Preload nested p w) = Ok (o, items) ->
    first_row p (orders (tabs w)) = Ok o /\ items = items_of (Order.ID o) (tabs w).
Proof.
  unfold First_order_Preload, First_order, Preload_OrderItems, Preload_Products.
  io_unfold. destruct w as [t so si su f now]; simpl.
  next_fault f.
  2: split; [reflexivity|discriminate].
  all: destruct (first_row p (orders t)) as [o|e]; simpl.
  all: try (split; [reflexivity|discriminate]).
  2: next_fault f.
  3: split; [reflexivity|discriminate].
  all: destruct nested, (items_of (Order.ID o) t) eqn:Ei; simpl.
  all: try (split; [reflexivity|intros ? ? [= <- <-]; auto]).
  all: next_fault f.
  all: try (split; [reflexivity|intros ? ? [= <- <-]; auto]).
  all: split; [reflexivity|discriminate].
Qed.

Lemma Save_order_any o w :
  match fst (Save_order o w) with
  | Ok _ => tabs (snd (Save_order o w)) =
            set_orders (tabs w) (saved o (orders (tabs w)))
  | Err _ => tabs (snd (Save_order o w)) = tabs w
  end.
Proof.
  unfold Save_order. io_unfold. destruct w as [t so si su f now]; simpl.
  next_fault f; reflexivity.
Qed.

Lemma Commit_any tx w :
  tx_Error tx = false ->
  match fst (Commit tx w) with
  | Ok _ => tabs (snd (Commit tx w)) = tabs w
  | Err _ => tabs (snd (Commit tx w)) = snapshot tx
  end.
Proof.
  intros Htx. unfold Commit. rewrite Htx.
  destruct w as [t so si su f now]; simpl. next_fault f; reflexivity.
Qed.

Lemma ConfirmOrder_any orderID w :
  match fst (ConfirmOrder orderID w) with
  | Ok resp =>
    exists o,
      first_row (fun o => Order.ID o =? orderID) (orders (tabs w)) = Ok o /\
      Order.Status o = OrderStatusPaid /\
      resp = OrderResponse_of (Order.set_Status o OrderStatusConfirmed) [] /\
      tabs (snd (ConfirmOrder orderID w)) = confirmed o (tabs w)
  | Err _ => tabs (snd (ConfirmOrder orderID w)) = tabs w
  end.
Proof.
  unfold ConfirmOrder, bind.
  destruct (Begin_any w) as [Hs Ht].
  destruct (Begin w) as [tx w1]. simpl in *.
  unfold on_tx. destruct (tx_Error tx) eqn:Etx; simpl; [exact Hs|].
  destruct (First_order_Preload_any false (fun o => Order.ID o =? orderID) w1)
    as [Ht1 Hf].
  destruct (First_order_Preload false _ w1) as [[[o items]|e] w2]; simpl in *;
    [|exact Hs].
  destruct (Hf o items eq_refl) as [Ho ->].
  destruct (String.eqb (Order.Status o) OrderStatusPaid) eqn:Est; simpl;
    [|exact Hs].
  pose proof (ConfirmOrder_items_any tx (items_of (Order.ID o) (tabs w1)) w2) as Hl.
  destruct (ConfirmOrder_items tx _ w2) as [[[]|e] w3]; simpl in *;
    [|congruence].
  pose proof (Save_order_any (Order.set_Status o OrderStatusConfirmed) w3) as Hsv.
  destruct (Save_order _ w3) as [[[]|e] w4]; simpl in *; [|exact Hs].
  pose proof (Commit_any tx w4 Etx) as Hc.
  destruct (Commit tx w4) as [[[]|e] w5]; simpl in *; [|congruence].
  exists o. apply String.eqb_eq in Est.
  repeat split; try congruence.
  rewrite Hc, Hsv, Hl, Ht1, Ht, ship_lines_shipped. reflexivity.
Qed.

Lemma ConfirmOrder_quiet orderID o w :
  quiet w ->
  first_row (fun o => Order.ID o =? orderID) (orders (tabs w)) = Ok o ->
  Order.Status o = OrderStatusPaid ->
  ConfirmOrder orderID w =
  (Ok (OrderResponse_of (Order.set_Status o OrderStatusConfirmed) []),
   set_tabs w (confirmed o (tabs w))).
Proof.
  intros Hq Ho Hst. unfold ConfirmOrder.
  run_with Begin_quiet.
  rewrite on_tx_ok by reflexivity.
  run_with First_order_Preload_quiet. rewrite Ho.
  assert (Hb : negb (String.eqb (Order.Status o) OrderStatusPaid) = false)
    by (rewrite Hst; reflexivity).
  rewrite Hb.
  erewrite bind_run by (apply ConfirmOrder_items_quiet; [reflexivity|quiet_tac]).
  cbv beta iota.
  rewrite on_tx_ok by reflexivity.
  erewrite bind_run by (apply Save_order_quiet; quiet_tac).
  cbv beta iota.
  erewrite bind_run by (apply Commit_quiet; [reflexivity|quiet_tac]).
  cbv beta iota. unfold ret, confirmed. rewrite ship_lines_shipped.
  destruct w as [t so si su f now]. reflexivity.
Qed.

Lemma ConfirmOrder_refused orderID o w :
  quiet w ->
  first_row (fun o => Order.ID o =? orderID) (orders (tabs w)) = Ok o ->
  Order.Status o <> OrderStatusPaid ->
  fst (ConfirmOrder orderID w) = Err "order must be paid before confirmation".
Proof.
  intros Hq Ho Hst. unfold ConfirmOrder.
  run_with Begin_quiet.
  rewrite on_tx_ok by reflexivity.
  run_with First_order_Preload_quiet. rewrite Ho.
  apply String.eqb_neq in Hst. rewrite Hst. reflexivity.
Qed.

Lemma first_row_find {A} (p : A -> bool) l a :
  find p l = Some a -> first_row p l = Ok a.
Proof. unfold first_row. now intros ->. Qed.

Lemma find_saved o o' l :
  Order.ID o' = Order.ID o ->
  find (fun r => Order.ID r =? Order.ID o) l = Some o ->
  find (fun r => Order.ID r =? Order.ID o) (saved o' l) = Some o'.
Proof.
  intros Hid. unfold saved. rewrite Hid.
  induction l as [|a l IH]; simpl; [discriminate|].
  destruct (Order.ID a =? Order.ID o) eqn:E.
  - intros _. now rewrite Hid, Z.eqb_refl.
  - rewrite E. exact IH.
Qed.

(** C3.  For an order found by its id: a ConfirmOrder that fails, for
    whatever reason, leaves all tables as they were; on an order that
    is not paid it fails (with "order must be paid before confirmation"
    when no statement fails); on a paid order it succeeds when no
    statement fails, and a success has taken from each product's stock
    the quantities of the order's lines that name it, added one to its
    order_count per such line, written status confirmed on the order,
    and left the item rows alone. *)
Theorem ConfirmOrder_paid_ships_atomically orderID o w :
  find (fun o => Order.ID o =? orderID) (orders (tabs w)) = Some o ->
  let out := ConfirmOrder orderID w in
  (is_ok (fst out) = false -> tabs (snd out) = tabs w) /\
  (Order.Status o <> OrderStatusPaid ->
   is_ok (fst out) = false /\
   (quiet w -> fst out = Err "order must be paid before confirmation")) /\
  (Order.Status o = OrderStatusPaid ->
   (quiet w -> is_ok (fst out) = true) /\
   (is_ok (fst out) = true ->
    products (tabs (snd out)) =
      map (shipped (items_of orderID (tabs w))) (products (tabs w)) /\
    find (fun o => Order.ID o =? orderID) (orders (tabs (snd out))) =
      Some (Order.set_Status o OrderStatusConfirmed) /\
    order_items (tabs (snd out)) = order_items (tabs w))).
Proof.
  intros Hfind out.
  pose proof (ConfirmOrder_any orderID w) as Hany. fold out in Hany.
  pose proof (first_row_find _ _ _ Hfind) as Hrow.
  assert (Hid : Order.ID o = orderID).
  { apply find_some in Hfind. now apply Z.eqb_eq. }
  split; [|split].
  - destruct (fst out); [discriminate|auto].
  - intros Hst. split.
    + destruct (fst out) as [resp|e]; [|reflexivity].
      destruct Hany as [o' [Ho' [Hp _]]]. congruence.
    + intros Hq. apply (ConfirmOrder_refused orderID o w Hq Hrow Hst).
  - intros Hst. split.
    + intros Hq. subst out. now rewrite (ConfirmOrder_quiet orderID o w Hq Hrow Hst).
    + intros Hok. destruct (fst out) as [resp|e]; [|discriminate].
      destruct Hany as [o' [Ho' [_ [_ Ht]]]].
      assert (o' = o) by congruence. subst o'.
      rewrite Ht. unfold confirmed. simpl. rewrite Hid.
      repeat split.
      clear Ht Hrow. subst orderID.
      apply (find_saved o); [reflexivity|exact Hfind].
Qed.

(** ** The status transitions *)

Ltac simple_shape :=
  intros w; unfold simple_transition, bind;
  destruct (First_order _ w) as [[o|e] w1]; simpl; [|reflexivity];
  repeat match goal with
         | |- context [String.eqb ?a ?b] => destruct (String.eqb a b); simpl
         end; reflexivity.

Lemma PayOrder_shape orderID userID : forall w,
  PayOrder orderID userID w =
  simple_transition (fun o => (Order.ID o =? orderID) && (Order.UserID o =? userID))
    (fun s => String.eqb s OrderStatusPending) OrderStatusPaid
    "only pending orders can be paid" w.
Proof. unfold PayOrder. simple_shape. Qed.

Lemma ShipOrder_shape orderID : forall w,
  ShipOrder orderID w =
  simple_transition (fun o => Order.ID o =? orderID)
    (fun s => String.eqb s OrderStatusConfirmed) OrderStatusShipped
    "order must be confirmed before shipping" w.
Proof. unfold ShipOrder. simple_shape. Qed.

Lemma DeliverOrder_shape orderID : forall w,
  DeliverOrder orderID w =
  simple_transition (fun o => Order.ID o =? orderID)
    (fun s => String.eqb s OrderStatusShipped) OrderStatusDelivered
    "order must be shipped before delivery" w.
Proof. unfold DeliverOrder. simple_shape. Qed.

Lemma CancelOrder_shape orderID : forall w,
  CancelOrder orderID w =
  simple_transition (fun o => Order.ID o =? orderID)
    (fun s => negb (String.eqb s OrderStatusDelivered
                    || String.eqb s OrderStatusCancelled))
    OrderStatusCancelled "order cannot be cancelled" w.
Proof. unfold CancelOrder. simple_shape. Qed.

Lemma First_order_any p w :
  tabs (snd (First_order p w)) = tabs w /\
  forall o, fst (First_order p w) = Ok o -> first_row p (orders (tabs w)) = Ok o.
Proof.
  unfold First_order. io_unfold. destruct w as [t so si su f now]; simpl.
  next_fault f; split; try reflexivity; try discriminate; auto.
Qed.

Lemma simple_transition_any sel allowed to refusal w :
  let out := simple_transition sel allowed to refusal w in
  match fst out with
  | Ok resp =>
    exists o,
      first_row sel (orders (tabs w)) = Ok o /\
      allowed (Order.Status o) = true /\
      resp = OrderResponse_of (Order.set_Status o to) [] /\
      tabs (snd out) =
        set_orders (tabs w) (saved (Order.set_Status o to) (orders (tabs w)))
  | Err _ => tabs (snd out) = tabs w
  end.
Proof.
  unfold simple_transition, bind.
  destruct (First_order_any sel w) as [Ht Hf].
  destruct (First_order sel w) as [[o|e] w1]; simpl in *; [|exact Ht].
  destruct (allowed (Order.Status o)) eqn:Ea; simpl; [|exact Ht].
  pose proof (Save_order_any (Order.set_Status o to) w1) as Hs.
  destruct (Save_order _ w1) as [[[]|e] w2]; simpl in *; [|congruence].
  exists o. rewrite Hs, Ht. auto.
Qed.

Lemma simple_transition_quiet sel allowed to refusal o w :
  quiet w ->
  first_row sel (orders (tabs w)) = Ok o ->
  simple_transition sel allowed to refusal w =
  if allowed (Order.Status o)
  then (Ok (OrderResponse_of (Order.set_Status o to) []),
        set_tabs w (set_orders (tabs w)
                      (saved (Order.set_Status o to) (orders (tabs w)))))
  else (Err refusal, w).
Proof.
  intros Hq Ho. unfold simple_transition.
  run_with First_order_quiet. rewrite Ho.
  destruct (allowed (Order.Status o)); [|reflexivity].
  run_with Save_order_quiet. reflexivity.
Qed.

Lemma find_owner orderID userID l o :
  find (fun o => Order.ID o =? orderID) l = Some o ->
  Order.UserID o = userID ->
  find (fun o => (Order.ID o =? orderID) && (Order.UserID o =? userID)) l = Some o.
Proof.
  intros Hf Hu. induction l as [|a l IH]; simpl in *; [discriminate|].
  destruct (Order.ID a =? orderID); simpl.
  - injection Hf as ->. now rewrite Hu, Z.eqb_refl.
  - auto.
Qed.

Lemma edge_guard tr s :
  In s statuses ->
  edge tr s = if guard tr s then Some (target tr) else None.
Proof.
  intros Hs. simpl in Hs.
  repeat (destruct Hs as [<- | Hs]; [destruct tr; reflexivity|]).
  contradiction.
Qed.

(** Every transition, on every schedule: a success has passed the guard
    and written the target status on the selected order; a failure has
    written nothing. *)
Lemma run_any tr orderID w :
  match fst (run tr orderID w) with
  | Ok resp =>
    exists o,
      first_row (selects tr orderID) (orders (tabs w)) = Ok o /\
      guard tr (Order.Status o) = true /\
      OrderResponse.Status resp = target tr /\
      orders (tabs (snd (run tr orderID w))) =
        saved (Order.set_Status o (target tr)) (orders (tabs w))
  | Err _ => tabs (snd (run tr orderID w)) = tabs w
  end.
Proof.
  destruct tr; simpl.
  2:{ pose proof (ConfirmOrder_any orderID w) as H.
      destruct (fst (ConfirmOrder orderID w)) as [resp|e]; [|exact H].
      destruct H as [o [Ho [Hst [-> Ht]]]]. exists o.
      rewrite Ht, Hst. auto. }
  1: rewrite PayOrder_shape.
  2: rewrite ShipOrder_shape.
  3: rewrite DeliverOrder_shape.
  4: rewrite CancelOrder_shape.
  all: match goal with
       | |- context [simple_transition ?a ?b ?c ?d ?w] =>
         pose proof (simple_transition_any a b c d w) as H; simpl in H;
           destruct (fst (simple_transition a b c d w)) as [resp|e]; [|exact H]
       end.
  all: destruct H as [o [Ho [Hg [-> Ht]]]]; exists o; rewrite Ht; auto.
Qed.

Lemma run_quiet tr orderID o w :
  quiet w ->
  first_row (selects tr orderID) (orders (tabs w)) = Ok o ->
  fst (run tr orderID w) =
  if guard tr (Order.Status o)
  then Ok (OrderResponse_of (Order.set_Status o (target tr)) [])
  else Err (refusal tr).
Proof.
  intros Hq Ho. destruct tr; simpl in *.
  2:{ destruct (String.eqb (Order.Status o) OrderStatusPaid) eqn:E.
      - apply String.eqb_eq in E. now rewrite (ConfirmOrder_quiet orderID o w).
      - apply String.eqb_neq in E. now apply (ConfirmOrder_refused orderID o w). }
  1: rewrite PayOrder_shape.
  2: rewrite ShipOrder_shape.
  3: rewrite DeliverOrder_shape.
  4: rewrite CancelOrder_shape.
  all: rewrite (simple_transition_quiet _ _ _ _ o w Hq Ho).
  all: match goal with |- context [if ?b then _ else _] => destruct b end.
  all: reflexivity.
Qed.

(** C5.  For an order found by its id, in one of the six statuses, and
    owned by the caller when the transition is a payment: if the state
    machine has an edge for the transition from the order's status, the
    transition succeeds when no statement fails, and a success has
    written the edge's target status; if it has none, the transition
    fails on every schedule, leaves all tables as they were, and its
    error, when no statement fails, is the transition's own validation
    error. *)
Theorem transitions_follow_the_state_machine tr orderID o w :
  find (fun o => Order.ID o =? orderID) (orders (tabs w)) = Some o ->
  In (Order.Status o) statuses ->
  (forall userID, tr = Pay userID -> Order.UserID o = userID) ->
  let out := run tr orderID w in
  match edge tr (Order.Status o) with
  | Some s' =>
    (quiet w ->
     exists resp, fst out = Ok resp /\ OrderResponse.Status resp = s') /\
    (is_ok (fst out) = true ->
     find (fun o => Order.ID o =? orderID) (orders (tabs (snd out))) =
       Some (Order.set_Status o s'))
  | None =>
    is_ok (fst out) = false /\
    tabs (snd out) = tabs w /\
    (quiet w -> fst out = Err (refusal tr))
  end.
Proof.
  intros Hfind Hknown Howner out.
  assert (Hid : Order.ID o = orderID).
  { apply find_some in Hfind. now apply Z.eqb_eq. }
  assert (Hrow : first_row (selects tr orderID) (orders (tabs w)) = Ok o).
  { apply first_row_find. destruct tr; simpl; try exact Hfind.
    apply find_owner; auto. }
  pose proof (run_any tr orderID w) as Hany. fold out in Hany.
  pose proof (run_quiet tr orderID o w) as Hquiet. fold out in Hquiet.
  rewrite (edge_guard tr _ Hknown).
  destruct (guard tr (Order.Status o)) eqn:Eg.
  - split.
    + intros Hq. rewrite (Hquiet Hq Hrow). eexists. split; reflexivity.
    + intros Hok. destruct (fst out) as [resp|e]; [|discriminate].
      destruct Hany as [o' [Ho' [_ [_ Ht]]]].
      assert (o' = o) by congruence. subst o'. rewrite Ht.
      clear Ht Hrow Ho' Hquiet. subst orderID.
      apply (find_saved o); [reflexivity|exact Hfind].
  - assert (Hfail : is_ok (fst out) = false).
    { destruct (fst out) as [resp|e]; [|reflexivity].
      destruct Hany as [o' [Ho' [Hg _]]]. congruence. }
    repeat split.
    + exact Hfail.
    + destruct (fst out); [discriminate|exact Hany].
    + intros Hq. exact (Hquiet Hq Hrow).
Qed.

(** ** The role service *)

Lemma stmt_reading_any {A} (f : Tables -> result gorm_error A) w :
  tabs (snd (stmt (reading f) w)) = tabs w /\
  (fst (stmt (reading f) w) = Err ErrDriver \/
   fst (stmt (reading f) w) = f (tabs w)).
Proof.
  io_unfold. destruct w as [t so si su fl now]; simpl.
  next_fault fl; auto.
Qed.

Lemma stmt_reading_quiet {A} (f : Tables -> result gorm_error A) w :
  quiet w -> stmt (reading f) w = (f (tabs w), w).
Proof. intros Hq. now rewrite stmt_quiet. Qed.

Lemma GetUserRole_quiet userID w :
  quiet w -> GetUserRole userID w = (Ok (role_of (tabs w) userID), w).
Proof.
  intros Hq. unfold GetUserRole, First_user_role, Preload_Role, role_of.
  run_with (@stmt_reading_quiet UserRole.t). unfold first_row.
  destruct (find _ (user_roles (tabs w))) as [ur|]; simpl; [|reflexivity].
  run_with (@stmt_reading_quiet Role.t).
  destruct (find _ (roles (tabs w))); reflexivity.
Qed.

Lemma GetUserRole_any userID w :
  tabs (snd (GetUserRole userID w)) = tabs w /\
  forall r, fst (GetUserRole userID w) = Ok r -> r = role_of (tabs w) userID.
Proof.
  unfold GetUserRole, First_user_role, Preload_Role, role_of, bind.
  match goal with
  | |- context [stmt (reading ?f) w] =>
    destruct (stmt_reading_any f w) as [Ht Hf];
      destruct (stmt (reading f) w) as [r1 w1]; simpl in *
  end.
  unfold first_row in Hf.
  destruct Hf as [-> | ->]; simpl; [split; [exact Ht|discriminate]|].
  destruct (find _ (user_roles (tabs w))) as [ur|]; simpl.
  - match goal with
    | |- context [stmt (reading ?f) w1] =>
      destruct (stmt_reading_any f w1) as [Ht1 Hf1];
        destruct (stmt (reading f) w1) as [r2 w2]; simpl in *
    end.
    rewrite Ht in Hf1.
    destruct Hf1 as [-> | ->]; simpl; [split; [congruence|discriminate]|].
    destruct (find _ (roles (tabs w))); simpl; split; try congruence.
  - split; [exact Ht|congruence].
Qed.

Lemma Delete_user_roles_any userID w :
  match fst (Delete_user_roles userID w) with
  | Ok _ => tabs (snd (Delete_user_roles userID w)) =
            set_user_roles (tabs w) (without_user userID (user_roles (tabs w)))
  | Err _ => tabs (snd (Delete_user_roles userID w)) = tabs w
  end.
Proof.
  unfold Delete_user_roles. io_unfold. destruct w as [t so si su f now]; simpl.
  next_fault f; reflexivity.
Qed.

Lemma Delete_user_roles_quiet userID w :
  quiet w ->
  Delete_user_roles userID w =
  (Ok tt, set_tabs w (set_user_roles (tabs w)
                        (without_user userID (user_roles (tabs w))))).
Proof. intros Hq. unfold Delete_user_roles. now rewrite stmt_quiet. Qed.

Lemma Create_user_role_any ur w :
  match fst (Create_user_role ur w) with
  | Ok _ =>
    exists id,
      tabs (snd (Create_user_role ur w)) =
      set_user_roles (tabs w)
        (user_roles (tabs w) ++
         [UserRole.mk id (UserRole.UserID ur) (UserRole.RoleID ur)])
  | Err _ => tabs (snd (Create_user_role ur w)) = tabs w
  end.
Proof.
  unfold Create_user_role. io_unfold. destruct w as [t so si su f now]; simpl.
  next_fault f; try reflexivity; eexists; reflexivity.
Qed.

Lemma Create_user_role_quiet ur w :
  quiet w ->
  Create_user_role ur w =
  (Ok (UserRole.mk (seq_user_roles w + 1) (UserRole.UserID ur) (UserRole.RoleID ur)),
   set_tabs (set_seq_user_roles w (seq_user_roles w + 1))
     (set_user_roles (tabs w)
        (user_roles (tabs w) ++
         [UserRole.mk (seq_user_roles w + 1) (UserRole.UserID ur)
            (UserRole.RoleID ur)]))).
Proof. intros Hq. unfold Create_user_role. now rewrite stmt_quiet. Qed.

Lemma AssignRole_any userID roleName assignedBy w :
  match fst (AssignRole userID roleName assignedBy w) with
  | Ok _ =>
    exists role id,
      role_of (tabs w) assignedBy = ROLE_SUPER_ADMIN /\
      find (fun r => String.eqb (Role.Name r) roleName) (roles (tabs w)) = Some role /\
      find (fun u => User.ID u =? userID) (users (tabs w)) <> None /\
      tabs (snd (AssignRole userID roleName assignedBy w)) =
        assigned userID role id (tabs w)
  | Err _ => tabs (snd (AssignRole userID roleName assignedBy w)) = tabs w
  end.
Proof.
  unfold AssignRole, bind.
  destruct (GetUserRole_any assignedBy w) as [Ht Hr].
  destruct (GetUserRole assignedBy w) as [[actor|e] w1]; simpl in *; [|exact Ht].
  specialize (Hr actor eq_refl).
  destruct (String.eqb actor ROLE_SUPER_ADMIN) eqn:Ea; simpl; [|exact Ht].
  apply String.eqb_eq in Ea.
  unfold First_role_named, First_user.
  match goal with
  | |- context [stmt (reading ?f) w1] =>
    destruct (stmt_reading_any f w1) as [Ht1 Hf1];
      destruct (stmt (reading f) w1) as [r1 w2]; simpl in *
  end.
  destruct r1 as [role|e]; simpl; [|congruence].
  destruct Hf1 as [Hf1|Hf1]; [discriminate|].
  match goal with
  | |- context [stmt (reading ?f) w2] =>
    destruct (stmt_reading_any f w2) as [Ht2 Hf2];
      destruct (stmt (reading f) w2) as [r2 w3]; simpl in *
  end.
  destruct r2 as [user|e]; simpl; [|congruence].
  destruct Hf2 as [Hf2|Hf2]; [discriminate|].
  destruct (Begin_any w3) as [Hs Ht3].
  destruct (Begin w3) as [tx w4]; simpl in *.
  destruct (tx_Error tx) eqn:Etx; simpl; [congruence|].
  unfold on_tx. rewrite Etx.
  pose proof (Delete_user_roles_any userID w4) as Hd.
  destruct (Delete_user_roles userID w4) as [[[]|e] w5]; simpl in *; [|congruence].
  pose proof (Create_user_role_any (UserRole.mk 0 userID (Role.ID role)) w5) as Hc.
  destruct (Create_user_role _ w5) as [[ur|e] w6]; simpl in *; [|congruence].
  pose proof (Commit_any tx w6 Etx) as Hm.
  destruct (Commit tx w6) as [[[]|e] w7]; simpl in *; [|congruence].
  destruct Hc as [id Hc].
  exists role, id. unfold first_row in Hf1, Hf2.
  rewrite Ht in Hf1. rewrite Ht1, Ht in Hf2.
  repeat split.
  - congruence.
  - destruct (find _ (roles (tabs w))); congruence.
  - destruct (find _ (users (tabs w))); congruence.
  - rewrite Hm, Hc, Hd. unfold assigned. simpl.
    rewrite Ht3, Ht2, Ht1, Ht. reflexivity.
Qed.

Lemma AssignRole_quiet userID roleName assignedBy role user w :
  quiet w ->
  role_of (tabs w) assignedBy = ROLE_SUPER_ADMIN ->
  find (fun r => String.eqb (Role.Name r) roleName) (roles (tabs w)) = Some role ->
  find (fun u => User.ID u =? userID) (users (tabs w)) = Some user ->
  AssignRole userID roleName assignedBy w =
  (Ok tt,
   set_tabs (set_seq_user_roles w (seq_user_roles w + 1))
     (assigned userID role (seq_user_roles w + 1) (tabs w))).
Proof.
  intros Hq Ha Hr Hu. unfold AssignRole.
  run_with GetUserRole_quiet. rewrite Ha, String.eqb_refl. cbn [negb].
  unfold First_role_named, First_user.
  run_with (@stmt_reading_quiet Role.t). unfold first_row. rewrite Hr.
  run_with (@stmt_reading_quiet User.t). rewrite Hu.
  run_with Begin_quiet. cbn [tx_Error].
  rewrite !on_tx_ok by reflexivity.
  run_with Delete_user_roles_quiet.
  erewrite bind_run by (apply Create_user_role_quiet; quiet_tac).
  cbv beta iota.
  erewrite bind_run by (apply Commit_quiet; [reflexivity|quiet_tac]).
  cbv beta iota.
  destruct w as [t so si su f now]. reflexivity.
Qed.

Lemma without_user_none userID l :
  filter (fun ur => UserRole.UserID ur =? userID) (without_user userID l) = [].
Proof.
  unfold without_user. induction l as [|a l IH]; simpl; [reflexivity|].
  destruct (UserRole.UserID a =? userID) eqn:E; simpl; [exact IH|].
  now rewrite E.
Qed.

Lemma find_without_user userID l x :
  UserRole.UserID x = userID ->
  find (fun ur => UserRole.UserID ur =? userID) (without_user userID l ++ [x]) = Some x.
Proof.
  intros Hx. unfold without_user. induction l as [|a l IH]; simpl.
  - now rewrite Hx, Z.eqb_refl.
  - destruct (UserRole.UserID a =? userID) eqn:E; simpl; [exact IH|].
    now rewrite E.
Qed.

Lemma find_by_key (l : list Role.t) (a : Role.t) :
  NoDup (map Role.ID l) -> In a l ->
  find (fun r => Role.ID r =? Role.ID a) l = Some a.
Proof.
  induction l as [|b l IH]; simpl; intros Hnd Hin; [contradiction|].
  inversion Hnd as [|? ? Hnotin Hnd']; subst.
  destruct Hin as [-> | Hin].
  - now rewrite Z.eqb_refl.
  - destruct (Role.ID b =? Role.ID a) eqn:E.
    + apply Z.eqb_eq in E. exfalso. apply Hnotin. rewrite E.
      now apply in_map.
    + now apply IH.
Qed.

Lemma role_of_assigned userID roleName role id t :
  NoDup (map Role.ID (roles t)) ->
  find (fun r => String.eqb (Role.Name r) roleName) (roles t) = Some role ->
  role_of (assigned userID role id t) userID = roleName.
Proof.
  intros Hnd Hr. unfold role_of, assigned. simpl.
  rewrite find_without_user by reflexivity. simpl.
  apply find_some in Hr. destruct Hr as [Hin Hname].
  rewrite (find_by_key _ _ Hnd Hin). now apply String.eqb_eq.
Qed.


(** C9.  RemoveRole with the target equal to the acting user fails on
    every schedule, whatever the user's role, and leaves all tables as
    they were. *)
Theorem RemoveRole_self_always_fails userID w :
  is_ok (fst (RemoveRole userID userID w)) = false /\
  tabs (snd (RemoveRole userID userID w)) = tabs w.
Proof.
  unfold RemoveRole, bind.
  destruct (GetUserRole_any userID w) as [Ht _].
  destruct (GetUserRole userID w) as [[role|e] w1]; simpl in *.
  - destruct (String.eqb role ROLE_SUPER_ADMIN); simpl.
    + rewrite Z.eqb_refl. simpl. auto.
    + auto.
  - auto.
Qed.

(** ** From request to confirmation *)

Lemma ordered_requested t orderID id items : forall n,
  ordered_quantity id
    (number_items n (map (fun i => OrderItem.set_OrderID i orderID)
                         (map (line_item t) items))) =
  requested_quantity id items /\
  ordered_lines id
    (number_items n (map (fun i => OrderItem.set_OrderID i orderID)
                         (map (line_item t) items))) =
  requested_lines id items.
Proof.
  induction items as [|item rest IH]; intros n; simpl; [auto|].
  destruct (IH (n + 1)) as [-> ->]. auto.
Qed.

Lemma find_app_fresh {A} (p : A -> bool) l x :
  Forall (fun a => p a = false) l -> p x = true -> find p (l ++ [x]) = Some x.
Proof.
  intros Hl Hx. induction Hl as [|a l Ha Hl IH]; simpl.
  - now rewrite Hx.
  - now rewrite Ha.
Qed.

Lemma saved_app_fresh o' l x :
  Forall (fun a => (Order.ID a =? Order.ID o') = false) l ->
  Order.ID x = Order.ID o' ->
  saved o' (l ++ [x]) = l ++ [o'].
Proof.
  intros Hl Hx. unfold saved. rewrite map_app. simpl.
  rewrite Hx, Z.eqb_refl. f_equal.
  induction Hl as [|a l Ha Hl IH]; simpl; [reflexivity|].
  now rewrite Ha, IH.
Qed.

Lemma filter_app_fresh {A} (p : A -> bool) l l' :
  Forall (fun a => p a = false) l -> Forall (fun a => p a = true) l' ->
  filter p (l ++ l') = l'.
Proof.
  intros Hl Hl'. rewrite filter_app.
  replace (filter p l) with (@nil A).
  - simpl. induction Hl' as [|a r Ha Hr IH]; simpl; [reflexivity|].
    now rewrite Ha, IH.
  - induction Hl as [|a r Ha Hr IH]; simpl; [reflexivity|]. now rewrite Ha.
Qed.

Lemma placed_items_order w items :
  Forall (fun i => (OrderItem.OrderID i =? seq_orders w + 1) = true)
         (placed_items w items).
Proof.
  unfold placed_items. generalize (seq_order_items w).
  induction items as [|item rest IH]; intros n; simpl; constructor.
  - apply Z.eqb_refl.
  - apply IH.
Qed.

(** Create, pay, confirm: the three steps on a request whose lines are
    each in stock. *)
Lemma create_pay_confirm userID items w :
  quiet w -> keys_issued w -> items <> [] ->
  forallb (in_stock (tabs w)) items = true ->
  user_known (tabs w) userID = true ->
  number_free w userID = true ->
  let id := seq_orders w + 1 in
  let w1 := snd (CreateOrder userID (OrderCreateRequest.mk items) w) in
  let w2 := snd (PayOrder id userID w1) in
  let w3 := snd (ConfirmOrder id w2) in
  (exists resp,
     fst (CreateOrder userID (OrderCreateRequest.mk items) w) = Ok resp /\
     OrderResponse.ID resp = id) /\
  is_ok (fst (PayOrder id userID w1)) = true /\
  is_ok (fst (ConfirmOrder id w2)) = true /\
  products (tabs w3) =
    map (fun p =>
      Product.mk (Product.ID p) (Product.Title p) (Product.Price p)
        (Product.Stock p - requested_quantity (Product.ID p) items)
        (Product.OrderCount p + requested_lines (Product.ID p) items))
      (products (tabs w)).
Proof.
  intros Hq [Ho Hi] Hne Hin Hknown Hfree id w1 w2 w3.
  assert (Hfresh : Forall (fun a => (Order.ID a =? id) = false) (orders (tabs w))).
  { eapply Forall_impl; [|exact Ho]. intros a Ha. apply Z.eqb_neq. subst id. cbv beta in Ha. lia. }
  assert (Hifresh : Forall (fun a => (OrderItem.OrderID a =? id) = false)
                           (order_items (tabs w))).
  { eapply Forall_impl; [|exact Hi]. intros a Ha. apply Z.eqb_neq. subst id. cbv beta in Ha. lia. }
  pose proof (CreateOrder_quiet userID items w Hq Hne Hin Hfree Hknown) as Hc.
  assert (Hw1 : w1 = placed w userID items) by (subst w1; now rewrite Hc).
  assert (Hq1 : quiet w1) by (rewrite Hw1; reflexivity).
  set (po := placed_order w userID items) in *.
  assert (Hrow1 : first_row
            (fun o => (Order.ID o =? id) && (Order.UserID o =? userID))
            (orders (tabs w1)) = Ok po).
  { rewrite Hw1. simpl. apply first_row_find, find_app_fresh.
    - eapply Forall_impl; [|exact Hfresh]. intros a ->. reflexivity.
    - simpl. now rewrite !Z.eqb_refl. }
  pose proof (PayOrder_shape id userID w1) as Hp.
  rewrite (simple_transition_quiet _ _ _ _ po w1 Hq1 Hrow1) in Hp. simpl in Hp.
  assert (Hw2 : tabs w2 =
                set_orders (tabs w1)
                  (orders (tabs w) ++ [Order.set_Status po OrderStatusPaid])).
  { subst w2. rewrite Hp. simpl. f_equal. rewrite Hw1. simpl.
    apply saved_app_fresh; [exact Hfresh|reflexivity]. }
  assert (Hq2 : quiet w2) by (subst w2; rewrite Hp; exact Hq1).
  assert (Hrow2 : first_row (fun o => Order.ID o =? id) (orders (tabs w2)) =
                  Ok (Order.set_Status po OrderStatusPaid)).
  { rewrite Hw2. simpl. apply first_row_find, find_app_fresh; [exact Hfresh|].
    simpl. apply Z.eqb_refl. }
  pose proof (ConfirmOrder_quiet id _ w2 Hq2 Hrow2 eq_refl) as Hcf.
  repeat split.
  - rewrite Hc. eexists. split; reflexivity.
  - now rewrite Hp.
  - now rewrite Hcf.
  - subst w3. rewrite Hcf. simpl. rewrite Hw2. simpl. rewrite Hw1. simpl.
    unfold items_of. simpl.
    change (seq_orders w + 1) with id.
    rewrite (filter_app_fresh _ _ _ Hifresh (placed_items_order w items)).
    apply map_ext. intros p. unfold shipped, placed_items.
    destruct (ordered_requested (tabs w) (seq_orders w + 1) (Product.ID p) items
                (seq_order_items w)) as [-> ->].
    reflexivity.
Qed.

(** C10.  When no statement fails and every line of a non-empty request
    is, on its own, covered by the stored stock of its product,
    CreateOrder succeeds for a user who has a row and no stored order
    with the number of this second, however many lines name the same
    product and whatever their sum; after PayOrder and ConfirmOrder each product's
    stock is down by the sum of the quantities of the lines naming it
    (once per line), and its order_count up by the number of those
    lines. *)
Theorem CreateOrder_checks_each_line_alone userID items w :
  quiet w -> keys_issued w -> items <> [] ->
  Forall (fun item =>
    exists p, product_of (tabs w) (OrderItemRequest.ProductID item) = Some p /\
              OrderItemRequest.Quantity item <= Product.Stock p) items ->
  user_known (tabs w) userID = true ->
  number_free w userID = true ->
  let id := seq_orders w + 1 in
  let w1 := snd (CreateOrder userID (OrderCreateRequest.mk items) w) in
  let w2 := snd (PayOrder id userID w1) in
  let w3 := snd (ConfirmOrder id w2) in
  (exists resp,
     fst (CreateOrder userID (OrderCreateRequest.mk items) w) = Ok resp /\
     OrderResponse.ID resp = id) /\
  is_ok (fst (PayOrder id userID w1)) = true /\
  is_ok (fst (ConfirmOrder id w2)) = true /\
  products (tabs w3) =
    map (fun p =>
      Product.mk (Product.ID p) (Product.Title p) (Product.Price p)
        (Product.Stock p - requested_quantity (Product.ID p) items)
        (Product.OrderCount p + requested_lines (Product.ID p) items))
      (products (tabs w)).
Proof.
  intros Hq Hk Hne Hall Hknown Hfree.
  exact (create_pay_confirm userID items w Hq Hk Hne (in_stock_all _ _ Hall)
           Hknown Hfree).
Qed.

(** ** The guard on the stock, and who may cancel *)

(** [ProductService.UpdateStock] refuses a change that would leave a
    negative stock. *)
Lemma UpdateStock_refuses_negative productID quantity p w :
  quiet w ->
  product_of (tabs w) productID = Some p ->
  int_add (Product.Stock p) quantity < 0 ->
  UpdateStock productID quantity w = (Err "insufficient stock", w).
Proof.
  intros Hq Hp Hneg. unfold UpdateStock, First_product.
  run_with (@stmt_reading_quiet Product.t). unfold first_row.
  unfold product_of in Hp. rewrite Hp.
  apply Z.ltb_lt in Hneg. now rewrite Hneg.
Qed.

(** [UpdateOrderStatus] and [PayOrder] find no order for a caller who
    does not own it. *)
Lemma UpdateOrderStatus_not_owner orderID userID req w :
  quiet w ->
  find (fun o => (Order.ID o =? orderID) && (Order.UserID o =? userID))
       (orders (tabs w)) = None ->
  UpdateOrderStatus orderID userID req w = (Err "order not found", w).
Proof.
  intros Hq Hnone. unfold UpdateOrderStatus.
  run_with First_order_quiet. unfold first_row. now rewrite Hnone.
Qed.

Lemma PayOrder_not_owner orderID userID w :
  quiet w ->
  find (fun o => (Order.ID o =? orderID) && (Order.UserID o =? userID))
       (orders (tabs w)) = None ->
  PayOrder orderID userID w = (Err "order not found", w).
Proof.
  intros Hq Hnone. unfold PayOrder.
  run_with First_order_quiet. unfold first_row. now rewrite Hnone.
Qed.

(** C6.  The cancel handler of the user routes ignores who is asking:
    when no statement fails, a caller who does not own the order and
    resolves to the plain role "user" gets 200 for any order that is
    neither delivered nor cancelled, and the order is cancelled. *)
Theorem OrderHandler_CancelOrder_any_caller Quote_beyond_ASCII caller id orderID o w :
  quiet w ->
  ParseUint32 id = Ok orderID ->
  find (fun o => Order.ID o =? orderID) (orders (tabs w)) = Some o ->
  Order.UserID o <> caller ->
  role_of (tabs w) caller = ROLE_USER ->
  Order.Status o <> OrderStatusDelivered ->
  Order.Status o <> OrderStatusCancelled ->
  let out := OrderHandler_CancelOrder Quote_beyond_ASCII (mkContext (Some caller) id) w in
  code (fst out) = StatusOK /\
  find (fun o => Order.ID o =? orderID) (orders (tabs (snd out))) =
    Some (Order.set_Status o OrderStatusCancelled).
Proof.
  intros Hq Hid Hfind _ _ Hd Hc out. subst out.
  apply String.eqb_neq in Hd, Hc.
  assert (Hrun : CancelOrder orderID w =
                 (Ok (OrderResponse_of (Order.set_Status o OrderStatusCancelled) []),
                  set_tabs w (set_orders (tabs w)
                    (saved (Order.set_Status o OrderStatusCancelled)
                           (orders (tabs w)))))).
  { rewrite CancelOrder_shape.
    rewrite (simple_transition_quiet _ _ _ _ o w Hq (first_row_find _ _ _ Hfind)).
    cbv beta. now rewrite Hd, Hc. }
  unfold OrderHandler_CancelOrder. simpl. rewrite Hid.
  erewrite bind_run by exact Hrun. simpl.
  assert (Hi : Order.ID o = orderID).
  { apply find_some in Hfind. now apply Z.eqb_eq. }
  split; [reflexivity|]. subst orderID.
  apply (find_saved o); [reflexivity|exact Hfind].
Qed.

Lemma OrderHandler_CancelOrder_caller_unused Quote_beyond_ASCII a b id :
  OrderHandler_CancelOrder Quote_beyond_ASCII (mkContext (Some a) id) =
  OrderHandler_CancelOrder Quote_beyond_ASCII (mkContext (Some b) id).
Proof. reflexivity. Qed.

(** The example of the specification: 2 x 10.00 + 1 x 5.00. *)
(** ** The shop at work *)

Example CreateOrder_two_lines :
  fst (CreateOrder 7 (OrderCreateRequest.mk two_lines) shop) =
    Ok (OrderResponse.mk 1 7 "ORD-1700000000-7" OrderStatusPending 25%float
          [OrderItemResponse.mk 1 1 1 2 10%float;
           OrderItemResponse.mk 2 1 2 1 5%float]) /\
  orders (tabs shop_pending) = [first_order OrderStatusPending] /\
  order_items (tabs shop_pending) =
    [OrderItem.mk 1 1 1 2 10%float; OrderItem.mk 2 1 2 1 5%float].
Proof. repeat split; reflexivity. Qed.

(** Confirming it: Widget 5 -> 3, Gadget 1 -> 0, both counts 0 -> 1. *)
Example ConfirmOrder_two_lines :
  products (tabs (snd (ConfirmOrder 1 shop_paid))) =
    [Product.mk 1 "Widget" 10%float 3 1; Product.mk 2 "Gadget" 5%float 0 1] /\
  orders (tabs (snd (ConfirmOrder 1 shop_paid))) = [first_order OrderStatusConfirmed].
Proof. split; reflexivity. Qed.

(** A product out of stock: nothing is written. *)
Example CreateOrder_out_of_stock :
  CreateOrder 7 (OrderCreateRequest.mk [OrderItemRequest.mk 2 2]) shop =
  (Err "insufficient stock for product Gadget", shop).
Proof. reflexivity. Qed.

Lemma CreateOrder_pending_with_total_witness :
  exists resp rows,
    fst (CreateOrder 7 (OrderCreateRequest.mk two_lines) shop) = Ok resp /\
    OrderResponse.Status resp = OrderStatusPending /\
    OrderResponse.TotalAmount resp = fold_left (add_line (tabs shop)) two_lines 0%float /\
    orders (tabs (snd (CreateOrder 7 (OrderCreateRequest.mk two_lines) shop))) =
      orders (tabs shop) ++
      [Order.mk (OrderResponse.ID resp) 7 (OrderResponse.OrderNumber resp)
         OrderStatusPending (fold_left (add_line (tabs shop)) two_lines 0%float)] /\
    order_items (tabs (snd (CreateOrder 7 (OrderCreateRequest.mk two_lines) shop))) =
      order_items (tabs shop) ++ rows /\
    Forall2 (frozen (tabs shop) (OrderResponse.ID resp)) two_lines rows.
Proof.
  apply (CreateOrder_pending_with_total 7 two_lines shop).
  - reflexivity.
  - discriminate.
  - repeat constructor.
    + exists widget. split; [reflexivity|simpl; lia].
    + exists gadget. split; [reflexivity|simpl; lia].
  - reflexivity.
  - reflexivity.
Defined.

(** C1 as stated.  User 7 has just placed an order and, in the same
    second, sends the request again: every line still names an existing
    product with enough stock, and the order number of this second is
    taken, so the INSERT is refused and CreateOrder fails, writing
    nothing.  The same request in the name of user 42, who has no row,
    fails in the same way. *)
Lemma CreateOrder_refused_by_the_orders_table :
  let out := CreateOrder 7 (OrderCreateRequest.mk two_lines) shop_pending in
  quiet shop_pending /\
  two_lines <> [] /\
  Forall (fun item =>
    0 < OrderItemRequest.Quantity item /\
    exists p, product_of (tabs shop_pending) (OrderItemRequest.ProductID item) = Some p /\
              OrderItemRequest.Quantity item <= Product.Stock p) two_lines /\
  user_known (tabs shop_pending) 7 = true /\
  map Order.OrderNumber (orders (tabs shop_pending)) = [order_number shop_pending 7] /\
  fst out = Err "failed to create order" /\
  tabs (snd out) = tabs shop_pending /\
  user_known (tabs shop) 42 = false /\
  CreateOrder 42 (OrderCreateRequest.mk two_lines) shop =
    (Err "failed to create order", set_seq_orders shop 1).
Proof.
  cbv zeta. split; [reflexivity|]. split; [discriminate|]. split.
  - repeat constructor; simpl; try lia.
    + exists widget. split; [reflexivity|simpl; lia].
    + exists gadget. split; [reflexivity|simpl; lia].
  - repeat split; reflexivity.
Qed.

(** C2 as stated.  A request with a missing product ahead of an
    under-stocked Gadget fails with "product not found", which does not
    name Gadget; with the two lines swapped it references a missing
    product and fails with the stock error instead. *)
Lemma CreateOrder_reports_first_bad_line_only :
  let items := [OrderItemRequest.mk 99 1; OrderItemRequest.mk 2 3] in
  quiet shop /\
  In (OrderItemRequest.mk 2 3) items /\
  product_of (tabs shop) 2 = Some gadget /\
  Product.Stock gadget < 3 /\
  fst (CreateOrder 7 (OrderCreateRequest.mk items) shop) = Err "product not found" /\
  mentions (Product.Title gadget) "product not found" = false /\
  product_of (tabs shop) 99 = None /\
  fst (CreateOrder 7 (OrderCreateRequest.mk (rev items)) shop) =
    Err "insufficient stock for product Gadget".
Proof. repeat split; try reflexivity. simpl; auto. Qed.

Lemma CreateOrder_first_bad_line_rolls_back_witness :
  let out := CreateOrder 7
               (OrderCreateRequest.mk
                  ([OrderItemRequest.mk 1 2] ++ OrderItemRequest.mk 2 3 :: []))
               shop in
  is_ok (fst out) = false /\
  tabs (snd out) = tabs shop /\
  (quiet shop ->
   match product_of (tabs shop) 2 with
   | None => fst out = Err "product not found"
   | Some p =>
     fst out = Err ("insufficient stock for product " ++ Product.Title p)%string
   end).
Proof.
  apply (CreateOrder_first_bad_line_rolls_back 7
           [OrderItemRequest.mk 1 2] (OrderItemRequest.mk 2 3) [] shop).
  - repeat constructor. exists widget. split; [reflexivity|simpl; lia].
  - right. exists gadget. split; [reflexivity|simpl; lia].
Defined.

Lemma ConfirmOrder_paid_ships_atomically_witness :
  let out := ConfirmOrder 1 shop_paid in
  (is_ok (fst out) = false -> tabs (snd out) = tabs shop_paid) /\
  (Order.Status (first_order OrderStatusPaid) <> OrderStatusPaid ->
   is_ok (fst out) = false /\
   (quiet shop_paid -> fst out = Err "order must be paid before confirmation")) /\
  (Order.Status (first_order OrderStatusPaid) = OrderStatusPaid ->
   (quiet shop_paid -> is_ok (fst out) = true) /\
   (is_ok (fst out) = true ->
    products (tabs (snd out)) =
      map (shipped (items_of 1 (tabs shop_paid))) (products (tabs shop_paid)) /\
    find (fun o => Order.ID o =? 1) (orders (tabs (snd out))) =
      Some (Order.set_Status (first_order OrderStatusPaid) OrderStatusConfirmed) /\
    order_items (tabs (snd out)) = order_items (tabs shop_paid))).
Proof.
  apply (ConfirmOrder_paid_ships_atomically 1 (first_order OrderStatusPaid) shop_paid).
  reflexivity.
Defined.

Lemma transitions_follow_the_state_machine_witness :
  let out := run (Pay 7) 1 shop_pending in
  match edge (Pay 7) (Order.Status (first_order OrderStatusPending)) with
  | Some s' =>
    (quiet shop_pending ->
     exists resp, fst out = Ok resp /\ OrderResponse.Status resp = s') /\
    (is_ok (fst out) = true ->
     find (fun o => Order.ID o =? 1) (orders (tabs (snd out))) =
       Some (Order.set_Status (first_order OrderStatusPending) s'))
  | None =>
    is_ok (fst out) = false /\
    tabs (snd out) = tabs shop_pending /\
    (quiet shop_pending -> fst out = Err (refusal (Pay 7)))
  end.
Proof.
  apply (transitions_follow_the_state_machine (Pay 7) 1
           (first_order OrderStatusPending) shop_pending).
  - reflexivity.
  - simpl. auto.
  - intros userID [= <-]. reflexivity.
Defined.

Lemma OrderHandler_CancelOrder_any_caller_witness :
  let out := OrderHandler_CancelOrder (fun s => s) (mkContext (Some 8) "1") shop_pending in
  code (fst out) = StatusOK /\
  find (fun o => Order.ID o =? 1) (orders (tabs (snd out))) =
    Some (Order.set_Status (first_order OrderStatusPending) OrderStatusCancelled).
Proof.
  apply (OrderHandler_CancelOrder_any_caller (fun s => s) 8 "1" 1
           (first_order OrderStatusPending) shop_pending).
  - reflexivity.
  - reflexivity.
  - reflexivity.
  - simpl. lia.
  - reflexivity.
  - discriminate.
  - discriminate.
Defined.

Lemma CreateOrder_checks_each_line_alone_witness :
  let id := seq_orders shop + 1 in
  let w1 := snd (CreateOrder 7 (OrderCreateRequest.mk gadget_twice) shop) in
  let w2 := snd (PayOrder id 7 w1) in
  let w3 := snd (ConfirmOrder id w2) in
  (exists resp,
     fst (CreateOrder 7 (OrderCreateRequest.mk gadget_twice) shop) = Ok resp /\
     OrderResponse.ID resp = id) /\
  is_ok (fst (PayOrder id 7 w1)) = true /\
  is_ok (fst (ConfirmOrder id w2)) = true /\
  products (tabs w3) =
    map (fun p =>
      Product.mk (Product.ID p) (Product.Title p) (Product.Price p)
        (Product.Stock p - requested_quantity (Product.ID p) gadget_twice)
        (Product.OrderCount p + requested_lines (Product.ID p) gadget_twice))
      (products (tabs shop)).
Proof.
  apply (CreateOrder_checks_each_line_alone 7 gadget_twice shop).
  - reflexivity.
  - split; constructor.
  - discriminate.
  - repeat constructor; exists gadget; (split; [reflexivity|simpl; lia]).
  - reflexivity.
  - reflexivity.
Defined.

(** C4.  One Gadget in stock, no negative stock anywhere; users 7 and 8
    each order one Gadget, pay, and both orders are confirmed: every
    step succeeds and the stock of Gadget ends at -1, while
    [UpdateStock] refuses a change to a negative stock. *)
Example ConfirmOrder_drives_stock_negative :
  let one := OrderCreateRequest.mk [OrderItemRequest.mk 2 1] in
  let w1 := snd (CreateOrder 7 one shop) in
  let w2 := snd (CreateOrder 8 one w1) in
  let w3 := snd (PayOrder 1 7 w2) in
  let w4 := snd (PayOrder 2 8 w3) in
  let w5 := snd (ConfirmOrder 1 w4) in
  Forall (fun p => 0 <= Product.Stock p) (products (tabs shop)) /\
  is_ok (fst (CreateOrder 7 one shop)) = true /\
  is_ok (fst (CreateOrder 8 one w1)) = true /\
  is_ok (fst (PayOrder 1 7 w2)) = true /\
  is_ok (fst (PayOrder 2 8 w3)) = true /\
  is_ok (fst (ConfirmOrder 1 w4)) = true /\
  is_ok (fst (ConfirmOrder 2 w5)) = true /\
  map Product.Stock (products (tabs w5)) = [5; 0] /\
  map Product.Stock (products (tabs (snd (ConfirmOrder 2 w5)))) = [5; -1] /\
  fst (UpdateStock 2 (-2) shop) = Err "insufficient stock".
Proof.
  repeat split; try reflexivity.
  repeat constructor; simpl; lia.
Qed.

Lemma OrderHandler_PayOrder_not_owner Quote_beyond_ASCII caller id orderID w :
  quiet w ->
  ParseUint32 id = Ok orderID ->
  find (fun o => (Order.ID o =? orderID) && (Order.UserID o =? caller))
       (orders (tabs w)) = None ->
  OrderHandler_PayOrder Quote_beyond_ASCII (mkContext (Some caller) id) w =
  (mkJSON StatusBadRequest (ErrorResponse "Failed to pay order" "order not found"), w).
Proof.
  intros Hq Hid Hnone. unfold OrderHandler_PayOrder. simpl. rewrite Hid.
  erewrite bind_run by (apply PayOrder_not_owner; assumption).
  reflexivity.
Qed.

(** User 8 has no role and may not assign one; user 9, the super admin,
    makes user 7 a seller, and user 7 then resolves to that role. *)
Example AssignRole_in_the_shop :
  fst (GetUserRole 7 shop) = Ok ROLE_USER /\
  fst (GetUserRole 9 shop) = Ok ROLE_SUPER_ADMIN /\
  AssignRole 7 ROLE_SELLER 8 shop = (Err "only super admin can assign roles", shop) /\
  fst (AssignRole 7 "manager" 9 shop) = Err "role not found" /\
  fst (AssignRole 42 ROLE_SELLER 9 shop) = Err "user not found" /\
  fst (AssignRole 7 ROLE_SELLER 9 shop) = Ok tt /\
  user_roles (tabs (snd (AssignRole 7 ROLE_SELLER 9 shop))) =
    [UserRole.mk 1 9 1; UserRole.mk 2 7 2] /\
  fst (GetUserRole 7 (snd (AssignRole 7 ROLE_SELLER 9 shop))) = Ok ROLE_SELLER /\
  RemoveRole 9 9 shop = (Err "cannot remove your own role", shop).
Proof. repeat split; reflexivity. Qed.

(** * Properties of the queries, the product service and the handlers *)

(** ** UpdateOrderStatus, GetOrderByID, GetUserOrders *)

Lemma UpdateOrderStatus_any orderID userID req w :
  match fst (UpdateOrderStatus orderID userID req w) with
  | Ok resp =>
    OrderUpdateRequest.Status req = OrderStatusCancelled /\
    exists o,
      first_row (fun o => (Order.ID o =? orderID) && (Order.UserID o =? userID))
                (orders (tabs w)) = Ok o /\
      Order.Status o <> OrderStatusDelivered /\
      Order.Status o <> OrderStatusCancelled /\
      resp = OrderResponse_of (Order.set_Status o OrderStatusCancelled) [] /\
      tabs (snd (UpdateOrderStatus orderID userID req w)) =
        set_orders (tabs w)
          (saved (Order.set_Status o OrderStatusCancelled) (orders (tabs w)))
  | Err _ => tabs (snd (UpdateOrderStatus orderID userID req w)) = tabs w
  end.
Proof.
  unfold UpdateOrderStatus, bind.
  match goal with
  | |- context [First_order ?p w] =>
    destruct (First_order_any p w) as [Ht Hf];
      destruct (First_order p w) as [[o|e] w1]; simpl in *; [|exact Ht]
  end.
  destruct (String.eqb (OrderUpdateRequest.Status req) OrderStatusCancelled) eqn:Er;
    simpl; [|exact Ht].
  apply String.eqb_eq in Er.
  destruct (String.eqb (Order.Status o) OrderStatusDelivered) eqn:Ed; simpl;
    [exact Ht|].
  destruct (String.eqb (Order.Status o) OrderStatusCancelled) eqn:Ec; simpl;
    [exact Ht|].
  rewrite Er.
  pose proof (Save_order_any (Order.set_Status o OrderStatusCancelled) w1) as Hs.
  destruct (Save_order _ w1) as [[[]|e] w2]; simpl in *; [|congruence].
  apply String.eqb_neq in Ed, Ec.
  split; [reflexivity|]. exists o. rewrite Hs, Ht. auto 6.
Qed.


Lemma UpdateOrderStatus_quiet orderID userID o w :
  quiet w ->
  first_row (fun o => (Order.ID o =? orderID) && (Order.UserID o =? userID))
            (orders (tabs w)) = Ok o ->
  UpdateOrderStatus orderID userID (OrderUpdateRequest.mk OrderStatusCancelled) w =
  simple_transition (fun o => (Order.ID o =? orderID) && (Order.UserID o =? userID))
    (fun s => negb (String.eqb s OrderStatusDelivered
                    || String.eqb s OrderStatusCancelled))
    OrderStatusCancelled "order cannot be cancelled" w.
Proof.
  intros Hq Ho. unfold UpdateOrderStatus, simple_transition.
  run_with First_order_quiet. rewrite Ho. simpl.
  erewrite (bind_run (First_order _)) by (apply First_order_quiet; exact Hq).
  rewrite Ho.
  destruct (String.eqb (Order.Status o) OrderStatusDelivered); simpl; [reflexivity|].
  destruct (String.eqb (Order.Status o) OrderStatusCancelled); simpl; [reflexivity|].
  run_with Save_order_quiet.
  erewrite (bind_run (Save_order _)) by (apply Save_order_quiet; exact Hq).
  reflexivity.
Qed.

(** X2.  When no statement fails and the order with the given id
    belongs to the user, UpdateOrderStatus with the status "cancelled"
    returns what CancelOrder returns for that order and leaves the same
    database, whatever the order's status. *)
Theorem UpdateOrderStatus_agrees_with_CancelOrder orderID userID o w :
  quiet w ->
  find (fun o => Order.ID o =? orderID) (orders (tabs w)) = Some o ->
  Order.UserID o = userID ->
  UpdateOrderStatus orderID userID (OrderUpdateRequest.mk OrderStatusCancelled) w =
  CancelOrder orderID w.
Proof.
  intros Hq Hf Hu.
  pose proof (first_row_find _ _ _ (find_owner orderID userID _ o Hf Hu)) as Hrow.
  rewrite (UpdateOrderStatus_quiet orderID userID o w Hq Hrow).
  rewrite CancelOrder_shape.
  rewrite (simple_transition_quiet _ _ _ _ o w Hq Hrow).
  rewrite (simple_transition_quiet _ _ _ _ o w Hq (first_row_find _ _ _ Hf)).
  reflexivity.
Qed.

Lemma GetOrderByID_any orderID userID w :
  tabs (snd (GetOrderByID orderID userID w)) = tabs w /\
  (forall resp, fst (GetOrderByID orderID userID w) = Ok resp ->
   exists o,
     In o (orders (tabs w)) /\
     Order.ID o = orderID /\ Order.UserID o = userID /\
     resp = OrderResponse_of o
              (map OrderItemResponse_of (items_of orderID (tabs w)))).
Proof.
  unfold GetOrderByID, bind.
  match goal with
  | |- context [First_order_Preload true ?p w] =>
    destruct (First_order_Preload_any true p w) as [Ht Hf];
      destruct (First_order_Preload true p w) as [[[o items]|e] w1]; simpl in *
  end.
  - split; [exact Ht|].
    intros resp [= <-]. destruct (Hf o items eq_refl) as [Ho ->].
    unfold first_row in Ho.
    destruct (find _ (orders (tabs w))) as [o'|] eqn:Ef; [|discriminate].
    injection Ho as ->. apply find_some in Ef. destruct Ef as [Hin Hsel].
    apply andb_true_iff in Hsel. destruct Hsel as [Hi Hu].
    apply Z.eqb_eq in Hi, Hu. exists o. rewrite Hi. auto.
  - split; [exact Ht|discriminate].
Qed.

(** X3.  On every failure schedule GetOrderByID writes nothing, and
    a response it returns is that of a stored order with the requested
    id that belongs to the requesting user, with the line items of that
    order; when no statement fails and no order has that id and that
    owner, the error is "order not found". *)
Theorem GetOrderByID_owner_only orderID userID w :
  let out := GetOrderByID orderID userID w in
  tabs (snd out) = tabs w /\
  (forall resp, fst out = Ok resp ->
   exists o,
     In o (orders (tabs w)) /\
     Order.ID o = orderID /\ Order.UserID o = userID /\
     resp = OrderResponse_of o
              (map OrderItemResponse_of (items_of orderID (tabs w)))) /\
  (quiet w ->
   find (fun o => (Order.ID o =? orderID) && (Order.UserID o =? userID))
        (orders (tabs w)) = None ->
   fst out = Err "order not found").
Proof.
  intros out. subst out.
  destruct (GetOrderByID_any orderID userID w) as [Ht Hr].
  split; [exact Ht|]. split; [exact Hr|].
  intros Hquiet Hnone. unfold GetOrderByID, bind.
  match goal with
  | |- context [First_order_Preload true ?p w] =>
    pose proof (First_order_Preload_quiet true p w Hquiet) as Hq
  end.
  unfold first_row in Hq. rewrite Hnone in Hq. now rewrite Hq.
Qed.

Lemma Preload_OrderItems_all_any l w :
  tabs (snd (Preload_OrderItems_all l w)) = tabs w /\
  (fst (Preload_OrderItems_all l w) = Err ErrDriver \/
   fst (Preload_OrderItems_all l w) =
     Ok (map (fun o => (o, items_of (Order.ID o) (tabs w))) l)).
Proof.
  destruct l as [|o l]; [simpl; auto|].
  unfold Preload_OrderItems_all. apply stmt_reading_any.
Qed.

(** X4.  Whatever rearrangement of the rows the ordering by
    created_at stands for, GetUserOrders writes nothing, succeeds when
    no statement fails, and a list it returns holds one response for
    each stored order of the user, for no other order, each with the
    line items of its order. *)
Theorem GetUserOrders_own_orders
    (created_at_DESC : list Order.t -> list Order.t) userID w :
  (forall l, Permutation (created_at_DESC l) l) ->
  let out := GetUserOrders created_at_DESC userID w in
  tabs (snd out) = tabs w /\
  (quiet w -> is_ok (fst out) = true) /\
  (forall resps, fst out = Ok resps ->
   exists l,
     Permutation l (filter (fun o => Order.UserID o =? userID) (orders (tabs w))) /\
     resps = map (fun o => OrderResponse_of o
                    (map OrderItemResponse_of (items_of (Order.ID o) (tabs w)))) l /\
     Forall (fun r => OrderResponse.UserID r = userID) resps).
Proof.
  intros Hperm out. subst out. unfold GetUserOrders, Find_orders_of, bind.
  match goal with
  | |- context [stmt (reading ?f) w] =>
    destruct (stmt_reading_any f w) as [Ht Hf];
      pose proof (stmt_reading_quiet f w) as Hq;
      destruct (stmt (reading f) w) as [r1 w1]; simpl in *
  end.
  destruct r1 as [l|e]; simpl.
  - destruct Hf as [Hf|Hf]; [discriminate|]. injection Hf as ->.
    destruct (Preload_OrderItems_all_any
                (created_at_DESC (filter (fun o => Order.UserID o =? userID)
                                         (orders (tabs w)))) w1) as [Ht1 Hf1].
    pose proof (fun H => stmt_reading_quiet
      (fun t => Ok (map (fun o => (o, items_of (Order.ID o) t))
                (created_at_DESC (filter (fun o => Order.UserID o =? userID)
                                         (orders (tabs w)))))) w1 H) as Hq1.
    destruct (Preload_OrderItems_all _ w1) as [r2 w2] eqn:E2; simpl in *.
    destruct Hf1 as [-> | ->]; simpl.
    + split; [congruence|]. split; [|discriminate].
      intros Hquiet. specialize (Hq Hquiet). injection Hq as ->.
      exfalso. unfold Preload_OrderItems_all in E2.
      destruct (created_at_DESC _); [discriminate|].
      rewrite (Hq1 Hquiet) in E2. discriminate.
    + split; [congruence|]. split; [reflexivity|].
      intros resps [= <-]. eexists. split; [apply Hperm|].
      rewrite map_map, Ht. simpl. split; [reflexivity|].
      apply Forall_map. apply Forall_forall. intros o Ho. simpl.
      apply (Permutation_in _ (Hperm _)) in Ho.
      apply filter_In in Ho. destruct Ho as [_ Ho]. now apply Z.eqb_eq.
  - split; [exact Ht|]. split; [|discriminate].
    intros Hquiet. specialize (Hq Hquiet). discriminate.
Qed.

(** ** The life of an order *)

Lemma selects_set_Status tr orderID o s :
  selects tr orderID (Order.set_Status o s) = selects tr orderID o.
Proof. destruct tr; reflexivity. Qed.

Lemma find_selects_saved tr orderID o s l :
  find (selects tr orderID) l = Some o ->
  find (selects tr orderID) (saved (Order.set_Status o s) l) =
  Some (Order.set_Status o s).
Proof.
  unfold saved. simpl.
  induction l as [|a l IH]; simpl; [discriminate|].
  destruct (selects tr orderID a) eqn:Ea.
  - intros [= ->]. now rewrite Z.eqb_refl, selects_set_Status, Ea.
  - intros Hf. destruct (Order.ID a =? Order.ID o) eqn:Eid.
    + apply find_some in Hf. destruct Hf as [_ Hs].
      now rewrite selects_set_Status, Hs.
    + rewrite Ea. exact (IH Hf).
Qed.

Lemma guard_target tr : guard tr (target tr) = false.
Proof. destruct tr; reflexivity. Qed.

Lemma guard_not_terminal tr s : guard tr s = true -> terminal s = false.
Proof.
  unfold terminal. destruct tr; simpl; intros H.
  5:{ now apply negb_true_iff in H. }
  all: apply String.eqb_eq in H; subst s; reflexivity.
Qed.

(** X5.  If PayOrder, ConfirmOrder, ShipOrder, DeliverOrder or
    CancelOrder succeeds on an order, then the same operation on the
    same order, run on the tables it left, fails on every failure
    schedule and changes nothing: no order is paid, confirmed (and its
    stock taken), shipped, delivered or cancelled twice. *)
Theorem transition_not_repeatable tr orderID w w2 :
  is_ok (fst (run tr orderID w)) = true ->
  tabs w2 = tabs (snd (run tr orderID w)) ->
  is_ok (fst (run tr orderID w2)) = false /\
  tabs (snd (run tr orderID w2)) = tabs w2.
Proof.
  intros Hok Ht2.
  pose proof (run_any tr orderID w) as H1.
  destruct (fst (run tr orderID w)) as [resp|e]; [|discriminate].
  destruct H1 as [o [Ho [_ [_ Hsaved]]]].
  pose proof (run_any tr orderID w2) as H2.
  destruct (fst (run tr orderID w2)) as [resp2|e2]; [|auto].
  exfalso. destruct H2 as [o2 [Ho2 [Hg2 _]]].
  rewrite Ht2, Hsaved in Ho2. unfold first_row in Ho, Ho2.
  destruct (find (selects tr orderID) (orders (tabs w))) as [o'|] eqn:Ef;
    [|discriminate].
  injection Ho as ->.
  rewrite (find_selects_saved tr orderID o (target tr) _ Ef) in Ho2.
  injection Ho2 as <-. simpl in Hg2. rewrite guard_target in Hg2. discriminate.
Qed.

Lemma run_tabs tr orderID w :
  match fst (run tr orderID w) with
  | Ok _ =>
    exists o,
      find (selects tr orderID) (orders (tabs w)) = Some o /\
      guard tr (Order.Status o) = true /\
      tabs (snd (run tr orderID w)) = moved tr o (tabs w)
  | Err _ => tabs (snd (run tr orderID w)) = tabs w
  end.
Proof.
  assert (Hrow : forall p (l : list Order.t) o,
             first_row p l = Ok o -> find p l = Some o).
  { intros p l o. unfold first_row. destruct (find p l); now intros [= ->]. }
  destruct tr; simpl.
  2:{ pose proof (ConfirmOrder_any orderID w) as H.
      destruct (fst (ConfirmOrder orderID w)) as [resp|e]; [|exact H].
      destruct H as [o [Ho [Hst [_ Ht]]]]. exists o.
      rewrite Hst. auto. }
  1: rewrite PayOrder_shape.
  2: rewrite ShipOrder_shape.
  3: rewrite DeliverOrder_shape.
  4: rewrite CancelOrder_shape.
  all: match goal with
       | |- context [simple_transition ?a ?b ?c ?d ?w] =>
         pose proof (simple_transition_any a b c d w) as H; simpl in H;
           destruct (fst (simple_transition a b c d w)) as [resp|e]; [|exact H]
       end.
  all: destruct H as [o [Ho [Hg [_ Ht]]]]; exists o; auto.
Qed.

Lemma NoDup_key_eq (l : list Order.t) a b :
  NoDup (map Order.ID l) -> In a l -> In b l -> Order.ID a = Order.ID b -> a = b.
Proof.
  induction l as [|c l IH]; simpl; intros Hnd Ha Hb Hid; [contradiction|].
  inversion Hnd as [|? ? Hnotin Hnd']; subst.
  destruct Ha as [-> | Ha], Hb as [-> | Hb]; auto.
  - exfalso. apply Hnotin. rewrite Hid. now apply in_map.
  - exfalso. apply Hnotin. rewrite <- Hid. now apply in_map.
Qed.

Lemma saved_row_step tr o l :
  NoDup (map Order.ID l) -> In o l -> guard tr (Order.Status o) = true ->
  Forall2 (row_step tr) l (saved (Order.set_Status o (target tr)) l).
Proof.
  intros Hnd Hin Hg. unfold saved. simpl.
  assert (H : forall r, In r l ->
            row_step tr r (if Order.ID r =? Order.ID o
                           then Order.set_Status o (target tr) else r)).
  { intros r Hr. destruct (Order.ID r =? Order.ID o) eqn:E.
    - apply Z.eqb_eq in E. rewrite (NoDup_key_eq l r o Hnd Hr Hin E).
      right. auto.
    - left. reflexivity. }
  clear Hnd Hin. induction l as [|a l IH]; simpl; constructor.
  - apply H. now left.
  - apply IH. intros r Hr. apply H. now right.
Qed.

Lemma Forall2_refl {A} (R : A -> A -> Prop) (l : list A) :
  (forall a, R a a) -> Forall2 R l l.
Proof. intros H. induction l; constructor; auto. Qed.

Lemma run_rows tr orderID w :
  NoDup (map Order.ID (orders (tabs w))) ->
  Forall2 (row_step tr) (orders (tabs w)) (orders (tabs (snd (run tr orderID w)))) /\
  order_items (tabs (snd (run tr orderID w))) = order_items (tabs w) /\
  users (tabs (snd (run tr orderID w))) = users (tabs w) /\
  roles (tabs (snd (run tr orderID w))) = roles (tabs w) /\
  user_roles (tabs (snd (run tr orderID w))) = user_roles (tabs w) /\
  (tr <> Confirm -> products (tabs (snd (run tr orderID w))) = products (tabs w)).
Proof.
  intros Hnd.
  pose proof (run_tabs tr orderID w) as H.
  destruct (fst (run tr orderID w)) as [resp|e].
  - destruct H as [o [Ho [Hg ->]]].
    apply find_some in Ho. destruct Ho as [Hin _].
    pose proof (saved_row_step tr o _ Hnd Hin Hg) as Hrows.
    destruct tr; simpl in *; repeat split; try exact Hrows; try reflexivity.
    congruence.
  - rewrite H. repeat split.
    apply Forall2_refl. intros a. now left.
Qed.

(** X6.  With order ids unique, on every failure schedule a
    status operation leaves each order row as it was or moves it along
    the operation's own edge of the state machine; line items, users,
    roles and role assignments are never touched, and only ConfirmOrder
    may change a product. *)
Theorem transition_moves_one_status tr orderID w :
  NoDup (map Order.ID (orders (tabs w))) ->
  let t' := tabs (snd (run tr orderID w)) in
  Forall2 (row_step tr) (orders (tabs w)) (orders t') /\
  order_items t' = order_items (tabs w) /\
  users t' = users (tabs w) /\
  roles t' = roles (tabs w) /\
  user_roles t' = user_roles (tabs w) /\
  (tr <> Confirm -> products t' = products (tabs w)).
Proof. intros Hnd t'. exact (run_rows tr orderID w Hnd). Qed.

Lemma row_step_facts tr l l' :
  Forall2 (row_step tr) l l' ->
  map order_core l' = map order_core l /\
  (forall o, In o l -> terminal (Order.Status o) = true -> In o l').
Proof.
  induction 1 as [|r r' l l' Hr Hrest [IH1 IH2]]; simpl.
  - split; [reflexivity|contradiction].
  - split.
    + rewrite IH1. f_equal. destruct Hr as [-> | [_ ->]]; reflexivity.
    + intros o [<- | Ho] Hterm.
      * left. destruct Hr as [-> | [Hg _]]; [reflexivity|].
        apply guard_not_terminal in Hg. congruence.
      * right. now apply IH2.
Qed.

(** X7.  With order ids unique, on every failure schedule no
    status operation changes the id, owner, order number or total
    amount of any order, adds or removes an order, or touches an order
    that is delivered or cancelled. *)
Theorem transitions_keep_terminal_orders_and_totals tr orderID w :
  NoDup (map Order.ID (orders (tabs w))) ->
  let l' := orders (tabs (snd (run tr orderID w))) in
  map order_core l' = map order_core (orders (tabs w)) /\
  NoDup (map Order.ID l') /\
  (forall o, In o (orders (tabs w)) -> terminal (Order.Status o) = true -> In o l').
Proof.
  intros Hnd l'.
  destruct (run_rows tr orderID w Hnd) as [Hrows _].
  destruct (row_step_facts tr _ _ Hrows) as [Hcore Hterm].
  fold l' in Hcore, Hterm. repeat split; try assumption.
  assert (Hid : forall l, map Order.ID l =
                          map (fun c => fst (fst (fst c))) (map order_core l)).
  { intros l. rewrite map_map. reflexivity. }
  now rewrite (Hid l'), Hcore, <- Hid.
Qed.

(** ** CreateOrder on every schedule *)

Lemma CreateOrder_lines_result tx items : forall total acc w total' rows,
  fst (CreateOrder_lines tx items total acc w) = Ok (total', rows) ->
  total' = fold_left (add_line (tabs w)) items total /\
  rows = acc ++ map (line_item (tabs w)) items.
Proof.
  induction items as [|item rest IH]; intros total acc w total' rows; simpl.
  - intros [= <- <-]. now rewrite app_nil_r.
  - unfold First_product. io_unfold.
    destruct (tx_Error tx) eqn:Etx; simpl; [discriminate|].
    destruct w as [t so si su f now]; simpl.
    unfold first_row, add_line, line_item, unit_price, product_of.
    next_fault f; try discriminate.
    all: destruct (find _ (products t)) as [p|] eqn:Ef; simpl; try discriminate.
    all: destruct (Product.Stock p <? _) eqn:Es; simpl; try discriminate.
    all: intros H; apply IH in H; simpl in H; destruct H as [-> ->].
    all: rewrite <- app_assoc; split; reflexivity.
Qed.

Lemma Create_order_any o w :
  match fst (Create_order o w) with
  | Ok o' =>
    exists id, o' = Order.set_ID o id /\
      tabs (snd (Create_order o w)) =
      set_orders (tabs w) (orders (tabs w) ++ [o'])
  | Err _ => tabs (snd (Create_order o w)) = tabs w
  end.
Proof.
  unfold Create_order. io_unfold. destruct w as [t so si su f now]; simpl.
  next_fault f; try reflexivity;
    destruct (order_admitted t o); simpl; try reflexivity;
    eexists; split; reflexivity.
Qed.

Lemma Create_order_items_any l w :
  match fst (Create_order_items l w) with
  | Ok l' =>
    l <> [] /\
    exists n, l' = number_items n l /\
      tabs (snd (Create_order_items l w)) =
      set_order_items (tabs w) (order_items (tabs w) ++ l')
  | Err _ => tabs (snd (Create_order_items l w)) = tabs w
  end.
Proof.
  destruct l as [|i l]; [reflexivity|].
  unfold Create_order_items. io_unfold. destruct w as [t so si su f now]; simpl.
  next_fault f; try reflexivity; (split; [discriminate|]); eexists; split; reflexivity.
Qed.

Lemma CreateOrder_any userID items w :
  let out := CreateOrder userID (OrderCreateRequest.mk items) w in
  exists id n number,
    match fst out with
    | Ok resp =>
      items <> [] /\ forallb (in_stock (tabs w)) items = true /\
      OrderResponse.ID resp = id /\
      OrderResponse.UserID resp = userID /\
      OrderResponse.Status resp = OrderStatusPending /\
      OrderResponse.TotalAmount resp = fold_left (add_line (tabs w)) items 0%float /\
      tabs (snd out) = committed userID items number id n (tabs w)
    | Err e =>
      tabs (snd out) = tabs w \/
      (e = "failed to load order" /\ items <> [] /\
       forallb (in_stock (tabs w)) items = true /\
       tabs (snd out) = committed userID items number id n (tabs w))
    end.
Proof.
  intros out. subst out. unfold CreateOrder, bind.
  destruct (Begin_any w) as [Hs Ht].
  destruct (Begin w) as [tx w1]. simpl in *.
  pose proof (CreateOrder_lines_any tx items 0%float [] w1) as Hl.
  pose proof (CreateOrder_lines_result tx items 0%float [] w1) as Hres.
  destruct (CreateOrder_lines tx items 0%float [] w1) as [[[total rows]|e] w2];
    simpl in *.
  2:{ exists 0, 0, "". left. congruence. }
  destruct Hl as [Ht2 Hin]. rewrite Ht in Hin.
  destruct (Hres total rows eq_refl) as [-> ->]. clear Hres. rewrite Ht.
  unfold on_tx. destruct (tx_Error tx) eqn:Etx; simpl.
  { exists 0, 0, "". left. exact Hs. }
  match goal with
  | |- context [Create_order ?o w2] =>
    pose proof (Create_order_any o w2) as Hc;
      destruct (Create_order o w2) as [[o'|e] w3]; simpl in *
  end.
  2:{ exists 0, 0, "". left. exact Hs. }
  destruct Hc as [id [-> Ht3]]. simpl.
  match goal with
  | |- context [Create_order_items ?l w3] =>
    pose proof (Create_order_items_any l w3) as Hi;
      destruct (Create_order_items l w3) as [[l'|e] w4]; simpl in *
  end.
  2:{ exists 0, 0, "". left. exact Hs. }
  destruct Hi as [Hne [n [-> Ht4]]].
  assert (Hitems : items <> []).
  { intros ->. now apply Hne. }
  pose proof (Commit_any tx w4 Etx) as Hm.
  destruct (Commit tx w4) as [[[]|e] w5]; simpl in *.
  2:{ exists 0, 0, "". left. congruence. }
  assert (Hfinal : tabs w5 =
            committed userID items
              ("ORD-" ++ fmt_d (unix_now w1) ++ "-" ++ fmt_d userID)%string
              id n (tabs w)).
  { rewrite Hm, Ht4, Ht3, Ht2, Ht. reflexivity. }
  exists id, n, ("ORD-" ++ fmt_d (unix_now w1) ++ "-" ++ fmt_d userID)%string.
  match goal with
  | |- context [First_order_Preload true ?p w5] =>
    destruct (First_order_Preload_any true p w5) as [Ht6 _];
      destruct (First_order_Preload true p w5) as [[[o its]|e] w6]; simpl in *
  end.
  - rewrite Ht6. auto 10.
  - right. rewrite Ht6. auto.
Qed.

(** X8.  On every failure schedule, if CreateOrder returns an
    order then the request was not empty, every line named an existing
    product whose stock covered the line's quantity, the response is
    the caller's, pending, with the total the loop computes, and the
    tables are the old ones plus exactly that order row and one line
    item per request line. *)
Theorem CreateOrder_success_is_committed userID items w :
  let out := CreateOrder userID (OrderCreateRequest.mk items) w in
  forall resp, fst out = Ok resp ->
  items <> [] /\
  Forall (fun item =>
    exists p, product_of (tabs w) (OrderItemRequest.ProductID item) = Some p /\
              OrderItemRequest.Quantity item <= Product.Stock p) items /\
  OrderResponse.UserID resp = userID /\
  OrderResponse.Status resp = OrderStatusPending /\
  OrderResponse.TotalAmount resp = fold_left (add_line (tabs w)) items 0%float /\
  exists n number,
    tabs (snd out) = committed userID items number (OrderResponse.ID resp) n (tabs w).
Proof.
  intros out resp Hr.
  destruct (CreateOrder_any userID items w) as [id [n [number H]]].
  fold out in H. rewrite Hr in H.
  destruct H as [Hne [Hin [Hid [Hu [Hs [Htot Ht]]]]]].
  repeat split; try assumption.
  - apply Forall_forall. intros item Hi. apply in_stock_iff.
    rewrite forallb_forall in Hin. auto.
  - exists n, number. now rewrite Hid.
Qed.

(** X9.  On every failure schedule, an error of CreateOrder other
    than "failed to load order" leaves all tables as they were. *)
Theorem CreateOrder_error_rolls_back_unless_reload userID items w e :
  fst (CreateOrder userID (OrderCreateRequest.mk items) w) = Err e ->
  e <> "failed to load order" ->
  tabs (snd (CreateOrder userID (OrderCreateRequest.mk items) w)) = tabs w.
Proof.
  intros He Hne.
  destruct (CreateOrder_any userID items w) as [id [n [number H]]].
  simpl in H. rewrite He in H. destruct H as [H | [H _]]; [exact H|contradiction].
Qed.

(** X10.  A request without lines never creates an order: on every
    failure schedule CreateOrder fails and leaves the tables as they
    were; when no statement fails the error is "failed to create order
    items" if the user has a row and the order number of this second is
    not yet stored, and "failed to create order" if not. *)
Theorem CreateOrder_empty_request userID w :
  let out := CreateOrder userID (OrderCreateRequest.mk []) w in
  is_ok (fst out) = false /\
  tabs (snd out) = tabs w /\
  (quiet w ->
   fst out =
   Err (if number_free w userID && user_known (tabs w) userID
        then "failed to create order items" else "failed to create order")).
Proof.
  intros out.
  destruct (CreateOrder_any userID [] w) as [id [n [number H]]].
  fold out in H. split; [|split].
  - destruct (fst out); [|reflexivity]. destruct H as [H _]. now contradiction H.
  - destruct (fst out).
    + destruct H as [H _]. now contradiction H.
    + destruct H as [H | [_ [H _]]]; [exact H|now contradiction H].
  - intros Hq. subst out.
    destruct (number_free w userID && user_known (tabs w) userID) eqn:Hadm.
    + unfold CreateOrder.
      run_with Begin_quiet.
      erewrite bind_run by reflexivity. cbv beta iota.
      erewrite bind_run by reflexivity. cbv beta iota.
      rewrite on_tx_ok by reflexivity.
      erewrite bind_run.
      2:{ apply Create_order_quiet; [quiet_tac|].
          change (order_admitted (tabs w)
                    (Order.mk 0 userID (order_number w userID) OrderStatusPending
                       0%float) = true).
          now rewrite order_admitted_new. }
      cbv beta iota.
      rewrite on_tx_ok by reflexivity.
      destruct w as [t so si su f now]. reflexivity.
    + now rewrite (CreateOrder_not_admitted userID [] w Hq eq_refl Hadm).
Qed.

(** Statements that go through on a schedule that starts with [false]. *)
Lemma stmt_pass {A} (run : query A) w fs :
  faults w = false :: fs -> stmt run w = run (set_faults w fs).
Proof. unfold stmt. now intros ->. Qed.

Lemma CreateOrder_lines_pass tx items : forall total acc w fs,
  tx_Error tx = false ->
  faults w = repeat false (List.length items) ++ fs ->
  forallb (in_stock (tabs w)) items = true ->
  CreateOrder_lines tx items total acc w =
  (Ok (fold_left (add_line (tabs w)) items total,
       acc ++ map (line_item (tabs w)) items), set_faults w fs).
Proof.
  induction items as [|item rest IH]; intros total acc w fs Htx Hf Hin; simpl.
  - simpl in Hf. rewrite app_nil_r. unfold ret. f_equal.
    destruct w; simpl in *; now subst.
  - simpl in Hin, Hf. apply andb_true_iff in Hin. destruct Hin as [Hi Hrest].
    unfold in_stock, product_of in Hi.
    unfold First_product. rewrite on_tx_ok by assumption.
    unfold bind. rewrite (stmt_pass _ _ _ Hf).
    unfold reading. simpl. unfold first_row.
    destruct (find _ (products (tabs w))) as [p|] eqn:Ef; [|discriminate].
    apply negb_true_iff in Hi. simpl. rewrite Hi.
    rewrite (IH _ _ _ fs Htx) by (simpl; auto).
    assert (Hp : unit_price (tabs w) item = Product.Price p)
      by (unfold unit_price, product_of; now rewrite Ef).
    assert (Ha : add_line (tabs w) total item =
                 (total + Product.Price p *
                    float64_of_int (OrderItemRequest.Quantity item))%float)
      by (unfold add_line; now rewrite Hp).
    assert (Hl : line_item (tabs w) item =
                 OrderItem.mk 0 0 (OrderItemRequest.ProductID item)
                   (OrderItemRequest.Quantity item) (Product.Price p))
      by (unfold line_item; now rewrite Hp).
    rewrite Ha, Hl, <- app_assoc.
    destruct w as [t so si su f now]. reflexivity.
Qed.

(** X11.  When every statement up to the commit goes through (the
    user has a row and the order number of this second is not yet
    stored, so the orders table takes the new row) and the first
    statement of the reload after the commit fails, CreateOrder returns
    the error "failed to load order" although the order and its line
    items are committed. *)
Theorem CreateOrder_reload_failure_keeps_order userID items w fs :
  items <> [] ->
  forallb (in_stock (tabs w)) items = true ->
  user_known (tabs w) userID = true ->
  number_free w userID = true ->
  faults w = repeat false (List.length items + 4) ++ true :: fs ->
  let out := CreateOrder userID (OrderCreateRequest.mk items) w in
  fst out = Err "failed to load order" /\
  tabs (snd out) =
    committed userID items
      ("ORD-" ++ fmt_d (unix_now w) ++ "-" ++ fmt_d userID)%string
      (seq_orders w + 1) (seq_order_items w) (tabs w).
Proof.
  intros Hne Hin Hknown Hfree Hf out. subst out.
  assert (Hadm : order_admitted (tabs w)
                   (Order.mk 0 userID (order_number w userID) OrderStatusPending
                      (fold_left (add_line (tabs w)) items 0%float)) = true)
    by now rewrite order_admitted_new, Hfree, Hknown.
  assert (Hrun :
    CreateOrder userID (OrderCreateRequest.mk items) w =
    (Err "failed to load order",
     mkWorld
       (committed userID items
          ("ORD-" ++ fmt_d (unix_now w) ++ "-" ++ fmt_d userID)%string
          (seq_orders w + 1) (seq_order_items w) (tabs w))
       (seq_orders w + 1) (seq_order_items w + Z.of_nat (List.length items))
       (seq_user_roles w) fs (unix_now w))).
  { destruct w as [t so si su f now]. simpl in *. subst f.
    replace (List.length items + 4)%nat with (S (List.length items + 3)) by lia.
    unfold CreateOrder. unfold bind at 1. unfold Begin. simpl.
    unfold bind at 1. unfold time_Now_Unix. simpl.
    unfold bind at 1.
    rewrite repeat_app, <- app_assoc.
    erewrite CreateOrder_lines_pass; try reflexivity; try assumption.
    destruct items as [|i0 items]; [congruence|].
    unfold Create_order, Create_order_items, First_order_Preload, First_order.
    io_unfold. unfold order_number in Hadm. cbn [tabs unix_now] in Hadm.
    cbn [faults tabs set_faults repeat app seq_orders seq_order_items
         seq_user_roles unix_now fst snd tx_Error].
    match goal with
    | |- context [order_admitted ?t0 ?o] =>
      replace (order_admitted t0 o) with true by (symmetry; exact Hadm)
    end.
    simpl. unfold committed. simpl.
    rewrite !length_map. reflexivity. }
  rewrite Hrun. split; reflexivity.
Qed.

(** ** More of the role service *)

Lemma RemoveRole_any userID removedBy w :
  match fst (RemoveRole userID removedBy w) with
  | Ok _ =>
    role_of (tabs w) removedBy = ROLE_SUPER_ADMIN /\
    userID <> removedBy /\
    find (fun u => User.ID u =? userID) (users (tabs w)) <> None /\
    find (fun ur => UserRole.UserID ur =? userID) (user_roles (tabs w)) <> None /\
    tabs (snd (RemoveRole userID removedBy w)) =
      set_user_roles (tabs w) (without_user userID (user_roles (tabs w)))
  | Err _ => tabs (snd (RemoveRole userID removedBy w)) = tabs w
  end.
Proof.
  unfold RemoveRole, bind.
  destruct (GetUserRole_any removedBy w) as [Ht Hr].
  destruct (GetUserRole removedBy w) as [[actor|e] w1]; simpl in *; [|exact Ht].
  specialize (Hr actor eq_refl).
  destruct (String.eqb actor ROLE_SUPER_ADMIN) eqn:Ea; simpl; [|exact Ht].
  apply String.eqb_eq in Ea.
  destruct (userID =? removedBy) eqn:Eself; simpl; [exact Ht|].
  apply Z.eqb_neq in Eself.
  unfold First_user, First_user_role.
  match goal with
  | |- context [stmt (reading ?f) w1] =>
    destruct (stmt_reading_any f w1) as [Ht1 Hf1];
      destruct (stmt (reading f) w1) as [r1 w2]; simpl in *
  end.
  destruct r1 as [user|e]; simpl; [|congruence].
  destruct Hf1 as [Hf1|Hf1]; [discriminate|].
  match goal with
  | |- context [stmt (reading ?f) w2] =>
    destruct (stmt_reading_any f w2) as [Ht2 Hf2];
      destruct (stmt (reading f) w2) as [r2 w3]; simpl in *
  end.
  destruct r2 as [ur|e]; simpl; [|congruence].
  destruct Hf2 as [Hf2|Hf2]; [discriminate|].
  destruct (Begin_any w3) as [Hs Ht3].
  destruct (Begin w3) as [tx w4]; simpl in *.
  destruct (tx_Error tx) eqn:Etx; simpl; [congruence|].
  unfold on_tx. rewrite Etx.
  pose proof (Delete_user_roles_any userID w4) as Hd.
  destruct (Delete_user_roles userID w4) as [[[]|e] w5]; simpl in *; [|congruence].
  pose proof (Commit_any tx w5 Etx) as Hm.
  destruct (Commit tx w5) as [[[]|e] w6]; simpl in *; [|congruence].
  unfold first_row in Hf1, Hf2. rewrite Ht in Hf1. rewrite Ht1, Ht in Hf2.
  repeat split.
  - congruence.
  - exact Eself.
  - destruct (find _ (users (tabs w))); congruence.
  - destruct (find _ (user_roles (tabs w))); congruence.
  - rewrite Hm, Hd, Ht3, Ht2, Ht1, Ht. reflexivity.
Qed.

Lemma RemoveRole_quiet userID removedBy user ur w :
  quiet w ->
  role_of (tabs w) removedBy = ROLE_SUPER_ADMIN ->
  userID <> removedBy ->
  find (fun u => User.ID u =? userID) (users (tabs w)) = Some user ->
  find (fun ur => UserRole.UserID ur =? userID) (user_roles (tabs w)) = Some ur ->
  RemoveRole userID removedBy w =
  (Ok tt, set_tabs w (set_user_roles (tabs w)
                        (without_user userID (user_roles (tabs w))))).
Proof.
  intros Hq Ha Hne Hu Hur. unfold RemoveRole.
  run_with GetUserRole_quiet. rewrite Ha, String.eqb_refl. cbn [negb].
  apply Z.eqb_neq in Hne. rewrite Hne.
  unfold First_user, First_user_role.
  run_with (@stmt_reading_quiet User.t). unfold first_row. rewrite Hu.
  run_with (@stmt_reading_quiet UserRole.t). rewrite Hur.
  run_with Begin_quiet. cbn [tx_Error].
  rewrite !on_tx_ok by reflexivity.
  run_with Delete_user_roles_quiet.
  erewrite bind_run by (apply Commit_quiet; [reflexivity|quiet_tac]).
  reflexivity.
Qed.

Lemma find_without_user_none userID l :
  find (fun ur => UserRole.UserID ur =? userID) (without_user userID l) = None.
Proof.
  unfold without_user. induction l as [|a l IH]; simpl; [reflexivity|].
  destruct (UserRole.UserID a =? userID) eqn:E; simpl; [exact IH|].
  now rewrite E.
Qed.

Lemma find_without_other userID u l :
  u <> userID ->
  find (fun ur => UserRole.UserID ur =? u) (without_user userID l) =
  find (fun ur => UserRole.UserID ur =? u) l.
Proof.
  intros Hne. unfold without_user. induction l as [|a l IH]; simpl; [reflexivity|].
  destruct (UserRole.UserID a =? userID) eqn:E; simpl.
  - apply Z.eqb_eq in E.
    assert (Hn : (UserRole.UserID a =? u) = false) by (apply Z.eqb_neq; congruence).
    now rewrite Hn.
  - destruct (UserRole.UserID a =? u); [reflexivity|exact IH].
Qed.

Lemma find_app_other {A} (p : A -> bool) l x :
  p x = false -> find p (l ++ [x]) = find p l.
Proof.
  intros Hx. induction l as [|a l IH]; simpl.
  - now rewrite Hx.
  - destruct (p a); [reflexivity|exact IH].
Qed.

(** X12.  On every failure schedule RemoveRole either fails and
    leaves the tables as they were, or the remover resolved to
    super_admin, the target is another, existing user who had a role
    row, exactly the target's role rows are gone and the target
    resolves to the default role "user"; when no statement fails these
    conditions are enough for it to succeed. *)
Theorem RemoveRole_resets_to_default userID removedBy w :
  let out := RemoveRole userID removedBy w in
  (is_ok (fst out) = false -> tabs (snd out) = tabs w) /\
  (is_ok (fst out) = true ->
   role_of (tabs w) removedBy = ROLE_SUPER_ADMIN /\
   userID <> removedBy /\
   find (fun u => User.ID u =? userID) (users (tabs w)) <> None /\
   find (fun ur => UserRole.UserID ur =? userID) (user_roles (tabs w)) <> None /\
   user_roles (tabs (snd out)) =
     filter (fun ur => negb (UserRole.UserID ur =? userID)) (user_roles (tabs w)) /\
   role_of (tabs (snd out)) userID = ROLE_USER) /\
  (quiet w ->
   role_of (tabs w) removedBy = ROLE_SUPER_ADMIN ->
   userID <> removedBy ->
   find (fun u => User.ID u =? userID) (users (tabs w)) <> None ->
   find (fun ur => UserRole.UserID ur =? userID) (user_roles (tabs w)) <> None ->
   fst out = Ok tt).
Proof.
  intros out. pose proof (RemoveRole_any userID removedBy w) as H. fold out in H.
  split; [|split].
  - destruct (fst out); [discriminate|auto].
  - destruct (fst out) as [[]|e]; [|discriminate]. intros _.
    destruct H as [Ha [Hne [Hu [Hur Ht]]]]. rewrite Ht. simpl.
    repeat split; try assumption.
    unfold role_of. simpl. now rewrite find_without_user_none.
  - intros Hq Ha Hne Hu Hur. subst out.
    destruct (find _ (users (tabs w))) as [user|] eqn:Eu; [|congruence].
    destruct (find _ (user_roles (tabs w))) as [ur|] eqn:Eur; [|congruence].
    now rewrite (RemoveRole_quiet userID removedBy user ur w Hq Ha Hne Eu Eur).
Qed.

(** X13.  On every failure schedule, whether they succeed or fail,
    AssignRole and RemoveRole leave the role every user other than the
    target resolves to as it was. *)
Theorem role_changes_touch_only_the_target userID roleName actor u w :
  u <> userID ->
  role_of (tabs (snd (AssignRole userID roleName actor w))) u = role_of (tabs w) u /\
  role_of (tabs (snd (RemoveRole userID actor w))) u = role_of (tabs w) u.
Proof.
  intros Hne. split.
  - pose proof (AssignRole_any userID roleName actor w) as H.
    destruct (fst (AssignRole userID roleName actor w)) as [[]|e].
    + destruct H as [role [id [_ [_ [_ ->]]]]].
      unfold role_of, assigned. simpl.
      rewrite find_app_other by (simpl; apply Z.eqb_neq; congruence).
      now rewrite find_without_other.
    + now rewrite H.
  - pose proof (RemoveRole_any userID actor w) as H.
    destruct (fst (RemoveRole userID actor w)) as [[]|e].
    + destruct H as [_ [_ [_ [_ ->]]]]. unfold role_of. simpl.
      now rewrite find_without_other.
    + now rewrite H.
Qed.

Lemma role_of_assigned_other userID role id u t :
  u <> userID -> role_of (assigned userID role id t) u = role_of t u.
Proof.
  intros Hne. unfold role_of, assigned. simpl.
  rewrite find_app_other by (simpl; apply Z.eqb_neq; congruence).
  now rewrite find_without_other.
Qed.

Lemma AssignRole_refused userID roleName actor w :
  role_of (tabs w) actor <> ROLE_SUPER_ADMIN ->
  is_ok (fst (AssignRole userID roleName actor w)) = false.
Proof.
  intros Hna. pose proof (AssignRole_any userID roleName actor w) as H.
  destruct (fst (AssignRole userID roleName actor w)) as [[]|e]; [|reflexivity].
  destruct H as [role [id [Ha _]]]. contradiction.
Qed.

(** X14.  When no statement fails, a super admin who assigns an
    existing user first one role and then another succeeds the second
    time too, and the user is left with a single role row, that of the
    second role, and resolves to it. *)
Theorem AssignRole_twice_keeps_the_last userID name1 name2 role1 role2 actor w :
  quiet w ->
  NoDup (map Role.ID (roles (tabs w))) ->
  actor <> userID ->
  role_of (tabs w) actor = ROLE_SUPER_ADMIN ->
  find (fun r => String.eqb (Role.Name r) name1) (roles (tabs w)) = Some role1 ->
  find (fun r => String.eqb (Role.Name r) name2) (roles (tabs w)) = Some role2 ->
  find (fun u => User.ID u =? userID) (users (tabs w)) <> None ->
  let w1 := snd (AssignRole userID name1 actor w) in
  let out := AssignRole userID name2 actor w1 in
  fst out = Ok tt /\
  filter (fun ur => UserRole.UserID ur =? userID) (user_roles (tabs (snd out))) =
    [UserRole.mk (seq_user_roles w + 2) userID (Role.ID role2)] /\
  role_of (tabs (snd out)) userID = name2.
Proof.
  intros Hq Hnd Hne Ha Hr1 Hr2 Hu w1 out.
  destruct (find (fun u => User.ID u =? userID) (users (tabs w))) as [user|] eqn:Eu;
    [|congruence].
  pose proof (AssignRole_quiet userID name1 actor role1 user w Hq Ha Hr1 Eu) as H1.
  assert (Hw1 : w1 = set_tabs (set_seq_user_roles w (seq_user_roles w + 1))
                       (assigned userID role1 (seq_user_roles w + 1) (tabs w)))
    by (subst w1; now rewrite H1).
  assert (Hq1 : quiet w1) by (rewrite Hw1; exact Hq).
  assert (Ha1 : role_of (tabs w1) actor = ROLE_SUPER_ADMIN).
  { rewrite Hw1. simpl. now rewrite role_of_assigned_other. }
  assert (Hr2' : find (fun r => String.eqb (Role.Name r) name2) (roles (tabs w1)) =
                 Some role2) by (rewrite Hw1; exact Hr2).
  assert (Eu' : find (fun u => User.ID u =? userID) (users (tabs w1)) = Some user)
    by (rewrite Hw1; exact Eu).
  subst out.
  rewrite (AssignRole_quiet userID name2 actor role2 user w1 Hq1 Ha1 Hr2' Eu').
  simpl. repeat split.
  - rewrite filter_app, without_user_none. simpl. rewrite Z.eqb_refl.
    rewrite Hw1. simpl.
    now replace (seq_user_roles w + 1 + 1) with (seq_user_roles w + 2) by lia.
  - apply (role_of_assigned userID name2 role2 _ (tabs w1)).
    + rewrite Hw1. exact Hnd.
    + exact Hr2'.
Qed.

(** X15.  When no statement fails, a super admin may assign itself
    a role other than super_admin: the call succeeds, the actor
    resolves to the new role, and from the resulting tables every
    AssignRole by that actor fails.  (RemoveRole refuses the actor's
    own row; AssignRole has no such check.) *)
Theorem AssignRole_allows_self_demotion actor roleName role w :
  quiet w ->
  NoDup (map Role.ID (roles (tabs w))) ->
  role_of (tabs w) actor = ROLE_SUPER_ADMIN ->
  roleName <> ROLE_SUPER_ADMIN ->
  find (fun r => String.eqb (Role.Name r) roleName) (roles (tabs w)) = Some role ->
  find (fun u => User.ID u =? actor) (users (tabs w)) <> None ->
  let out := AssignRole actor roleName actor w in
  fst out = Ok tt /\
  role_of (tabs (snd out)) actor = roleName /\
  (forall userID name w2,
   tabs w2 = tabs (snd out) ->
   is_ok (fst (AssignRole userID name actor w2)) = false).
Proof.
  intros Hq Hnd Ha Hname Hr Hu out.
  destruct (find (fun u => User.ID u =? actor) (users (tabs w))) as [user|] eqn:Eu;
    [|congruence].
  subst out.
  rewrite (AssignRole_quiet actor roleName actor role user w Hq Ha Hr Eu). simpl.
  pose proof (role_of_assigned actor roleName role (seq_user_roles w + 1)
                (tabs w) Hnd Hr) as Hrole.
  repeat split; try assumption.
  intros userID name w2 Ht2. apply AssignRole_refused.
  rewrite Ht2, Hrole. exact Hname.
Qed.

(** X16.  HasRole writes nothing and answers true only when the
    user resolves to the role asked for; when no statement fails it
    answers exactly that, and a failed lookup answers false.
    IsSuperAdmin says yes only of a user with a role row, and no user
    is both a super admin and a seller on the same tables. *)
Theorem HasRole_fails_closed userID roleName w :
  tabs (snd (HasRole userID roleName w)) = tabs w /\
  (fst (HasRole userID roleName w) = true -> role_of (tabs w) userID = roleName) /\
  (quiet w ->
   fst (HasRole userID roleName w) = String.eqb (role_of (tabs w) userID) roleName) /\
  (fst (IsSuperAdmin userID w) = true ->
   find (fun ur => UserRole.UserID ur =? userID) (user_roles (tabs w)) <> None) /\
  (forall w2, tabs w2 = tabs w ->
   fst (IsSuperAdmin userID w) && fst (IsSeller userID w2) = false).
Proof.
  assert (Hgen : forall name w,
            tabs (snd (HasRole userID name w)) = tabs w /\
            (fst (HasRole userID name w) = true -> role_of (tabs w) userID = name)).
  { intros name w0. unfold HasRole, bind.
    destruct (GetUserRole_any userID w0) as [Ht Hr].
    destruct (GetUserRole userID w0) as [[r|e] w1]; simpl in *.
    - split; [exact Ht|]. intros He. apply String.eqb_eq in He.
      now rewrite <- (Hr r eq_refl).
    - split; [exact Ht|discriminate]. }
  destruct (Hgen roleName w) as [H1 H2].
  split; [exact H1|]. split; [exact H2|]. split; [|split].
  - intros Hq. unfold HasRole. run_with GetUserRole_quiet. reflexivity.
  - intros Hsa. apply (Hgen ROLE_SUPER_ADMIN) in Hsa.
    unfold role_of in Hsa.
    destruct (find _ (user_roles (tabs w))); [discriminate|discriminate].
  - intros w2 Ht2. unfold IsSuperAdmin, IsSeller.
    destruct (fst (HasRole userID ROLE_SUPER_ADMIN w)) eqn:Ha; [|reflexivity].
    destruct (fst (HasRole userID ROLE_SELLER w2)) eqn:Hs; [|reflexivity].
    apply (Hgen ROLE_SUPER_ADMIN) in Ha. apply (Hgen ROLE_SELLER) in Hs.
    rewrite Ht2, Ha in Hs. discriminate.
Qed.

(** ** The product service *)

Lemma Update_products_any id f w :
  (fst (Update_products id f w) = Ok tt /\
   tabs (snd (Update_products id f w)) =
   set_products (tabs w)
     (map (fun p => if Product.ID p =? id then f p else p) (products (tabs w)))) \/
  (fst (Update_products id f w) = Err ErrDriver /\
   tabs (snd (Update_products id f w)) = tabs w).
Proof.
  unfold Update_products, stmt. destruct w as [t so si su fl now]; simpl.
  next_fault fl; auto.
Qed.

Lemma First_product_any id w :
  tabs (snd (First_product id w)) = tabs w /\
  (forall p, fst (First_product id w) = Ok p -> product_of (tabs w) id = Some p).
Proof.
  unfold First_product.
  destruct (stmt_reading_any
              (fun t => first_row (fun p => Product.ID p =? id) (products t)) w)
    as [Ht [He | He]]; split; try exact Ht; intros p Hp; rewrite He in Hp;
    try discriminate.
  unfold first_row, product_of in *.
  destruct (find _ (products (tabs w))); congruence.
Qed.

Lemma UpdateStock_any productID quantity w :
  let out := UpdateStock productID quantity w in
  match fst out with
  | Ok _ =>
    exists p, product_of (tabs w) productID = Some p /\
      0 <= int_add (Product.Stock p) quantity /\
      tabs (snd out) =
      set_products (tabs w)
        (map (fun q => if Product.ID q =? productID
                       then Product.set_Stock q (int_add (Product.Stock p) quantity)
                       else q) (products (tabs w)))
  | Err _ => tabs (snd out) = tabs w
  end.
Proof.
  unfold UpdateStock, bind.
  destruct (First_product_any productID w) as [Ht Hp].
  destruct (First_product productID w) as [[p|e] w1]; simpl in *; [|exact Ht].
  specialize (Hp p eq_refl).
  destruct (int_add (Product.Stock p) quantity <? 0) eqn:Hneg; simpl; [exact Ht|].
  apply Z.ltb_ge in Hneg. unfold Update_stock.
  assert (Hid : Product.ID p = productID).
  { unfold product_of in Hp. apply find_some in Hp. now apply Z.eqb_eq. }
  rewrite Hid.
  destruct (Update_products_any productID
              (fun q => Product.set_Stock q (int_add (Product.Stock p) quantity)) w1)
    as [[He Hw] | [He Hw]];
    destruct (Update_products _ _ w1) as [r w2]; simpl in *; subst r; simpl.
  - exists p. rewrite Hw, Ht. auto.
  - congruence.
Qed.

(** X17.  If no product has a negative stock, then after
    UpdateStock, on every failure schedule and for every quantity, none
    has; the products are the same ones, and a failure leaves all
    tables as they were. *)
Theorem UpdateStock_keeps_stock_non_negative productID quantity w :
  Forall (fun p => 0 <= Product.Stock p) (products (tabs w)) ->
  Forall (fun p => 0 <= Product.Stock p)
         (products (tabs (snd (UpdateStock productID quantity w)))) /\
  map Product.ID (products (tabs (snd (UpdateStock productID quantity w)))) =
  map Product.ID (products (tabs w)) /\
  (is_ok (fst (UpdateStock productID quantity w)) = false ->
   tabs (snd (UpdateStock productID quantity w)) = tabs w).
Proof.
  intros Hall. pose proof (UpdateStock_any productID quantity w) as H.
  cbv zeta in H.
  destruct (UpdateStock productID quantity w) as [[[]|e] w']; simpl in *.
  - destruct H as [p [Hp [Hpos Ht]]]. rewrite Ht. simpl.
    repeat split; try discriminate.
    + apply Forall_map. revert Hall. apply Forall_impl. intros q Hq.
      destruct (Product.ID q =? productID); [destruct q; exact Hpos | exact Hq].
    + rewrite map_map. apply map_ext. intros q.
      destruct (Product.ID q =? productID); [now destruct q | reflexivity].
  - rewrite H. auto.
Qed.

(** X18.  When no statement fails, for a product with a
    non-negative stock and a quantity in the range of int, UpdateStock sets the
    stock of that product alone to stock + quantity when the sum is
    between 0 and 2^63 - 1, and otherwise fails with "insufficient
    stock" and writes nothing: a sum past the largest int wraps to a
    negative number and is refused with the same message. *)
Theorem UpdateStock_adds_or_refuses productID quantity p w :
  quiet w ->
  product_of (tabs w) productID = Some p ->
  0 <= Product.Stock p < 2 ^ 63 ->
  - 2 ^ 63 <= quantity < 2 ^ 63 ->
  UpdateStock productID quantity w =
  if (0 <=? Product.Stock p + quantity) && (Product.Stock p + quantity <? 2 ^ 63)
  then (Ok tt,
        set_tabs w (set_products (tabs w)
          (map (fun q => if Product.ID q =? productID
                         then Product.set_Stock q (Product.Stock p + quantity)
                         else q) (products (tabs w)))))
  else (Err "insufficient stock", w).
Proof.
  intros Hq Hp Hs Hqty.
  destruct ((0 <=? Product.Stock p + quantity) &&
            (Product.Stock p + quantity <? 2 ^ 63)) eqn:Hc.
  - apply andb_prop in Hc. destruct Hc as [H0 H1].
    apply Z.leb_le in H0. apply Z.ltb_lt in H1.
    assert (Hadd : int_add (Product.Stock p) quantity = Product.Stock p + quantity).
    { unfold int_add. rewrite Z.mod_small; lia. }
    unfold UpdateStock, First_product.
    run_with (@stmt_reading_quiet Product.t). unfold first_row.
    unfold product_of in Hp. rewrite Hp. rewrite Hadd.
    assert (Hn : (Product.Stock p + quantity <? 0) = false) by (apply Z.ltb_ge; lia).
    rewrite Hn. unfold Update_stock.
    assert (Hid : Product.ID p = productID).
    { apply find_some in Hp. now apply Z.eqb_eq. }
    rewrite Hid.
    erewrite bind_run by (apply Update_products_quiet; quiet_tac).
    reflexivity.
  - apply UpdateStock_refuses_negative with (p := p); try assumption.
    apply andb_false_iff in Hc. unfold int_add.
    destruct Hc as [Hc | Hc].
    + apply Z.leb_gt in Hc.
      rewrite Z.mod_small by lia. lia.
    + apply Z.ltb_ge in Hc.
      replace (Product.Stock p + quantity + 2 ^ 63)
        with (Product.Stock p + quantity - 2 ^ 63 + 1 * 2 ^ 64) by lia.
      rewrite Z.mod_add by lia. rewrite Z.mod_small by lia. lia.
Qed.

Lemma Count_order_items_any productID w :
  tabs (snd (Count_order_items productID w)) = tabs w /\
  (forall n, fst (Count_order_items productID w) = Ok n ->
   n = Z.of_nat (List.length
         (filter (fun i => OrderItem.ProductID i =? productID)
                 (order_items (tabs w))))).
Proof.
  unfold Count_order_items.
  destruct (stmt_reading_any
     (fun t => Ok (Z.of_nat (List.length
        (filter (fun i => OrderItem.ProductID i =? productID) (order_items t))))) w)
    as [Ht [He | He]]; split; try exact Ht; intros n Hn; rewrite He in Hn;
    congruence.
Qed.

Lemma Delete_product_any product w :
  (fst (Delete_product product w) = Ok tt /\
   tabs (snd (Delete_product product w)) =
   set_products (tabs w)
     (filter (fun p => negb (Product.ID p =? Product.ID product))
             (products (tabs w)))) \/
  (fst (Delete_product product w) = Err ErrDriver /\
   tabs (snd (Delete_product product w)) = tabs w).
Proof.
  unfold Delete_product, stmt. destruct w as [t so si su fl now]; simpl.
  next_fault fl; auto.
Qed.

Lemma DeleteProduct_any productID w :
  let out := DeleteProduct productID w in
  match fst out with
  | Ok _ =>
    product_of (tabs w) productID <> None /\
    filter (fun i => OrderItem.ProductID i =? productID) (order_items (tabs w)) = [] /\
    tabs (snd out) =
    set_products (tabs w)
      (filter (fun p => negb (Product.ID p =? productID)) (products (tabs w)))
  | Err _ => tabs (snd out) = tabs w
  end.
Proof.
  unfold DeleteProduct, bind.
  destruct (First_product_any productID w) as [Ht Hp].
  destruct (First_product productID w) as [[p|e] w1]; simpl in *; [|exact Ht].
  specialize (Hp p eq_refl).
  destruct (Count_order_items_any productID w1) as [Ht1 Hn].
  destruct (Count_order_items productID w1) as [[n|e] w2]; simpl in *;
    [|congruence].
  specialize (Hn n eq_refl).
  destruct (0 <? n) eqn:Hpos; simpl; [congruence|].
  apply Z.ltb_ge in Hpos.
  assert (Hid : Product.ID p = productID).
  { unfold product_of in Hp. apply find_some in Hp. now apply Z.eqb_eq. }
  destruct (Delete_product_any p w2) as [[He Hw] | [He Hw]];
    destruct (Delete_product p w2) as [r w3]; simpl in *; subst r; simpl.
  - repeat split.
    + congruence.
    + rewrite Ht in Hn.
      destruct (filter _ (order_items (tabs w))); [reflexivity|].
      simpl in Hn. lia.
    + rewrite Hw, Ht1, Ht, Hid. reflexivity.
  - congruence.
Qed.

Lemma product_of_In t id :
  product_of t id <> None <-> In id (map Product.ID (products t)).
Proof.
  unfold product_of. split.
  - destruct (find _ (products t)) as [p|] eqn:Ef; [|congruence]. intros _.
    apply find_some in Ef. destruct Ef as [Hin Hid]. apply Z.eqb_eq in Hid.
    subst id. now apply in_map.
  - intros Hin Hnone. apply in_map_iff in Hin. destruct Hin as [p [Hid Hin]].
    apply (find_none _ _ Hnone) in Hin. apply Z.eqb_neq in Hin. congruence.
Qed.

Lemma find_filter_other {A} (p q : A -> bool) l :
  (forall a, p a = true -> q a = true) ->
  find p (filter q l) = find p l.
Proof.
  intros Hpq. induction l as [|a l IH]; simpl; [reflexivity|].
  destruct (q a) eqn:Hq; simpl.
  - now rewrite IH.
  - destruct (p a) eqn:Hp; [|exact IH].
    apply Hpq in Hp. congruence.
Qed.

(** X19.  On every failure schedule, a DeleteProduct that succeeds
    removed the product with that id, which existed, and changed the
    lookup of no other product; one that fails changed nothing; line
    items that all named live products still do.  When no statement
    fails, a product named by a line item is refused with "cannot
    delete product with existing orders". *)
Theorem DeleteProduct_spares_ordered_products productID w :
  let out := DeleteProduct productID w in
  (fst out = Ok tt ->
   product_of (tabs w) productID <> None /\
   product_of (tabs (snd out)) productID = None /\
   (forall id, id <> productID ->
    product_of (tabs (snd out)) id = product_of (tabs w) id)) /\
  (is_ok (fst out) = false -> tabs (snd out) = tabs w) /\
  (items_reference_products (tabs w) ->
   items_reference_products (tabs (snd out))) /\
  (quiet w ->
   product_of (tabs w) productID <> None ->
   existsb (fun i => OrderItem.ProductID i =? productID) (order_items (tabs w)) = true ->
   out = (Err "cannot delete product with existing orders", w)).
Proof.
  intros out. pose proof (DeleteProduct_any productID w) as H.
  cbv zeta in H. subst out.
  assert (Hgone : forall l,
            find (fun p => Product.ID p =? productID)
                 (filter (fun p => negb (Product.ID p =? productID)) l) = None).
  { induction l as [|a l IH]; simpl; [reflexivity|].
    destruct (Product.ID a =? productID) eqn:Ha; simpl; [exact IH|].
    now rewrite Ha. }
  assert (Hother : forall id, id <> productID ->
            product_of (set_products (tabs w)
              (filter (fun p => negb (Product.ID p =? productID))
                      (products (tabs w)))) id = product_of (tabs w) id).
  { intros id Hne. unfold product_of. simpl. apply find_filter_other.
    intros a Ha. apply Z.eqb_eq in Ha. apply negb_true_iff, Z.eqb_neq. congruence. }
  split; [|split; [|split]].
  - intros Hok.
    destruct (DeleteProduct productID w) as [[[]|e] w']; simpl in *;
      [|discriminate].
    destruct H as [Hsome [_ Ht]]. rewrite Ht.
    split; [exact Hsome|]. split; [|exact Hother].
    unfold product_of. simpl. apply Hgone.
  - destruct (DeleteProduct productID w) as [[[]|e] w']; simpl in *;
      [discriminate | intros _; exact H].
  - intros Hall.
    destruct (DeleteProduct productID w) as [[[]|e] w']; simpl in *;
      [|unfold items_reference_products; now rewrite H].
    destruct H as [_ [Hno Ht]]. unfold items_reference_products in *.
    rewrite Ht. simpl.
    assert (Hin : forall i, In i (order_items (tabs w)) ->
              OrderItem.ProductID i <> productID).
    { intros i Hi Heq.
      assert (Hf : In i (filter (fun i => OrderItem.ProductID i =? productID)
                                (order_items (tabs w)))).
      { apply filter_In. split; [exact Hi | now apply Z.eqb_eq]. }
      rewrite Hno in Hf. exact Hf. }
    rewrite Forall_forall in *. intros i Hi.
    specialize (Hall i Hi). apply in_map_iff in Hall.
    destruct Hall as [p [Hid Hp]]. apply in_map_iff. exists p.
    split; [exact Hid|]. apply filter_In. split; [exact Hp|].
    apply negb_true_iff, Z.eqb_neq. rewrite Hid. now apply Hin.
  - intros Hq Hp Hex. unfold DeleteProduct, First_product.
    run_with (@stmt_reading_quiet Product.t). unfold first_row.
    unfold product_of in Hp.
    destruct (find (fun p => Product.ID p =? productID) (products (tabs w)))
      as [p|]; [|congruence].
    unfold Count_order_items.
    run_with (@stmt_reading_quiet Z).
    apply existsb_exists in Hex. destruct Hex as [i [Hi Hid]].
    assert (Hf : In i (filter (fun i => OrderItem.ProductID i =? productID)
                              (order_items (tabs w)))).
    { apply filter_In. now split. }
    destruct (filter _ (order_items (tabs w))) as [|a l]; [destruct Hf|].
    assert (Hc : (0 <? Z.of_nat (List.length (a :: l))) = true).
    { apply Z.ltb_lt. simpl List.length. lia. }
    now rewrite Hc.
Qed.

(** ** Path parameters and headers *)

Lemma uint_value_grows d : forall acc, 0 <= acc -> acc <= uint_value d acc.
Proof.
  induction d; intros acc Hacc; cbn [uint_value]; try lia;
    match goal with
    | |- _ <= uint_value _ ?a => specialize (IHd a); lia
    end.
Qed.

Ltac read_digit :=
  cbn [uint_value NilEmpty.string_of_uint parse_digits] in *;
  try match goal with
      | |- context [digit_of ?c] =>
        let v := eval vm_compute in (digit_of c) in
        change (digit_of c) with v; cbv beta iota zeta
      end.

Lemma parse_digits_uint d : forall acc,
  0 <= acc ->
  uint_value d acc <= 4294967295 ->
  parse_digits (NilEmpty.string_of_uint d) acc = Ok (uint_value d acc).
Proof.
  induction d; intros acc Hacc Hmax; read_digit; try reflexivity;
    match goal with
    | |- context [4294967295 <? ?a] =>
      pose proof (uint_value_grows d a ltac:(lia));
        replace (4294967295 <? a) with false by (symmetry; apply Z.ltb_ge; lia);
        apply IHd; [lia | assumption]
    end.
Qed.

Lemma parse_digits_uint_range d : forall acc,
  0 <= acc <= 4294967295 ->
  4294967295 < uint_value d acc ->
  parse_digits (NilEmpty.string_of_uint d) acc = Err ErrRange.
Proof.
  induction d; intros acc Hacc Hmax; read_digit; try lia;
    match goal with
    | |- context [4294967295 <? ?a] =>
      destruct (4294967295 <? a) eqn:Hc; [reflexivity|];
        apply Z.ltb_ge in Hc; apply IHd; [lia | assumption]
    end.
Qed.

Lemma uint_value_of_lu d : forall acc,
  0 <= acc ->
  uint_value d acc =
  Z.of_N (DecimalPos.Unsigned.of_lu (Decimal.rev d)) +
  acc * 10 ^ Z.of_N (DecimalPos.Unsigned.usize d).
Proof.
  induction d; intros acc Hacc;
    try (unfold Decimal.rev; cbn [uint_value Decimal.revapp DecimalPos.Unsigned.usize];
         rewrite DecimalPos.Unsigned.of_lu_revapp;
         rewrite IHd by lia;
         cbn [DecimalPos.Unsigned.of_lu DecimalPos.Unsigned.hd DecimalPos.Unsigned.tl];
         rewrite N2Z.inj_succ, Z.pow_succ_r by lia;
         rewrite N2Z.inj_add, N2Z.inj_mul, N2Z.inj_pow;
         unfold Decimal.rev; simpl Z.of_N; lia).
  simpl. lia.
Qed.

Lemma uint_value_to_uint p : uint_value (Pos.to_uint p) 0 = Z.pos p.
Proof.
  rewrite uint_value_of_lu by lia.
  rewrite <- DecimalPos.Unsigned.of_uint_alt, DecimalPos.Unsigned.of_to. simpl. lia.
Qed.

Lemma string_of_uint_to_uint p :
  NilZero.string_of_uint (Pos.to_uint p) = NilEmpty.string_of_uint (Pos.to_uint p) /\
  NilEmpty.string_of_uint (Pos.to_uint p) <> "".
Proof.
  pose proof (DecimalPos.Unsigned.to_uint_nonnil p) as Hn.
  destruct (Pos.to_uint p); simpl; split; try reflexivity; try discriminate;
    congruence.
Qed.

(** The decimal numeral of [n] is read back as [n] when [n] fits 32 bits
    and is refused otherwise. *)
Lemma ParseUint32_reads_decimal n :
  ParseUint32 (fmt_d n) =
  if n <? 0 then Err (NumError.mk "ParseUint" (fmt_d n) ErrSyntax)
  else if n <=? 4294967295 then Ok n
  else Err (NumError.mk "ParseUint" (fmt_d n) ErrRange).
Proof.
  destruct n as [|p|p]; [reflexivity| |].
  - unfold fmt_d. cbn [Z.to_int NilZero.string_of_int].
    destruct (string_of_uint_to_uint p) as [-> Hne].
    assert (Hp : ParseUint32 (NilEmpty.string_of_uint (Pos.to_uint p)) =
                 match parse_digits (NilEmpty.string_of_uint (Pos.to_uint p)) 0 with
                 | Ok n => Ok n
                 | Err e =>
                   Err (NumError.mk "ParseUint"
                          (NilEmpty.string_of_uint (Pos.to_uint p)) e)
                 end).
    { unfold ParseUint32. destruct (NilEmpty.string_of_uint (Pos.to_uint p));
        [congruence | reflexivity]. }
    rewrite Hp. replace (Z.pos p <? 0) with false by reflexivity.
    destruct (Z.pos p <=? 4294967295) eqn:Hc.
    + apply Z.leb_le in Hc.
      rewrite parse_digits_uint; rewrite ?uint_value_to_uint; try lia. reflexivity.
    + apply Z.leb_gt in Hc.
      rewrite parse_digits_uint_range; rewrite ?uint_value_to_uint; try lia.
      reflexivity.
  - unfold fmt_d. cbn [Z.to_int NilZero.string_of_int].
    destruct (string_of_uint_to_uint p) as [_ Hne].
    unfold NilZero.string_of_uint.
    destruct (Pos.to_uint p); reflexivity.
Qed.

Lemma parse_digits_range s : forall acc n,
  0 <= acc <= 4294967295 ->
  parse_digits s acc = Ok n ->
  acc <= n <= 4294967295 /\ all_digits s = true.
Proof.
  induction s as [|c s IH]; intros acc n Hacc Hp;
    cbn [parse_digits all_digits] in *.
  - injection Hp as <-. split; [lia | reflexivity].
  - unfold is_digit. destruct (digit_of c) as [d|] eqn:Hd; [|discriminate].
    assert (Hd9 : 0 <= d <= 9).
    { unfold digit_of in Hd.
      destruct ((48 <=? Z.of_nat (nat_of_ascii c)) &&
                (Z.of_nat (nat_of_ascii c) <=? 57)) eqn:Hr; [|discriminate].
      apply andb_prop in Hr. destruct Hr as [H1 H2].
      apply Z.leb_le in H1, H2. injection Hd as <-. lia. }
    cbv zeta in Hp.
    destruct (4294967295 <? 10 * acc + d) eqn:Hc; [discriminate|].
    apply Z.ltb_ge in Hc.
    assert (Hr : 0 <= 10 * acc + d <= 4294967295) by lia.
    destruct (IH _ _ Hr Hp) as [Hn Hall]. split; [lia | exact Hall].
Qed.

(** X20.  An id the handlers accept from the path is a non-empty
    string of decimal digits whose value is at most 2^32 - 1, so the
    conversion to uint that follows loses nothing. *)
Theorem ParseUint32_accepts_digits_only s n :
  ParseUint32 s = Ok n ->
  0 <= n <= 4294967295 /\ s <> "" /\ all_digits s = true.
Proof.
  intros Hp. destruct s as [|c s]; [discriminate|].
  unfold ParseUint32 in Hp.
  destruct (parse_digits (String c s) 0) as [m|e] eqn:Hd; [|discriminate].
  injection Hp as ->.
  assert (Hr : 0 <= 0 <= 4294967295) by lia.
  destruct (parse_digits_range _ _ _ Hr Hd) as [Hn Hall].
  repeat split; try lia; [discriminate | exact Hall].
Qed.

Lemma string_drop_app s t : string_drop (String.length s) (s ++ t) = t.
Proof. induction s as [|c s IH]; simpl; [reflexivity | exact IH]. Qed.

Lemma prefix_app s t : String.prefix s (s ++ t) = true.
Proof.
  induction s as [|c s IH]; simpl; [now destruct t|].
  destruct (ascii_dec c c); [exact IH | congruence].
Qed.

Lemma prefix_drop s : forall h,
  String.prefix s h = true -> h = (s ++ string_drop (String.length s) h)%string.
Proof.
  induction s as [|c s IH]; intros h Hp; [reflexivity|].
  destruct h as [|c' h]; simpl in *; [discriminate|].
  destruct (ascii_dec c c'); [|discriminate]. subst c'. f_equal. now apply IH.
Qed.

(** X21.  ExtractTokenFromHeader returns what follows the prefix
    "Bearer " of a header that starts with it, and a non-empty result
    is always such a suffix: any other header gives the empty
    token. *)
Theorem ExtractTokenFromHeader_bearer :
  (forall token, ExtractTokenFromHeader ("Bearer " ++ token) = token) /\
  (forall authHeader,
   ExtractTokenFromHeader authHeader <> "" ->
   authHeader = ("Bearer " ++ ExtractTokenFromHeader authHeader)%string).
Proof.
  split.
  - intros token. unfold ExtractTokenFromHeader.
    rewrite prefix_app. apply string_drop_app.
  - intros h Hne. unfold ExtractTokenFromHeader in *.
    destruct (String.prefix "Bearer " h) eqn:Hp; [|congruence].
    now apply prefix_drop.
Qed.

(** ** The handlers that pass the caller on *)

Lemma PayOrder_any orderID userID w :
  let out := PayOrder orderID userID w in
  match fst out with
  | Ok resp =>
    exists o,
      first_row (fun o => (Order.ID o =? orderID) && (Order.UserID o =? userID))
                (orders (tabs w)) = Ok o /\
      Order.Status o = OrderStatusPending /\
      resp = OrderResponse_of (Order.set_Status o OrderStatusPaid) [] /\
      tabs (snd out) =
        set_orders (tabs w)
          (saved (Order.set_Status o OrderStatusPaid) (orders (tabs w)))
  | Err _ => tabs (snd out) = tabs w
  end.
Proof.
  rewrite PayOrder_shape.
  match goal with
  | |- context [simple_transition ?a ?b ?c ?d w] =>
    pose proof (simple_transition_any a b c d w) as H; cbv zeta in H |- *;
      destruct (simple_transition a b c d w) as [[resp|e] w1]; simpl in *;
      [|exact H]
  end.
  destruct H as [o [Ho [Hst [-> Ht]]]]. exists o.
  apply String.eqb_eq in Hst. auto.
Qed.

Lemma first_row_owner orderID userID l o :
  first_row (fun o => (Order.ID o =? orderID) && (Order.UserID o =? userID)) l = Ok o ->
  In o l /\ Order.ID o = orderID /\ Order.UserID o = userID.
Proof.
  unfold first_row. destruct (find _ l) as [o'|] eqn:Ef; [|discriminate].
  intros [= <-]. apply find_some in Ef. destruct Ef as [Hin Hsel].
  apply andb_true_iff in Hsel. destruct Hsel as [Hi Hu].
  apply Z.eqb_eq in Hi, Hu. auto.
Qed.

(** X22.  On every failure schedule, when the pay handler answers
    200 the caller was authenticated, the path id was read as a
    number, and the order with that id belonged to the caller, was
    pending, and is now paid; with any other answer the tables are as
    they were, and the answer is 401 exactly when the context carries
    no user. *)
Theorem OrderHandler_PayOrder_serves_the_owner Quote_beyond_ASCII c w :
  let out := OrderHandler_PayOrder Quote_beyond_ASCII c w in
  (code (fst out) = StatusOK ->
   exists userID orderID o,
     ctx_user_id c = Some userID /\
     ParseUint32 (ctx_param_id c) = Ok orderID /\
     In o (orders (tabs w)) /\
     Order.ID o = orderID /\ Order.UserID o = userID /\
     Order.Status o = OrderStatusPending /\
     orders (tabs (snd out)) =
       saved (Order.set_Status o OrderStatusPaid) (orders (tabs w))) /\
  (code (fst out) <> StatusOK ->
   tabs (snd out) = tabs w /\
   (code (fst out) = StatusUnauthorized <-> ctx_user_id c = None)).
Proof.
  intros out. subst out. unfold OrderHandler_PayOrder.
  destruct (ctx_user_id c) as [userID|]; simpl.
  2:{ split; [discriminate|]. intros _. split; [reflexivity|]. tauto. }
  destruct (ParseUint32 (ctx_param_id c)) as [orderID|e]; simpl.
  2:{ split; [discriminate|]. intros _. split; [reflexivity|].
      split; discriminate. }
  unfold bind. pose proof (PayOrder_any orderID userID w) as H. cbv zeta in H.
  destruct (PayOrder orderID userID w) as [[resp|e] w1]; simpl in *.
  - split; [|intros Hc; now contradiction Hc].
    intros _. destruct H as [o [Ho [Hst [_ Ht]]]].
    apply first_row_owner in Ho. destruct Ho as [Hin [Hi Hu]].
    exists userID, orderID, o. rewrite Ht. simpl. auto 10.
  - split; [discriminate|]. intros _. split; [exact H|]. split; discriminate.
Qed.

(** X23.  On every failure schedule the handler that shows one
    order writes nothing; a success body carries status 200 and an
    order with the id given in the path whose owner is the caller; the
    answer is 401 exactly when the context carries no user and 400
    exactly when a user is set and the path id is not a number. *)
Theorem OrderHandler_GetOrderByID_serves_the_owner Quote_beyond_ASCII c w :
  let out := OrderHandler_GetOrderByID Quote_beyond_ASCII c w in
  tabs (snd out) = tabs w /\
  (forall message data,
   payload (fst out) = SuccessResponse message data ->
   code (fst out) = StatusOK /\
   ctx_user_id c = Some (OrderResponse.UserID data) /\
   ParseUint32 (ctx_param_id c) = Ok (OrderResponse.ID data) /\
   exists o, In o (orders (tabs w)) /\
     Order.ID o = OrderResponse.ID data /\
     Order.UserID o = OrderResponse.UserID data) /\
  (code (fst out) = StatusUnauthorized <-> ctx_user_id c = None) /\
  (code (fst out) = StatusBadRequest <->
   ctx_user_id c <> None /\ is_ok (ParseUint32 (ctx_param_id c)) = false).
Proof.
  intros out. subst out. unfold OrderHandler_GetOrderByID.
  destruct (ctx_user_id c) as [userID|]; simpl.
  2:{ split; [reflexivity|]. split; [discriminate|].
      split; [tauto|]. split; [discriminate | intros [H _]; congruence]. }
  destruct (ParseUint32 (ctx_param_id c)) as [orderID|e]; simpl.
  2:{ split; [reflexivity|]. split; [discriminate|].
      split; [split; discriminate|]. split; [|reflexivity].
      intros _. split; [discriminate | reflexivity]. }
  unfold bind.
  destruct (GetOrderByID_any orderID userID w) as [Ht Hr].
  destruct (GetOrderByID orderID userID w) as [[resp|e] w1]; simpl in *.
  - split; [exact Ht|]. split.
    + intros message data [= _ <-].
      destruct (Hr resp eq_refl) as [o [Hin [Hi [Hu ->]]]].
      split; [reflexivity|]. simpl. rewrite Hi, Hu.
      split; [reflexivity|]. split; [reflexivity|]. exists o. auto.
    + split; [split; discriminate|].
      split; [discriminate | intros [_ H]; discriminate].
  - split; [exact Ht|]. split; [discriminate|].
    split; [split; discriminate|].
    split; [discriminate | intros [_ H]; discriminate].
Qed.

(** ** Line items keep their product and their order *)

Lemma saved_ids o l : map Order.ID (saved o l) = map Order.ID l.
Proof.
  unfold saved. rewrite map_map. apply map_ext. intros r.
  destruct (Order.ID r =? Order.ID o) eqn:E; [|reflexivity].
  apply Z.eqb_eq in E. congruence.
Qed.

Lemma shipped_ids items ps :
  map Product.ID (map (shipped items) ps) = map Product.ID ps.
Proof. rewrite map_map. now apply map_ext. Qed.

Lemma same_keys t t' :
  order_items t' = order_items t ->
  map Product.ID (products t') = map Product.ID (products t) ->
  map Order.ID (orders t') = map Order.ID (orders t) ->
  referential_integrity t -> referential_integrity t'.
Proof.
  unfold referential_integrity, items_reference_products, items_reference_orders.
  now intros -> -> ->.
Qed.

Lemma number_items_keys l : forall n,
  map OrderItem.ProductID (number_items n l) = map OrderItem.ProductID l /\
  map OrderItem.OrderID (number_items n l) = map OrderItem.OrderID l.
Proof.
  induction l as [|i l IH]; intros n; simpl; [auto|].
  destruct (IH (n + 1)) as [-> ->]. now destruct i.
Qed.

Lemma committed_keeps userID items number id n t :
  forallb (in_stock t) items = true ->
  referential_integrity t ->
  referential_integrity (committed userID items number id n t).
Proof.
  intros Hin [Hp Ho].
  unfold referential_integrity, items_reference_products, items_reference_orders,
    committed in *. simpl.
  set (new := number_items n
                (map (fun i => OrderItem.set_OrderID i id) (map (line_item t) items))).
  destruct (number_items_keys
              (map (fun i => OrderItem.set_OrderID i id) (map (line_item t) items)) n)
    as [Hkp Hko]. fold new in Hkp, Hko.
  split; apply Forall_app; split.
  - exact Hp.
  - apply Forall_forall. intros i Hi.
    apply (in_map OrderItem.ProductID) in Hi. rewrite Hkp, !map_map in Hi.
    simpl in Hi. apply in_map_iff in Hi. destruct Hi as [item [<- Hitem]].
    rewrite forallb_forall in Hin. specialize (Hin item Hitem).
    apply in_stock_iff in Hin. destruct Hin as [p [Hprod _]].
    apply product_of_In. congruence.
  - revert Ho. apply Forall_impl. intros i Hi. rewrite map_app.
    apply in_or_app. now left.
  - apply Forall_forall. intros i Hi.
    apply (in_map OrderItem.OrderID) in Hi. rewrite Hko, !map_map in Hi.
    simpl in Hi. apply in_map_iff in Hi. destruct Hi as [item [<- _]].
    rewrite map_app. apply in_or_app. right. simpl. now left.
Qed.

Lemma serve_keeps r w :
  referential_integrity (tabs w) -> referential_integrity (tabs (serve r w)).
Proof.
  intros Hri. destruct r as [userID [items] | tr orderID | orderID userID req
                            | productID quantity | productID
                            | userID roleName assignedBy | userID removedBy];
    simpl.
  - destruct (CreateOrder_any userID items w) as [id [n [number H]]].
    destruct (CreateOrder userID (OrderCreateRequest.mk items) w)
      as [[resp|e] w1]; simpl in *.
    + destruct H as [_ [Hin [_ [_ [_ [_ ->]]]]]]. now apply committed_keeps.
    + destruct H as [-> | [_ [_ [Hin ->]]]]; [exact Hri|].
      now apply committed_keeps.
  - pose proof (run_tabs tr orderID w) as H.
    destruct (run tr orderID w) as [[resp|e] w1]; simpl in *;
      [|now rewrite H].
    destruct H as [o [_ [_ ->]]].
    apply (same_keys (tabs w)); [| | |exact Hri]; destruct tr; simpl;
      rewrite ?saved_ids, ?shipped_ids; reflexivity.
  - pose proof (UpdateOrderStatus_any orderID userID req w) as H.
    destruct (UpdateOrderStatus orderID userID req w) as [[resp|e] w1];
      simpl in *; [|now rewrite H].
    destruct H as [_ [o [_ [_ [_ [_ ->]]]]]].
    apply (same_keys (tabs w)); [| | |exact Hri]; simpl;
      rewrite ?saved_ids; reflexivity.
  - pose proof (UpdateStock_any productID quantity w) as H. cbv zeta in H.
    destruct (UpdateStock productID quantity w) as [[[]|e] w1]; simpl in *;
      [|now rewrite H].
    destruct H as [p [_ [_ ->]]].
    apply (same_keys (tabs w)); [| | |exact Hri]; simpl; try reflexivity.
    rewrite map_map. apply map_ext. intros q.
    destruct (Product.ID q =? productID); [now destruct q | reflexivity].
  - pose proof (DeleteProduct_any productID w) as H. cbv zeta in H.
    destruct (DeleteProduct productID w) as [[[]|e] w1]; simpl in *;
      [|now rewrite H].
    destruct H as [_ [Hno ->]]. destruct Hri as [Hp Ho]. split; [|exact Ho].
    unfold items_reference_products in *. simpl.
    rewrite Forall_forall in *. intros i Hi.
    specialize (Hp i Hi). apply in_map_iff in Hp.
    destruct Hp as [p [Hid Hp]]. apply in_map_iff. exists p.
    split; [exact Hid|]. apply filter_In. split; [exact Hp|].
    apply negb_true_iff, Z.eqb_neq. rewrite Hid. intros Heq.
    assert (Hf : In i (filter (fun i => OrderItem.ProductID i =? productID)
                              (order_items (tabs w)))).
    { apply filter_In. split; [exact Hi | now apply Z.eqb_eq]. }
    rewrite Hno in Hf. exact Hf.
  - pose proof (AssignRole_any userID roleName assignedBy w) as H.
    destruct (AssignRole userID roleName assignedBy w) as [[[]|e] w1];
      simpl in *; [|now rewrite H].
    destruct H as [role [id [_ [_ [_ ->]]]]]. exact Hri.
  - pose proof (RemoveRole_any userID removedBy w) as H.
    destruct (RemoveRole userID removedBy w) as [[[]|e] w1];
      simpl in *; [|now rewrite H].
    destruct H as [_ [_ [_ [_ ->]]]]. exact Hri.
Qed.

(** X24.  Starting from tables in which every line item names a
    live product and a stored order, any sequence of calls to
    CreateOrder, the status operations, UpdateOrderStatus, UpdateStock,
    DeleteProduct, AssignRole and RemoveRole, with any arguments and
    on any failure schedule, ends in tables in which every line item
    still does. *)
Theorem services_keep_line_items_referenced rs : forall w,
  referential_integrity (tabs w) ->
  referential_integrity (tabs (fold_left (fun w r => serve r w) rs w)).
Proof.
  induction rs as [|r rs IH]; intros w Hri; simpl; [exact Hri|].
  apply IH. now apply serve_keeps.
Qed.

(** ** The path parameter *)

Lemma string_app_assoc (a b c : string) :
  ((a ++ b) ++ c = a ++ (b ++ c))%string.
Proof. induction a as [|x a IH]; simpl; [reflexivity | now rewrite IH]. Qed.

Ltac escape_digit :=
  cbn [NilEmpty.string_of_uint escape below_0x80];
  repeat match goal with
         | |- context [escaped ?c] =>
           let v := eval vm_compute in (escaped c) in
           change (escaped c) with v
         | |- context [Z.of_nat (nat_of_ascii ?c) <? 128] =>
           let v := eval vm_compute in (Z.of_nat (nat_of_ascii c) <? 128) in
           change (Z.of_nat (nat_of_ascii c) <? 128) with v
         end;
  cbn [append andb].

(** A numeral has nothing for [strconv.Quote] to escape. *)
Lemma escape_uint d :
  below_0x80 (NilEmpty.string_of_uint d) = true /\
  escape (NilEmpty.string_of_uint d) = NilEmpty.string_of_uint d.
Proof.
  induction d as [|d [IH1 IH2]|d [IH1 IH2]|d [IH1 IH2]|d [IH1 IH2]|d [IH1 IH2]
                  |d [IH1 IH2]|d [IH1 IH2]|d [IH1 IH2]|d [IH1 IH2]|d [IH1 IH2]];
    escape_digit; [split; reflexivity|..]; now rewrite IH1, IH2.
Qed.

Lemma escape_fmt_d n :
  below_0x80 (fmt_d n) = true /\ escape (fmt_d n) = fmt_d n.
Proof.
  assert (Hz : forall d, below_0x80 (NilZero.string_of_uint d) = true /\
                         escape (NilZero.string_of_uint d) = NilZero.string_of_uint d).
  { intros d. destruct (escape_uint d) as [H1 H2].
    destruct d; try (split; assumption). split; reflexivity. }
  unfold fmt_d. destruct (Z.to_int n) as [d|d]; cbn [NilZero.string_of_int].
  - apply Hz.
  - destruct (Hz d) as [H1 H2]. escape_digit. now rewrite H1, H2.
Qed.

Lemma NumError_Error_numeral Quote_beyond_ASCII n e :
  NumError_Error Quote_beyond_ASCII (NumError.mk "ParseUint" (fmt_d n) e) =
  parsing_error (fmt_d n) e.
Proof.
  unfold NumError_Error, Quote, parsing_error. cbn [NumError.Func NumError.Num NumError.Err].
  destruct (escape_fmt_d n) as [-> ->].
  cbn [append]. do 27 f_equal.
  now rewrite string_app_assoc.
Qed.

(** X25.  Given the decimal numeral of a number as the path id, the
    order handlers read that number when it lies between 0 and
    2^32 - 1, and otherwise GetOrderByID, PayOrder and CancelOrder all
    answer 400 "Invalid order ID" without sending a statement, with the
    message that strconv.ParseUint gives: the function's name, the
    numeral in double quotes, and the reason "invalid syntax" for a
    negative number and "value out of range" for one above
    2^32 - 1. *)
Theorem order_handlers_accept_uint32_ids Quote_beyond_ASCII caller n w :
  let c := mkContext (Some caller) (fmt_d n) in
  let refused (h : Context -> IO JSON) :=
    h c w =
    (mkJSON StatusBadRequest
       (ErrorResponse "Invalid order ID"
          (parsing_error (fmt_d n) (if n <? 0 then ErrSyntax else ErrRange))), w) in
  if (0 <=? n) && (n <=? 4294967295)
  then ParseUint32 (ctx_param_id c) = Ok n /\
       code (fst (OrderHandler_GetOrderByID Quote_beyond_ASCII c w)) <> StatusBadRequest
  else refused (OrderHandler_GetOrderByID Quote_beyond_ASCII) /\
       refused (OrderHandler_PayOrder Quote_beyond_ASCII) /\
       refused (OrderHandler_CancelOrder Quote_beyond_ASCII).
Proof.
  intros c refused. subst c refused. pose proof (ParseUint32_reads_decimal n) as Hp.
  unfold OrderHandler_GetOrderByID, OrderHandler_PayOrder, OrderHandler_CancelOrder.
  cbn [ctx_user_id ctx_param_id].
  destruct (n <? 0) eqn:Hneg.
  - replace (0 <=? n) with false by (symmetry; apply Z.leb_gt; now apply Z.ltb_lt).
    cbn [andb]. rewrite Hp, NumError_Error_numeral. auto.
  - replace (0 <=? n) with true by (symmetry; apply Z.leb_le; now apply Z.ltb_ge).
    cbn [andb]. destruct (n <=? 4294967295); rewrite Hp;
      [|rewrite NumError_Error_numeral; auto].
    split; [reflexivity|]. unfold bind.
    destruct (GetOrderByID n caller w) as [[resp|e] w1]; discriminate.
Qed.

(** The pay handler on the path id -1, whoever asks: 400, and in the
    message the id as strconv quotes it. *)
Example OrderHandler_PayOrder_minus_one :
  OrderHandler_PayOrder (fun s => s) (mkContext (Some 7) "-1") shop =
  (mkJSON StatusBadRequest
     (ErrorResponse "Invalid order ID"
        ("strconv.ParseUint: parsing "
         ++ String double_quote ("-1" ++ String double_quote ": invalid syntax"))),
   shop).
Proof. reflexivity. Qed.

(** ** The properties at work in the shop *)

Ltac distinct_keys :=
  vm_compute; repeat constructor; simpl; intuition discriminate.

Lemma UpdateOrderStatus_agrees_with_CancelOrder_witness :
  UpdateOrderStatus 1 7 (OrderUpdateRequest.mk OrderStatusCancelled) shop_pending =
  CancelOrder 1 shop_pending.
Proof.
  apply (UpdateOrderStatus_agrees_with_CancelOrder 1 7
           (first_order OrderStatusPending) shop_pending); reflexivity.
Defined.

Lemma GetUserOrders_own_orders_witness :
  let out := GetUserOrders (@rev Order.t) 7 shop_pending in
  tabs (snd out) = tabs shop_pending /\
  (quiet shop_pending -> is_ok (fst out) = true) /\
  (forall resps, fst out = Ok resps ->
   exists l,
     Permutation l (filter (fun o => Order.UserID o =? 7)
                           (orders (tabs shop_pending))) /\
     resps = map (fun o => OrderResponse_of o
                    (map OrderItemResponse_of
                         (items_of (Order.ID o) (tabs shop_pending)))) l /\
     Forall (fun r => OrderResponse.UserID r = 7) resps).
Proof.
  apply (GetUserOrders_own_orders (@rev Order.t) 7 shop_pending).
  intros l. apply Permutation_sym, Permutation_rev.
Defined.

Lemma transition_not_repeatable_witness :
  is_ok (fst (run (Pay 7) 1 shop_paid)) = false /\
  tabs (snd (run (Pay 7) 1 shop_paid)) = tabs shop_paid.
Proof.
  apply (transition_not_repeatable (Pay 7) 1 shop_pending shop_paid);
    reflexivity.
Defined.

Lemma transition_moves_one_status_witness :
  let t' := tabs (snd (run Cancel 1 shop_pending)) in
  Forall2 (row_step Cancel) (orders (tabs shop_pending)) (orders t') /\
  order_items t' = order_items (tabs shop_pending) /\
  users t' = users (tabs shop_pending) /\
  roles t' = roles (tabs shop_pending) /\
  user_roles t' = user_roles (tabs shop_pending) /\
  (Cancel <> Confirm -> products t' = products (tabs shop_pending)).
Proof.
  apply (transition_moves_one_status Cancel 1 shop_pending). distinct_keys.
Defined.

Lemma transitions_keep_terminal_orders_and_totals_witness :
  let l' := orders (tabs (snd (run Confirm 1 shop_paid))) in
  map order_core l' = map order_core (orders (tabs shop_paid)) /\
  NoDup (map Order.ID l') /\
  (forall o, In o (orders (tabs shop_paid)) ->
   terminal (Order.Status o) = true -> In o l').
Proof.
  apply (transitions_keep_terminal_orders_and_totals Confirm 1 shop_paid).
  distinct_keys.
Defined.

Lemma CreateOrder_success_is_committed_witness :
  let out := CreateOrder 7 (OrderCreateRequest.mk two_lines) shop in
  exists resp,
    fst out = Ok resp /\
    two_lines <> [] /\
    Forall (fun item =>
      exists p, product_of (tabs shop) (OrderItemRequest.ProductID item) = Some p /\
                OrderItemRequest.Quantity item <= Product.Stock p) two_lines /\
    OrderResponse.UserID resp = 7 /\
    OrderResponse.Status resp = OrderStatusPending /\
    OrderResponse.TotalAmount resp =
      fold_left (add_line (tabs shop)) two_lines 0%float /\
    exists n number,
      tabs (snd out) =
      committed 7 two_lines number (OrderResponse.ID resp) n (tabs shop).
Proof.
  eexists. split; [reflexivity|].
  apply (CreateOrder_success_is_committed 7 two_lines shop). reflexivity.
Defined.

Lemma CreateOrder_error_rolls_back_unless_reload_witness :
  tabs (snd (CreateOrder 7 (OrderCreateRequest.mk [OrderItemRequest.mk 2 2]) shop)) =
  tabs shop.
Proof.
  apply (CreateOrder_error_rolls_back_unless_reload 7 [OrderItemRequest.mk 2 2] shop
           "insufficient stock for product Gadget");
    [reflexivity | discriminate].
Defined.

Lemma CreateOrder_reload_failure_keeps_order_witness :
  let w := set_faults shop [false; false; false; false; false; false; true] in
  let out := CreateOrder 7 (OrderCreateRequest.mk two_lines) w in
  fst out = Err "failed to load order" /\
  tabs (snd out) =
    committed 7 two_lines "ORD-1700000000-7" 1 0 (tabs shop).
Proof.
  apply (CreateOrder_reload_failure_keeps_order 7 two_lines
           (set_faults shop [false; false; false; false; false; false; true]) []);
    [discriminate | reflexivity | reflexivity | reflexivity | reflexivity].
Defined.

Lemma role_changes_touch_only_the_target_witness :
  role_of (tabs (snd (AssignRole 7 ROLE_SELLER 9 shop))) 8 = role_of (tabs shop) 8 /\
  role_of (tabs (snd (RemoveRole 7 9 shop))) 8 = role_of (tabs shop) 8.
Proof.
  apply (role_changes_touch_only_the_target 7 ROLE_SELLER 9 8 shop). lia.
Defined.

Lemma AssignRole_twice_keeps_the_last_witness :
  let w1 := snd (AssignRole 7 ROLE_SELLER 9 shop) in
  let out := AssignRole 7 ROLE_USER 9 w1 in
  fst out = Ok tt /\
  filter (fun ur => UserRole.UserID ur =? 7) (user_roles (tabs (snd out))) =
    [UserRole.mk 3 7 3] /\
  role_of (tabs (snd out)) 7 = ROLE_USER.
Proof.
  apply (AssignRole_twice_keeps_the_last 7 ROLE_SELLER ROLE_USER
           (Role.mk 2 ROLE_SELLER "Seller with limited admin access")
           (Role.mk 3 ROLE_USER "Regular user") 9 shop);
    try reflexivity; [distinct_keys | lia | discriminate].
Defined.

Lemma AssignRole_allows_self_demotion_witness :
  let out := AssignRole 9 ROLE_SELLER 9 shop in
  fst out = Ok tt /\
  role_of (tabs (snd out)) 9 = ROLE_SELLER /\
  (forall userID name w2,
   tabs w2 = tabs (snd out) ->
   is_ok (fst (AssignRole userID name 9 w2)) = false).
Proof.
  apply (AssignRole_allows_self_demotion 9 ROLE_SELLER
           (Role.mk 2 ROLE_SELLER "Seller with limited admin access") shop);
    try reflexivity; [distinct_keys | discriminate | discriminate].
Defined.

Lemma UpdateStock_keeps_stock_non_negative_witness :
  Forall (fun p => 0 <= Product.Stock p)
         (products (tabs (snd (UpdateStock 2 (-1) shop)))) /\
  map Product.ID (products (tabs (snd (UpdateStock 2 (-1) shop)))) =
  map Product.ID (products (tabs shop)) /\
  (is_ok (fst (UpdateStock 2 (-1) shop)) = false ->
   tabs (snd (UpdateStock 2 (-1) shop)) = tabs shop).
Proof.
  apply (UpdateStock_keeps_stock_non_negative 2 (-1) shop).
  repeat constructor; simpl; lia.
Defined.

Lemma UpdateStock_adds_or_refuses_witness :
  UpdateStock 2 9223372036854775807 shop = (Err "insufficient stock", shop).
Proof.
  apply (UpdateStock_adds_or_refuses 2 9223372036854775807 gadget shop);
    [reflexivity | reflexivity | simpl; lia | lia].
Defined.

Lemma ParseUint32_accepts_digits_only_witness :
  0 <= 7 <= 4294967295 /\ "007" <> "" /\ all_digits "007" = true.
Proof.
  apply (ParseUint32_accepts_digits_only "007" 7). reflexivity.
Defined.

Lemma services_keep_line_items_referenced_witness :
  referential_integrity
    (tabs (fold_left (fun w r => serve r w)
             [AskDeleteProduct 1; AskTransition Cancel 1; AskUpdateStock 2 5;
              AskDeleteProduct 1]
             shop_pending)).
Proof.
  apply (services_keep_line_items_referenced
           [AskDeleteProduct 1; AskTransition Cancel 1; AskUpdateStock 2 5;
            AskDeleteProduct 1] shop_pending).
  split; vm_compute; repeat apply Forall_cons; try apply Forall_nil; intuition.
Defined.
